(** * TED policy: a shallow embedding of [rasa/core/policies/ted_policy.py]

    The development follows the source file top to bottom: the Python and
    NumPy primitives the policy relies on, the label data and its sampling
    metadata, the inference router, negative label sampling, the label
    embeddings of a training step, the attribute and dialogue encoders, the
    entity tagger and the prediction cache.

    Python floats are IEEE binary64 numbers and are modelled by Rocq's
    primitive floats; Python integers are [Z].  Exceptions are values of
    [Exception]; a computation that may raise returns [Result A]. *)

From Stdlib Require Import ZArith Floats List Lia Bool.
From stdpp Require Import base tactics option list strings pretty gmap sorting.

Local Open Scope Z_scope.
Set Warnings "-inexact-float,-clear-no-such-hyp".

(** ** Exceptions and fallible computations *)

Inductive Exception : Type :=
| KeyError (key : string)
| IndexError
| ValueError (msg : string)
| OverflowError
| TFLayerConfigException (msg : string)
| InvalidArgumentError (msg : string).

Definition Result (A : Type) : Type := Exception + A.

Definition ret {A} (a : A) : Result A := inr a.
Definition raise {A} (e : Exception) : Result A := inl e.

#[global] Instance Result_bind : MBind Result := fun A B k m =>
  match m with
  | inl e => inl e
  | inr a => k a
  end.

#[global] Instance Result_ret : MRet Result := fun A a => inr a.

Definition is_ok {A} (r : Result A) : Prop := exists a, r = inr a.

(** [d[key]] on a Python dict kept in insertion order. *)
Fixpoint dict_get {V} (d : list (string * V)) (key : string) : Result V :=
  match d with
  | [] => raise (KeyError key)
  | (k, v) :: rest => if decide (k = key) then ret v else dict_get rest key
  end.

(** [l[i]] on a Python list or on the first axis of an array. *)
Definition list_get {A} (l : list A) (i : nat) : Result A :=
  match l !! i with
  | Some a => ret a
  | None => raise IndexError
  end.

(** ** Python numbers *)

Module PyNum.

(** [float(z)]: the binary64 number nearest to the integer [z], which is
    [z] itself below 2^53. *)
Definition float_of_int (z : Z) : float :=
  SF2Prim (binary_normalize prec emax z 0 false).

(** The integer part [m * 2^e] of a finite binary64 number, towards zero. *)
Definition truncate (m : positive) (e : Z) : Z :=
  match e with
  | Z0 => Zpos m
  | Zpos p => Z.shiftl (Zpos m) (Zpos p)
  | Zneg p => Z.shiftr (Zpos m) (Zpos p)
  end.

(** [int(x)] on a float: truncation towards zero; NaN and the infinities
    raise. *)
Definition int_of_float (x : float) : Result Z :=
  match Prim2SF x with
  | S754_zero _ => ret 0
  | S754_finite s m e => ret (if s then - truncate m e else truncate m e)
  | S754_infinity _ => raise OverflowError
  | S754_nan => raise (ValueError "cannot convert float NaN to integer")
  end.

(** [round(x)] on a float: the nearest integer, ties to the even one. *)
Definition round_half_even (m : positive) (e : Z) : Z :=
  match e with
  | Zneg p =>
      let q := Z.shiftr (Zpos m) (Zpos p) in
      let r := Z.land (Zpos m) (Z.ones (Zpos p)) in
      let half := Z.shiftl 1 (Zpos p - 1) in
      match r ?= half with
      | Lt => q
      | Gt => q + 1
      | Eq => if Z.even q then q else q + 1
      end
  | _ => truncate m e
  end.

Definition round (x : float) : Result Z :=
  match Prim2SF x with
  | S754_zero _ => ret 0
  | S754_finite s m e =>
      ret (if s then - round_half_even m e else round_half_even m e)
  | S754_infinity _ => raise OverflowError
  | S754_nan => raise (ValueError "cannot convert float NaN to integer")
  end.

End PyNum.

(** ** NumPy reductions over one row *)

Module Np.

(** [np.max] propagates NaN. *)
Definition fmax (a b : float) : float :=
  if PrimFloat.is_nan a then a
  else if PrimFloat.is_nan b then b
  else if (a <? b)%float then b else a.

Definition max (row : list float) : Result float :=
  match row with
  | [] => raise (ValueError "zero-size array to reduction operation maximum which has no identity")
  | x :: rest => ret (fold_left fmax rest x)
  end.

(** [np.argmax]: the first position holding the maximum, a NaN counting as
    the maximum. *)
Fixpoint argmax_from (rest : list float) (i : nat) (best : float) (best_i : nat) : nat :=
  match rest with
  | [] => best_i
  | x :: rest' =>
      if PrimFloat.is_nan best then best_i
      else if (PrimFloat.is_nan x || (best <? x)%float)%bool
           then argmax_from rest' (S i) x i
           else argmax_from rest' (S i) best best_i
  end.

Definition argmax (row : list float) : Result nat :=
  match row with
  | [] => raise (ValueError "attempt to get argmax of an empty sequence")
  | x :: rest => ret (argmax_from rest 1 x 0)
  end.

(** [np.sum] of a 0/1 mask: the number of set entries. *)
Definition sum_mask (mask : list bool) : Z :=
  Z.of_nat (length (filter (fun b => b = true) mask)).

End Np.

(** ** Constants

    The attribute and key names are imported by the policy from
    [rasa.shared.nlu.constants], [rasa.shared.core.constants],
    [rasa.core.constants] and [rasa.utils.tensorflow.constants]; the
    strings are the ones of those packages.  The properties below use that
    they are pairwise different, nothing else. *)

Definition ACTION_TEXT : string := "action_text".
Definition ACTION_NAME : string := "action_name".
Definition INTENT : string := "intent".
Definition TEXT : string := "text".
Definition ENTITIES : string := "entities".
Definition SLOTS : string := "slots".
Definition ACTIVE_LOOP : string := "active_loop".
Definition DIALOGUE : string := "dialogue".
Definition LABEL : string := "label".
Definition IDS : string := "ids".
Definition MASK : string := "mask".

Definition LABEL_KEY : string := LABEL.
Definition LABEL_SUB_KEY : string := IDS.
Definition LABEL_ACTION_NAME : string := LABEL +:+ "_" +:+ ACTION_NAME.
Definition LABEL_ACTION_TEXT : string := LABEL +:+ "_" +:+ ACTION_TEXT.
Definition SENTENCE_FEATURES_TO_ENCODE : list string :=
  [INTENT; TEXT; ACTION_NAME; ACTION_TEXT].
Definition SEQUENCE_FEATURES_TO_ENCODE : list string :=
  [TEXT; ACTION_TEXT; LABEL_ACTION_TEXT].
Definition LABEL_FEATURES_TO_ENCODE : list string :=
  [LABEL_ACTION_NAME; LABEL_ACTION_TEXT].
Definition STATE_LEVEL_FEATURES : list string :=
  [ENTITIES; SLOTS; ACTIVE_LOOP].

(** [key in keys] on a Python list of strings. *)
Definition str_in (key : string) (keys : list string) : bool :=
  bool_decide (key ∈ keys).

(** ** Label data and label sampling metadata *)

(** One entry of [RasaModelData.data]: the sub-keys the policy reads.  The
    entry of [LABEL_KEY] carries the label ids under [LABEL_SUB_KEY]; the
    entry of a label-bearing attribute carries a 0/1 mask with one position
    per label id. *)
Record AttributeData : Type := mkAttributeData {
  data_ids : option (list Z);
  data_mask : option (list bool)
}.

(** [RasaModelData.data], a dict in insertion order. *)
Definition RasaModelData : Type := list (string * AttributeData).

Definition get_ids (data : AttributeData) : Result (list Z) :=
  match data_ids data with
  | Some l => ret l
  | None => raise (KeyError LABEL_SUB_KEY)
  end.

Definition get_mask (data : AttributeData) : Result (list bool) :=
  match data_mask data with
  | Some l => ret l
  | None => raise (KeyError MASK)
  end.

(** The inner dict of the metadata: both entries are always written
    together. *)
Record SamplingMetadata : Type := mkSamplingMetadata {
  NUM_LABEL_CANDIDATES : Z;
  LABEL_BATCH_SIZE : Z
}.

Record Domain : Type := mkDomain {
  action_names_or_texts : list string
}.

(** The entries of [self.config] the model reads. *)
Module Config.
Record t : Type := mk {
  E2E_CONFIDENCE_THRESHOLD : float;
  LABEL_BATCH_SIZE : Z;
  ENTITY_RECOGNITION : bool;
  ENCODING_DIMENSION : nat
}.
End Config.

Module TEDPolicy.

(** The fields of a policy the functions below read; of [fake_features],
    which holds all input features the trained model knows, the keys. *)
Record t : Type := mk {
  config : Config.t;
  fake_features : list string
}.

(** [self.only_e2e], as [__init__] sets it: the policy is end-to-end only if
    text is among the fake features and the intent is not. *)
Definition only_e2e (self : t) : bool :=
  str_in TEXT (fake_features self) && negb (str_in INTENT (fake_features self)).

(** The label ids [_assemble_label_data] stores:
    [np.arange(domain.num_actions)]. *)
Definition label_ids (num_actions : nat) : list Z :=
  map Z.of_nat (seq 0 num_actions).

(** *** Label sampling metadata *)

(** The expression assigned to [key_label_batch_size]. *)
Definition key_label_batch_size
    (num_label_ids_for_key num_labels_ids label_batch_size : Z) : Result Z :=
  if label_batch_size =? -1 then ret num_label_ids_for_key
  else
    share ← PyNum.int_of_float
      ((PyNum.float_of_int num_label_ids_for_key / PyNum.float_of_int num_labels_ids)
       * PyNum.float_of_int label_batch_size)%float;
    ret (Z.max 1 share).

(** The loop over [label_data.items()]. *)
Fixpoint sampling_metadata_loop (items : RasaModelData)
    (num_labels_ids label_batch_size : Z)
    (metadata : gmap string SamplingMetadata) : Result (gmap string SamplingMetadata) :=
  match items with
  | [] => ret metadata
  | (key, data) :: rest =>
      if decide (key = LABEL_KEY)
      then sampling_metadata_loop rest num_labels_ids label_batch_size metadata
      else
        mask ← get_mask data;
        let num_label_ids_for_key := Np.sum_mask mask in
        size ← key_label_batch_size num_label_ids_for_key num_labels_ids label_batch_size;
        sampling_metadata_loop rest num_labels_ids label_batch_size
          (<[key := mkSamplingMetadata num_label_ids_for_key size]> metadata)
  end.

Definition get_label_sampling_metadata (label_data : RasaModelData)
    (label_batch_size : Z) : Result (gmap string SamplingMetadata) :=
  label ← dict_get label_data LABEL_KEY;
  label_ids ← get_ids label;
  let num_labels_ids := Z.of_nat (length label_ids) in
  sampling_metadata_loop label_data num_labels_ids label_batch_size ∅.

(** The count the specification words: [round(share * budget)], at least 1. *)
Definition rounded_label_batch_size
    (num_label_ids_for_key num_labels_ids label_batch_size : Z) : Result Z :=
  share ← PyNum.round
    ((PyNum.float_of_int num_label_ids_for_key / PyNum.float_of_int num_labels_ids)
     * PyNum.float_of_int label_batch_size)%float;
  ret (Z.max 1 share).

(** *** Inference router *)

(** [confidences] and [similarities] are arrays of shape
    (batch-size x number of actions), one row per input variant.  The
    comparisons are Python's [>] on floats; the second operand of [and] is
    evaluated only when the first holds. *)
Definition _pick_confidence (self : t)
    (confidences similarities : list (list float)) (domain : Domain)
    : Result (list float * bool) :=
  if (2 <? length confidences)%nat then
    raise (ValueError "We cannot pick prediction from batches of size more than 2.")
  else if (length confidences =? 2)%nat then
    intent_row ← list_get confidences 0;
    intent_top ← Np.argmax intent_row;
    non_e2e_action_name ← list_get (action_names_or_texts domain) intent_top;
    text_row ← list_get confidences 1;
    text_top ← Np.argmax text_row;
    e2e_action_name ← list_get (action_names_or_texts domain) text_top;
    max_confidence ← Np.max text_row;
    prefer_text ←
      (if (Config.E2E_CONFIDENCE_THRESHOLD (config self) <? max_confidence)%float then
         text_sims ← list_get similarities 1;
         text_sim ← Np.max text_sims;
         intent_sims ← list_get similarities 0;
         intent_sim ← Np.max intent_sims;
         ret (intent_sim <? text_sim)%float
       else ret false);
    if (prefer_text : bool) then ret (text_row, true) else ret (intent_row, false)
  else
    first_row ← list_get confidences 0;
    top ← Np.argmax first_row;
    predicted_action_name ← list_get (action_names_or_texts domain) top;
    ret (first_row, only_e2e self).

End TEDPolicy.

Definition Vec : Type := list float.

(** ** Dense tensors

    A tensor of any rank keeps its shape next to its values in row-major
    order; a tensor of rank 3 whose positions are read keeps its rows
    nested. *)

Record Tensor (A : Type) : Type := mkTensor {
  shape : list nat;
  values : list A
}.
Arguments mkTensor {A} _ _.
Arguments shape {A} _.
Arguments values {A} _.

Record Tensor3 : Type := mkTensor3 {
  shape3 : nat * nat * nat;
  data3 : list (list Vec)
}.

(** A 0/1 mask of shape (batch x dialogue length x 1). *)
Record MaskTensor : Type := mkMaskTensor {
  mask_shape : nat * nat;
  mask_data : list (list bool)
}.

Module Tensors.

Definition zeros {A} (zero : A) (dims : list nat) : Tensor A :=
  mkTensor dims (replicate (fold_right Nat.mul 1%nat dims) zero).

Definition zero_vec (units : nat) : Vec := replicate units 0%float.

Definition zeros3 (dims : nat * nat * nat) : Tensor3 :=
  let '(batch_dim, dialogue_dim, units) := dims in
  mkTensor3 dims (replicate batch_dim (replicate dialogue_dim (zero_vec units))).

(** The values fill the shape: every axis has the announced length. *)
Definition well_shaped3 (t : Tensor3) : Prop :=
  let '(batch_dim, dialogue_dim, units) := shape3 t in
  length (data3 t) = batch_dim /\
  Forall (fun row => length row = dialogue_dim /\
                     Forall (fun v : Vec => length v = units) row) (data3 t).

Definition well_shaped_mask (m : MaskTensor) : Prop :=
  length (mask_data m) = (mask_shape m).1 /\
  Forall (fun row => length row = (mask_shape m).2) (mask_data m).

(** The vector at position (b, d). *)
Definition at3 (t : Tensor3) (b d : nat) : option Vec :=
  row ← data3 t !! b; row !! d.

Definition mask_at (m : MaskTensor) (b d : nat) : bool :=
  default false (row ← mask_data m !! b; row !! d).

Definition vec_add (x y : Vec) : Vec := zip_with PrimFloat.add x y.

(** The number of set entries of a row of a mask. *)
Definition count_true (row : list bool) : nat :=
  length (filter (fun b => b = true) row).

End Tensors.

(** ** The TensorFlow operations the model calls *)

(** A seeded random generator: the stream of its draws and the position
    reached in it. *)
Record RNG : Type := mkRNG {
  stream : nat -> nat;
  position : nat
}.

Definition draw (g : RNG) : nat * RNG :=
  (stream g (position g), mkRNG (stream g) (S (position g))).

Module Tf.

(** [tf.boolean_mask] along the first axis; the mask has to cover it. *)
Definition boolean_mask {A} (tensor : list A) (mask : list bool) : Result (list A) :=
  if (length tensor =? length mask)%nat
  then ret (map fst (filter (fun p => p.2 = true) (zip tensor mask)))
  else raise (InvalidArgumentError "Shapes of tensor and mask are incompatible").

(** [tf.gather] along the first axis; an index out of range is an error. *)
Fixpoint gather {A} (params : list A) (indices : list nat) : Result (list A) :=
  match indices with
  | [] => ret []
  | i :: rest =>
      match params !! i with
      | Some a => gathered ← gather params rest; ret (a :: gathered)
      | None => raise (InvalidArgumentError "indices out of range")
      end
  end.

(** [tf.concat] along the first axis; it needs at least one tensor. *)
Definition concat {A} (values : list (list A)) : Result (list A) :=
  match values with
  | [] => raise (ValueError "List argument 'values' to 'ConcatV2' Op is too short")
  | _ => ret (List.concat values)
  end.

(** [tf.unique(x)[0]]: the values of [x] in the order of their first
    occurrence. *)
Fixpoint unique_from (seen x : list Z) : list Z :=
  match x with
  | [] => []
  | v :: rest =>
      if bool_decide (v ∈ seen) then unique_from seen rest
      else v :: unique_from (v :: seen) rest
  end.

Definition unique (x : list Z) : list Z := unique_from [] x.

(** [tf.sort], ascending. *)
Definition sort (x : list Z) : list Z := merge_sort Z.le x.

(** [tf.cast(x, tf.float32)] on an integral value in the range of float32:
    the nearest number with a 24-bit significand, ties to even. *)
Definition cast_float32 (z : Z) : Z :=
  let a := Z.abs z in
  let shift := Z.log2 a - 23 in
  if shift <=? 0 then z
  else
    let q := Z.shiftr a shift in
    let r := Z.land a (Z.ones shift) in
    let half := Z.shiftl 1 (shift - 1) in
    let q' := match r ?= half with
              | Lt => q
              | Gt => q + 1
              | Eq => if Z.even q then q else q + 1
              end in
    Z.sgn z * Z.shiftl q' shift.

(** Successive uniform draws among the classes not chosen yet. *)
Fixpoint sample_distinct (remaining : list nat) (num_sampled : nat) (g : RNG)
    : list nat * RNG :=
  match num_sampled with
  | O => ([], g)
  | S n =>
      match remaining with
      | [] => ([], g)
      | first :: _ =>
          let '(d, g1) := draw g in
          let i := (d mod length remaining)%nat in
          let '(sampled, g2) := sample_distinct (delete i remaining) n g1 in
          (nth i remaining first :: sampled, g2)
      end
  end.

(** Independent uniform draws. *)
Fixpoint sample_repeated (range_max num_sampled : nat) (g : RNG) : list nat * RNG :=
  match num_sampled with
  | O => ([], g)
  | S n =>
      let '(d, g1) := draw g in
      let '(sampled, g2) := sample_repeated range_max n g1 in
      ((d mod range_max)%nat :: sampled, g2)
  end.

(** [tf.random.uniform_candidate_sampler(...)[0]]: [num_sampled] classes
    drawn uniformly from [0, range_max), all distinct when [unique] is set.
    The attributes are integers not below 1, [true_classes] has [num_true]
    columns, and a unique sample cannot be larger than the range. *)
Definition uniform_candidate_sampler (true_classes : list Z)
    (num_true num_sampled : Z) (unique : bool) (range_max : Z) (g : RNG)
    : Result (list nat * RNG) :=
  if (num_true <? 1) || (num_sampled <? 1) || (range_max <? 1) then
    raise (ValueError "Attr of 'UniformCandidateSampler' Op less than minimum 1")
  else if negb (Z.of_nat (length true_classes) =? num_true) then
    raise (InvalidArgumentError "true_classes must have num_true columns")
  else if unique && (range_max <? num_sampled) then
    raise (InvalidArgumentError "Sampler's range is too small.")
  else if unique then
    ret (sample_distinct (seq 0 (Z.to_nat range_max)) (Z.to_nat num_sampled) g)
  else
    ret (sample_repeated (Z.to_nat range_max) (Z.to_nat num_sampled) g).

(** [tf.stack([x, y], axis=1)] of two vectors. *)
Definition stack (x y : list nat) : Result (list (nat * nat)) :=
  if (length x =? length y)%nat then ret (zip x y)
  else raise (InvalidArgumentError "Shapes of all inputs must match").

(** [tf.squeeze(t, axis=1)] on a tensor of shape (N x 1 x units). *)
Definition squeeze_axis1 (t : Tensor3) : Result (list Vec) :=
  if ((shape3 t).1.2 =? 1)%nat then ret (map (fun row => default [] (head row)) (data3 t))
  else raise (InvalidArgumentError "Can not squeeze dim[1], expected a dimension of 1").

(** The sum of the updates scattered to one position, starting from zero. *)
Definition scattered_at (indices : list (nat * nat)) (updates : list Vec)
    (units b d : nat) : Vec :=
  fold_left Tensors.vec_add
    (map snd (filter (fun p => p.1 = (b, d)) (zip indices updates)))
    (Tensors.zero_vec units).

(** [tf.scatter_nd(indices, updates, shape)] for indices into the first two
    axes: one update per index, every index inside the shape. *)
Definition scatter_nd (indices : list (nat * nat)) (updates : list Vec)
    (dims : nat * nat * nat) : Result Tensor3 :=
  let '(batch_dim, dialogue_dim, units) := dims in
  if negb (length indices =? length updates)%nat then
    raise (InvalidArgumentError "Dimensions of indices and updates must match")
  else if negb (forallb (fun p => (p.1 <? batch_dim)%nat && (p.2 <? dialogue_dim)%nat) indices) then
    raise (InvalidArgumentError "indices is out of bounds")
  else
    ret (mkTensor3 dims
           (map (fun b => map (scattered_at indices updates units b) (seq 0 dialogue_dim))
                (seq 0 batch_dim))).

(** [tf.reverse_sequence(input, seq_lengths, seq_axis=1)]: the first
    [seq_lengths[b]] turns of dialogue [b] in reverse order, the rest in
    place. *)
Definition reverse_row {A} (row : list A) (n : nat) : list A :=
  rev (take n row) ++ drop n row.

Definition reverse_sequence {A} (input : list (list A)) (seq_lengths : list nat)
    : Result (list (list A)) :=
  if negb (length input =? length seq_lengths)%nat then
    raise (InvalidArgumentError "seq_lengths must have one entry per batch row")
  else if negb (forallb (fun p => (p.2 <=? length p.1)%nat) (zip input seq_lengths)) then
    raise (InvalidArgumentError "seq_lengths exceeds the sequence axis")
  else ret (zip_with reverse_row input seq_lengths).

End Tf.

(** ** Parts of Rasa outside the source file *)

Module rasa_layers.

(** Modelled from the spec: [rasa_layers.compute_mask], which is not part of
    the source file, gives the validity mask of the dialogue encoder; it
    "has exactly [length[i]] true entries for example [i] and zero
    elsewhere".  The entries are the floats 1 and 0, the mask being
    subtracted from 1 below. *)
Definition compute_mask (sequence_lengths : list nat) : list (list float) :=
  let max_length := max_list sequence_lengths in
  map (fun n => map (fun d => if (d <? n)%nat then 1%float else 0%float) (seq 0 max_length))
      sequence_lengths.

End rasa_layers.

(** ** The TED model: negative label sampling *)

Module TED.

(** The state of a model the functions below read. *)
Record t : Type := mk {
  config : Config.t;
  max_history_featurizer_is_used : bool;
  tf_label_data : RasaModelData;
  _label_sampling_metadata : gmap string SamplingMetadata;
  _training : bool;
  all_labels_embed : option (list Vec)
}.

Definition label_batch_size_message (label_batch_size total_num_label_ids : Z) : string :=
  "label_batch_size is set to " +:+ pretty label_batch_size +:+
  " which is greater that total number of unique label ids (" +:+
  pretty total_num_label_ids +:+
  "). Please make sure that label_batch_size is set to a value smaller than " +:+
  "or equal to the number of unique label ids.".

Definition all_label_ids (self : t) : Result (list Z) :=
  label ← dict_get (tf_label_data self) LABEL_KEY;
  get_ids label.

Definition calculate_key_ids (self : t) (key : string) : Result (list Z) :=
  all_labels ← all_label_ids self;
  data ← dict_get (tf_label_data self) key;
  label_mask_for_key ← get_mask data;
  Tf.boolean_mask all_labels label_mask_for_key.

Definition _sample_unique_label_ids (all_label_ids : list Z)
    (num_samples total_num_label_ids : Z) (g : RNG) : Result (list Z * RNG) :=
  '(indices, g') ← Tf.uniform_candidate_sampler all_label_ids
                     total_num_label_ids num_samples true total_num_label_ids g;
  sampled_label_ids ← Tf.gather all_label_ids indices;
  ret (map Tf.cast_float32 sampled_label_ids, g').

Definition sampling_metadata (self : t) (key : string) : Result SamplingMetadata :=
  match _label_sampling_metadata self !! key with
  | Some metadata => ret metadata
  | None => raise (KeyError key)
  end.

(** The loop "sample for each key" over the keys of [tf_label_data]. *)
Fixpoint sample_for_each_key (self : t) (keys : list string) (g : RNG)
    : Result (list (list Z) * RNG) :=
  match keys with
  | [] => ret ([], g)
  | key :: rest =>
      if decide (key = LABEL_KEY) then sample_for_each_key self rest g
      else
        key_ids ← calculate_key_ids self key;
        metadata ← sampling_metadata self key;
        '(label_ids, g1) ← _sample_unique_label_ids key_ids
                             (LABEL_BATCH_SIZE metadata)
                             (NUM_LABEL_CANDIDATES metadata) g;
        '(sampled_label_ids, g2) ← sample_for_each_key self rest g1;
        ret (label_ids :: sampled_label_ids, g2)
  end.

Definition _sample_negative_label_ids (self : t) (label_batch_size : Z) (g : RNG)
    : Result (list Z * RNG) :=
  all_ids ← all_label_ids self;
  let total_num_label_ids := Z.of_nat (length all_ids) in
  if total_num_label_ids <? label_batch_size then
    raise (TFLayerConfigException
             (label_batch_size_message label_batch_size total_num_label_ids))
  else
    '(sampled_label_ids, g') ← sample_for_each_key self (tf_label_data self).*1 g;
    sampled ← Tf.concat sampled_label_ids;
    ret (sampled, g').

(** What one attribute contributes to the negatives: a [sample] of the
    label ids [ids] that holds only ids whose mask entry for [key] is set,
    no id twice, and as many ids as the metadata of [key] asks for. *)
Definition sample_of (self : t) (ids : list Z) (key : string) (sample : list Z) : Prop :=
  exists data mask metadata,
    dict_get (tf_label_data self) key = inr data /\
    data_mask data = Some mask /\
    _label_sampling_metadata self !! key = Some metadata /\
    NoDup sample /\
    (forall id, id ∈ sample ->
       exists i, ids !! i = Some id /\ mask !! i = Some true) /\
    Z.of_nat (length sample) = LABEL_BATCH_SIZE metadata.

(** *** Label embeddings of a training step *)

(** [_create_label_embeddings_for_training], up to the embedding itself:
    the unique, sorted ids for which embeddings have to be computed.
    [positive_label_ids] has one row per dialogue of the batch. *)
Definition unique_label_ids (negative_label_ids : list Z)
    (positive_label_ids : list (list Z)) : list Z :=
  let concatenated_ids := negative_label_ids ++ List.concat positive_label_ids in
  Tf.sort (Tf.unique concatenated_ids).

(** The positions [u] with [all_label_ids[u] = selection_id], ascending:
    one row of [tf.where(tf.transpose(tf.equal(...)))[:, 1]]. *)
Definition where_equal (all_label_ids : list Z) (selection_id : Z) : list nat :=
  map fst (filter (fun p => p.2 = selection_id) (imap (fun u v => (u, v)) all_label_ids)).

Definition _get_labels_embed (selection_ids all_label_ids : list Z)
    (all_labels_embed : list Vec) : Result (list Vec) :=
  let indices := flat_map (where_equal all_label_ids) selection_ids in
  Tf.gather all_labels_embed indices.

(** *** The batch and the layers *)

(** One attribute of [tf_batch_data]: its mask and the first axis of its
    sentence features, which has one row per real instance. *)
Record BatchAttribute : Type := mkBatchAttribute {
  attribute_mask : MaskTensor;
  sentence_rows : nat
}.

(** [tf_batch_data]: the attributes, the dialogue lengths, the dialogue
    indices written by [_compute_dialogue_indices], and the label ids. *)
Record BatchData : Type := mkBatchData {
  attributes : list (string * BatchAttribute);
  dialogue_length : list nat;
  dialogue_indices : list nat;
  batch_label_ids : list (list Z)
}.

Record Metrics : Type := mkMetrics {
  action_loss : list float;
  action_acc : list float;
  entity_loss : list float;
  entity_f1 : list float
}.

Record Predictions : Type := mkPredictions {
  action_scores : list (list Vec);
  similarities : list (list Vec);
  attention_weights : list (list Vec);
  entity_ids : option (Tensor Z);
  entity_scores : option (Tensor float)
}.

(** The trainable layers and the methods that only chain layers.  They are
    functions of their inputs; nothing else is known about them. *)
Class Layers : Type := {
  (** [_compute_embedding_for_label_ids]: the label encoders and the label
      embedding layer on the label data filtered to the given ids. *)
  _compute_embedding_for_label_ids : RasaModelData -> bool -> list Z -> list Vec;
  (** [_process_batch_data]: the encoding of all attributes, the text
      transformer output and the text sequence lengths. *)
  _process_batch_data :
    BatchData -> bool -> list (list Vec) * option (Tensor float) * option (Tensor Z);
  (** [rasa_layers.prepare_transformer_layer] for an attribute and a
      direction; the layer maps an input, a padding mask and the training
      flag to its output and attention weights. *)
  prepare_transformer_layer :
    string -> bool -> list (list Vec) -> list (list float) -> bool ->
    list (list Vec) * list (list Vec);
  gelu : float -> float;
  embed_dialogue_layer : list (list Vec) -> list (list Vec);
  loss_label_layer :
    list (list Vec) -> list Vec -> list (list Z) -> list Vec -> list Z ->
    list (list float) -> float * float;
  similarity_confidence_from_embeddings :
    list (list Vec) -> list Vec -> list (list float) ->
    list (list Vec) * list (list Vec);
  (** [_reshape_for_entities] followed by [_calculate_entity_loss]: the
      loss and the F1 score of the tagger. *)
  entity_loss_and_f1 :
    BatchData -> list (list Vec) -> Tensor float -> Tensor Z -> float * float;
  (** [_reshape_for_entities], the logits layer and the CRF. *)
  _real_batch_predict_entities :
    BatchData -> list (list Vec) -> Tensor float -> Tensor Z ->
    Tensor Z * Tensor float;
  (** The layers of [_encode_real_features_per_attribute] in front of
      [_convert_to_original_shape]: features of shape (N x 1 x units), the
      text transformer output and the text sequence lengths. *)
  real_attribute_layers :
    BatchData -> string -> bool -> bool -> Tensor3 * Tensor float * Tensor Z;
  sparse_dense_concat_output_units : string -> nat;
  sequence_layer_output_units : string -> nat
}.

(** *** Attribute encoder *)

Definition _compute_dialogue_indices (tf_batch_data : BatchData) : BatchData :=
  mkBatchData (attributes tf_batch_data) (dialogue_length tf_batch_data)
    (flat_map (seq 0) (dialogue_length tf_batch_data))
    (batch_label_ids tf_batch_data).

(** [tf.sequence_mask(lengths)] has shape (len(lengths) x max(lengths));
    [tf.boolean_mask(attribute_mask, tf.sequence_mask(lengths))] keeps, row
    by row, the entries in front of the row's length. *)
Definition mask_within_lengths (attribute_mask : MaskTensor) (lengths : list nat)
    : Result (list bool) :=
  if bool_decide (mask_shape attribute_mask = (length lengths, max_list lengths))
  then ret (List.concat (zip_with take lengths (mask_data attribute_mask)))
  else raise (InvalidArgumentError "Shapes of tensor and mask are incompatible").

Definition batch_attribute (tf_batch_data : BatchData) (attribute : string)
    : Result BatchAttribute :=
  dict_get (attributes tf_batch_data) attribute.

Definition _convert_to_original_shape (attribute_features : Tensor3)
    (tf_batch_data : BatchData) (attribute : string) : Result Tensor3 :=
  data ← batch_attribute tf_batch_data attribute;
  let attribute_mask := attribute_mask data in
  let batch_dim := (mask_shape attribute_mask).1 in
  let dialogue_dim := (mask_shape attribute_mask).2 in
  let '(dialogue_lengths, dialogue_indices) :=
    if str_in attribute (SENTENCE_FEATURES_TO_ENCODE ++ STATE_LEVEL_FEATURES)
    then (dialogue_length tf_batch_data, dialogue_indices tf_batch_data)
    else (replicate batch_dim 1%nat, replicate batch_dim 0%nat) in
  let units := (shape3 attribute_features).2 in
  let non_fake_dialogue_lengths := map Tensors.count_true (mask_data attribute_mask) in
  let batch_indices :=
    List.concat (zip_with (fun b n => replicate n b) (seq 0 batch_dim)
                   non_fake_dialogue_lengths) in
  dialogue_indices_mask ← mask_within_lengths attribute_mask dialogue_lengths;
  dialogue_indices ← Tf.boolean_mask dialogue_indices dialogue_indices_mask;
  indices ← Tf.stack batch_indices dialogue_indices;
  features ← Tf.squeeze_axis1 attribute_features;
  Tf.scatter_nd indices features (batch_dim, dialogue_dim, units).

Section Encoders.
Context {L : Layers}.

(** The width of the encoding of an attribute. *)
Definition attribute_units (self : t) (attribute : string) : nat :=
  if str_in attribute (SENTENCE_FEATURES_TO_ENCODE ++ LABEL_FEATURES_TO_ENCODE)
  then Config.ENCODING_DIMENSION (config self)
  else sparse_dense_concat_output_units attribute.

Definition _encode_fake_features_per_attribute (self : t) (tf_batch_data : BatchData)
    (attribute : string) : Result (Tensor3 * Tensor float * Tensor Z) :=
  data ← batch_attribute tf_batch_data attribute;
  let attribute_mask := attribute_mask data in
  let batch_dim := (mask_shape attribute_mask).1 in
  let dialogue_dim := (mask_shape attribute_mask).2 in
  let units := attribute_units self attribute in
  let attribute_features := Tensors.zeros3 (batch_dim, dialogue_dim, units) in
  if decide (attribute = TEXT) then
    let text_units := sequence_layer_output_units attribute in
    ret (attribute_features,
         Tensors.zeros 0%float [0; 0; text_units]%nat,
         Tensors.zeros 0 [0%nat])
  else
    ret (attribute_features, Tensors.zeros 0%float [0%nat], Tensors.zeros 0 [0%nat]).

Definition _encode_real_features_per_attribute (self : t) (tf_batch_data : BatchData)
    (attribute : string) : Result (Tensor3 * Tensor float * Tensor Z) :=
  let '(attribute_features, text_output, text_sequence_lengths) :=
    real_attribute_layers tf_batch_data attribute (_training self)
      (max_history_featurizer_is_used self) in
  attribute_features ← _convert_to_original_shape attribute_features tf_batch_data attribute;
  ret (attribute_features, text_output, text_sequence_lengths).

Definition _encode_features_per_attribute (self : t) (tf_batch_data : BatchData)
    (attribute : string) : Result (Tensor3 * Tensor float * Tensor Z) :=
  data ← batch_attribute tf_batch_data attribute;
  if (0 <? sentence_rows data)%nat
  then _encode_real_features_per_attribute self tf_batch_data attribute
  else _encode_fake_features_per_attribute self tf_batch_data attribute.

End Encoders.

(** *** Dialogue encoder *)

(** Modelled from the spec: [TransformerRasaModel._last_token], inherited by
    the model, keeps for every example the output of its last valid turn,
    the one at position [max(0, length - 1)]. *)
Definition _last_token {A} (x : list (list A)) (sequence_lengths : list nat)
    : Result (list A) :=
  if negb (length x =? length sequence_lengths)%nat then
    raise (InvalidArgumentError "one sequence length per batch row")
  else
    mapM (fun p : list A * nat =>
            match p.1 !! (p.2 - 1)%nat with
            | Some v => ret v
            | None => raise (InvalidArgumentError "indices out of range")
            end)
         (zip x sequence_lengths).

Section Model.
Context {L : Layers}.

(** The entry of [_tf_layers] the properties below are about: the dialogue
    transformer. *)
Record TfLayers : Type := mkTfLayers {
  transformer_DIALOGUE :
    list (list Vec) -> list (list float) -> bool -> list (list Vec) * list (list Vec)
}.

(** [_prepare_layers]: the dialogue transformer is bidirectional when the
    dialogue sequence is going to be inverted. *)
Definition _prepare_layers (self : t) : TfLayers :=
  mkTfLayers
    (prepare_transformer_layer DIALOGUE (negb (max_history_featurizer_is_used self))).

Definition _embed_dialogue (self : t) (dialogue_in : list (list Vec))
    (tf_batch_data : BatchData)
    : Result (list (list Vec) * list (list float) * list (list Vec) * list (list Vec)) :=
  let dialogue_lengths := dialogue_length tf_batch_data in
  let mask := rasa_layers.compute_mask dialogue_lengths in
  dialogue_in ←
    (if max_history_featurizer_is_used self
     then Tf.reverse_sequence dialogue_in dialogue_lengths
     else ret dialogue_in);
  let '(dialogue_transformed, attention_weights) :=
    transformer_DIALOGUE (_prepare_layers self) dialogue_in
      (map (map (fun m => (1 - m)%float)) mask) (_training self) in
  let dialogue_transformed := map (map (map gelu)) dialogue_transformed in
  '(dialogue_transformed, mask) ←
    (if max_history_featurizer_is_used self then
       last_mask ← _last_token mask dialogue_lengths;
       ret (map (take 1) dialogue_transformed, map (fun m => [m]) last_mask)
     else if negb (_training self) then
       last_turn ← _last_token dialogue_transformed dialogue_lengths;
       last_mask ← _last_token mask dialogue_lengths;
       ret (map (fun v => [v]) last_turn, map (fun m => [m]) last_mask)
     else ret (dialogue_transformed, mask));
  let dialogue_embed := embed_dialogue_layer dialogue_transformed in
  ret (dialogue_embed, mask, dialogue_transformed, attention_weights).

(** *** Entity tagger *)

Definition _real_batch_loss_entities (metrics : Metrics) (tf_batch_data : BatchData)
    (dialogue_transformer_output : list (list Vec)) (text_output : Tensor float)
    (text_sequence_lengths : Tensor Z) : float * Metrics :=
  let '(loss, f1) :=
    entity_loss_and_f1 tf_batch_data dialogue_transformer_output text_output
      text_sequence_lengths in
  (loss, mkMetrics (action_loss metrics) (action_acc metrics)
           (entity_loss metrics ++ [loss]) (entity_f1 metrics ++ [f1])).

(** [tf.shape(text_output)[0]] *)
Definition first_dim {A} (x : Tensor A) : nat := default 0%nat (head (shape x)).

Definition _batch_loss_entities (metrics : Metrics) (tf_batch_data : BatchData)
    (dialogue_transformer_output : list (list Vec)) (text_output : Tensor float)
    (text_sequence_lengths : Tensor Z) : float * Metrics :=
  if (0 <? first_dim text_output)%nat
  then _real_batch_loss_entities metrics tf_batch_data dialogue_transformer_output
         text_output text_sequence_lengths
  else (0%float, metrics).

Definition _batch_predict_entities (tf_batch_data : BatchData)
    (dialogue_transformer_output : list (list Vec)) (text_output : Tensor float)
    (text_sequence_lengths : Tensor Z) : Tensor Z * Tensor float :=
  if (0 <? first_dim text_output)%nat
  then _real_batch_predict_entities tf_batch_data dialogue_transformer_output
         text_output text_sequence_lengths
  else (Tensors.zeros 0 (take 2 (shape text_output)),
        Tensors.zeros 0%float (take 2 (shape text_output))).

(** *** Training step *)

Definition _create_label_embeddings_for_training (self : t)
    (negative_label_ids : list Z) (positive_label_ids : list (list Z))
    : list Z * list Vec :=
  let all_unique_label_ids := unique_label_ids negative_label_ids positive_label_ids in
  let all_labels_embed :=
    _compute_embedding_for_label_ids (tf_label_data self) (_training self)
      all_unique_label_ids in
  (all_unique_label_ids, all_labels_embed).


(** The head of [batch_loss]: the negatives are sampled, the embeddings of
    the unique label ids are computed, and the embeddings of the positive
    and of the negative slots are gathered from them. *)
Definition batch_label_embeddings (self : t) (tf_batch_data : BatchData) (g : RNG)
    : Result (list Z * list Vec * list Vec * list Vec * list Z * RNG) :=
  let positive_label_ids := batch_label_ids tf_batch_data in
  '(negative_label_ids, g') ←
    _sample_negative_label_ids self (Config.LABEL_BATCH_SIZE (config self)) g;
  let '(all_unique_label_ids, all_labels_embed) :=
    _create_label_embeddings_for_training self negative_label_ids positive_label_ids in
  positive_labels_embed ←
    _get_labels_embed (List.concat positive_label_ids) all_unique_label_ids all_labels_embed;
  negative_labels_embed ←
    _get_labels_embed negative_label_ids all_unique_label_ids all_labels_embed;
  ret (all_unique_label_ids, all_labels_embed, positive_labels_embed,
       negative_labels_embed, negative_label_ids, g').


End Model.

(** *** Prediction *)

(** [TED.__init__]: the fields the constructor stores; the cached label
    embeddings start unset. *)
Definition init (config : Config.t) (max_history_featurizer_is_used : bool)
    (label_data : RasaModelData)
    (label_sampling_metadata : gmap string SamplingMetadata) (training : bool) : t :=
  mk config max_history_featurizer_is_used label_data label_sampling_metadata
     training None.

Definition set_all_labels_embed (self : t) (embed : list Vec) : t :=
  mk (config self) (max_history_featurizer_is_used self) (tf_label_data self)
     (_label_sampling_metadata self) (_training self) (Some embed).

(** [x[start : stop]] along the first axis, for any integers. *)
Definition slice {A} (x : list A) (start stop : Z) : list A :=
  let n := Z.of_nat (length x) in
  let clamp i := if i <? 0 then Z.max 0 (i + n) else Z.min i n in
  take (Z.to_nat (clamp stop - clamp start)) (drop (Z.to_nat (clamp start)) x).

(** The error of [batch_predict] on a model that was not prepared. *)
Definition not_prepared_error : Exception :=
  ValueError
    "The model was not prepared for prediction. Call `prepare_for_predict` first.".

Section Prediction.
Context {L : Layers}.

(** The loop "compute in batches" of [prepare_for_predict]; [fuel] bounds
    the number of iterations and [None] means that it did not suffice. *)
Fixpoint prepare_in_batches (fuel : nat) (self : t) (all_label_ids : list Z)
    (index : Z) (all_label_embeds : list (list Vec)) : option (list (list Vec)) :=
  match fuel with
  | O => None
  | S fuel' =>
      if index <? Z.of_nat (length all_label_ids) then
        let batch_label_ids :=
          slice all_label_ids index (index + Config.LABEL_BATCH_SIZE (config self)) in
        let batch_label_embeds :=
          _compute_embedding_for_label_ids (tf_label_data self) (_training self)
            batch_label_ids in
        prepare_in_batches fuel' self all_label_ids
          (index + Config.LABEL_BATCH_SIZE (config self))
          (all_label_embeds ++ [batch_label_embeds])
      else Some all_label_embeds
  end.

Definition prepare_for_predict (fuel : nat) (self : t) : option (Result t) :=
  match all_label_ids self with
  | inl e => Some (raise e)
  | inr all_label_ids =>
      if Config.LABEL_BATCH_SIZE (config self) =? -1 then
        Some (ret (set_all_labels_embed self
                     (_compute_embedding_for_label_ids (tf_label_data self)
                        (_training self) all_label_ids)))
      else
        match prepare_in_batches fuel self all_label_ids 0 [] with
        | None => None
        | Some all_label_embeds =>
            Some (embed ← Tf.concat all_label_embeds;
                  ret (set_all_labels_embed self embed))
        end
  end.

(** The body of [batch_predict] behind the check of the cache. *)
Definition predict_with (self : t) (all_labels_embed : list Vec) (batch_in : BatchData)
    : Result Predictions :=
  let tf_batch_data := _compute_dialogue_indices batch_in in
  let '(dialogue_in, text_output, text_sequence_lengths) :=
    _process_batch_data tf_batch_data (_training self) in
  '(dialogue_embed, dialogue_mask, dialogue_transformer_output, attention_weights) ←
    _embed_dialogue self dialogue_in tf_batch_data;
  let '(sim_all, scores) :=
    similarity_confidence_from_embeddings dialogue_embed all_labels_embed dialogue_mask in
  match Config.ENTITY_RECOGNITION (config self), text_output, text_sequence_lengths with
  | true, Some text_output, Some text_sequence_lengths =>
      let '(pred_ids, confidences) :=
        _batch_predict_entities tf_batch_data dialogue_transformer_output
          text_output text_sequence_lengths in
      ret (mkPredictions scores sim_all attention_weights (Some pred_ids) (Some confidences))
  | _, _, _ => ret (mkPredictions scores sim_all attention_weights None None)
  end.

Definition batch_predict (self : t) (batch_in : BatchData) : Result Predictions :=
  match all_labels_embed self with
  | None => raise not_prepared_error
  | Some all_labels_embed => predict_with self all_labels_embed batch_in
  end.

End Prediction.

End TED.

(** * Further parts of the source file *)

(** ** Further constants *)

Definition SENTENCE : string := "sentence".
Definition SEQUENCE : string := "sequence".
Definition SEQUENCE_LENGTH : string := "sequence_lengths".
Definition FEATURE_TYPE_SENTENCE : string := "sentence".
Definition ENTITY_TAGS : string := "entity_tags".
Definition ENTITY_ATTRIBUTE_TYPE : string := "entity".
Definition EXTRACTOR : string := "extractor".
Definition ACTION_LISTEN_NAME : string := "action_listen".
Definition PREDICTION_FEATURES : list string :=
  STATE_LEVEL_FEATURES ++ SENTENCE_FEATURES_TO_ENCODE ++ [DIALOGUE].

(** ** Data signatures *)

Module Signatures.

(** [FeatureSignature], the description of one feature array. *)
Record FeatureSignature : Type := mkFeatureSignature {
  is_sparse : bool;
  units : nat;
  number_of_dimensions : nat
}.

(** The signature of an attribute, by feature type, and of the data, by
    attribute; dicts in insertion order. *)
Definition AttributeSignature : Type := list (string * list FeatureSignature).
Definition DataSignature : Type := list (string * AttributeSignature).

(** What [_check_data] raises: Rasa's own exception or a built-in one. *)
Inductive Error : Type :=
| RasaException (msg : string)
| Builtin (e : Exception).

(** [any(key in keys for key in self.data_signature.keys())] *)
Definition any_key_in (keys : list string) (data_signature : DataSignature) : bool :=
  existsb (fun key => str_in key keys) data_signature.*1.

(** [TED._check_data]; the class name in the messages is the one of the
    model. *)
Definition _check_data (data_signature : DataSignature) : Error + unit :=
  if negb (any_key_in [INTENT; TEXT] data_signature) then
    inl (RasaException "No user features specified. Cannot train 'TED' model.")
  else if negb (any_key_in [ACTION_NAME; ACTION_TEXT] data_signature) then
    inl (Builtin (ValueError "No action features specified. Cannot train 'TED' model."))
  else if negb (str_in LABEL data_signature.*1) then
    inl (Builtin (ValueError "No label features specified. Cannot train 'TED' model."))
  else inr ().

(** The dict comprehension that keeps the entries whose name is a
    prediction feature. *)
Definition prediction_features_only {V} (data : list (string * V)) : list (string * V) :=
  filter (fun entry => entry.1 ∈ PREDICTION_FEATURES) data.

(** [self.predict_data_signature], as [TED.__init__] sets it. *)
Definition predict_data_signature (data_signature : DataSignature) : DataSignature :=
  prediction_features_only data_signature.

(** The data of [predict_data_example], as [TEDPolicy.load] builds it from
    the persisted data example. *)
Definition predict_data_example {V} (model_data_example : list (string * V))
    : list (string * V) :=
  prediction_features_only model_data_example.

End Signatures.

(** ** Further parts of the attribute encoder *)

Module Masks.

(** The positions of the set entries of a row of a mask, ascending. *)
Definition true_positions (row : list bool) : list nat :=
  map fst (filter (fun p : nat * bool => p.2 = true) (zip (seq 0 (length row)) row)).

(** The set entries of a mask in row-major order, the rows counted from
    [b0]. *)
Fixpoint set_positions_from (b0 : nat) (rows : list (list bool)) : list (nat * nat) :=
  match rows with
  | [] => []
  | row :: rows' => map (pair b0) (true_positions row) ++ set_positions_from (S b0) rows'
  end.

Definition set_positions (mask : MaskTensor) : list (nat * nat) :=
  set_positions_from 0 (mask_data mask).

(** For every turn of every dialogue, in the order of the batch, whether it
    is the last turn of its dialogue. *)
Definition last_turn_marks (dialogue_lengths : list nat) : list bool :=
  flat_map (fun n => map (fun d => bool_decide (S d = n)) (seq 0 n)) dialogue_lengths.

End Masks.

Module TEDBatch.

(** [tf_batch_data] together with the integer tensors of its attributes:
    for every attribute its sub-keys, the sequence lengths among them, and
    under every sub-key a list of tensors.  The sequence lengths have one
    entry per dialogue turn of the batch, 0 where the turn has no real
    features of the attribute. *)
Record SequenceBatchData : Type := mkSequenceBatchData {
  batch_data : TED.BatchData;
  attribute_tensors : list (string * list (string * list (Tensor Z)))
}.

(** An integer tensor used as a mask sets its non-zero entries. *)
Definition nonzero (n : Z) : bool := negb (n =? 0).

(** [tf.reshape(tf_batch_data[attribute][SEQUENCE_LENGTH][0], (-1,))] is
    three lookups and the values of the tensor in row-major order. *)
Definition _create_last_dialogue_turns_mask (tf_batch_data : SequenceBatchData)
    (attribute : string) : Result (list bool) :=
  let last_dialogue_turn_mask :=
    map (fun i => negb (negb (i =? 0)%nat))
        (tail (TED.dialogue_indices (batch_data tf_batch_data) ++ [0%nat])) in
  attribute_data ← dict_get (attribute_tensors tf_batch_data) attribute;
  sequence_lengths ← dict_get attribute_data SEQUENCE_LENGTH;
  sequence_lengths ← list_get sequence_lengths 0;
  Tf.boolean_mask last_dialogue_turn_mask (map nonzero (values sequence_lengths)).

(** *** Tensors of rank 3: addition and concatenation *)

(** The length of an axis of [x + y]: equal lengths, or one of them 1. *)
Definition broadcast_dim (m n : nat) : Result nat :=
  if (m =? n)%nat then ret m
  else if (m =? 1)%nat then ret n
  else if (n =? 1)%nat then ret m
  else raise (InvalidArgumentError "Incompatible shapes").

(** Entry [i] along an axis of length [n]; an axis of length 1 is
    repeated. *)
Definition broadcast_nth {A} (d : A) (l : list A) (n i : nat) : A :=
  nth (if (n =? 1)%nat then 0%nat else i) l d.

Definition entry3 (x : Tensor3) (i j k : nat) : float :=
  let '(batch_dim, dialogue_dim, units) := shape3 x in
  broadcast_nth 0%float
    (broadcast_nth [] (broadcast_nth [] (data3 x) batch_dim i) dialogue_dim j) units k.

(** [x + y] on tensors of rank 3. *)
Definition add (x y : Tensor3) : Result Tensor3 :=
  batch_dim ← broadcast_dim (shape3 x).1.1 (shape3 y).1.1;
  dialogue_dim ← broadcast_dim (shape3 x).1.2 (shape3 y).1.2;
  units ← broadcast_dim (shape3 x).2 (shape3 y).2;
  ret (mkTensor3 (batch_dim, dialogue_dim, units)
         (map (fun i =>
                 map (fun j =>
                        map (fun k => (entry3 x i j k + entry3 y i j k)%float)
                            (seq 0 units))
                     (seq 0 dialogue_dim))
              (seq 0 batch_dim))).

(** [tf.concat(values, axis=-1)] on tensors of rank 3: the other axes have
    to agree. *)
Definition concat_last (values : list Tensor3) : Result Tensor3 :=
  match values with
  | [] => raise (ValueError "List argument 'values' to 'ConcatV2' Op is too short")
  | first :: rest =>
      let '(batch_dim, dialogue_dim, _) := shape3 first in
      if forallb (fun t => bool_decide ((shape3 t).1 = (batch_dim, dialogue_dim))) rest then
        ret (mkTensor3
               (batch_dim, dialogue_dim, sum_list (map (fun t => (shape3 t).2) values))
               (map (fun i =>
                       map (fun j => flat_map (fun t => nth j (nth i (data3 t) []) []) values)
                           (seq 0 dialogue_dim))
                    (seq 0 batch_dim)))
      else raise (InvalidArgumentError "Dimensions of inputs should match")
  end.

(** *** Python dicts in insertion order *)

(** [d[key] = v] *)
Fixpoint dict_set {V} (d : list (string * V)) (key : string) (v : V) : list (string * V) :=
  match d with
  | [] => [(key, v)]
  | (k, x) :: rest =>
      if decide (k = key) then (k, v) :: rest else (k, x) :: dict_set rest key v
  end.

(** [d.get(key) is not None], for values that are never [None] *)
Definition dict_has {V} (d : list (string * V)) (key : string) : bool :=
  bool_decide (key ∈ d.*1).

(** [d.pop(key)]: the value and the dict without the key. *)
Definition dict_pop {V} (d : list (string * V)) (key : string)
    : Result (V * list (string * V)) :=
  v ← dict_get d key;
  ret (v, filter (fun entry => entry.1 <> key) d).

(** *** Encoding a batch *)

Section ProcessBatch.
Context {L : TED.Layers}.

(** The loop of [_process_batch_data] over the keys of the batch. *)
Fixpoint encode_attributes (self : TED.t) (tf_batch_data : TED.BatchData)
    (keys : list string) (batch_encoded : list (string * Tensor3))
    (text_output : option (Tensor float)) (text_sequence_lengths : option (Tensor Z))
    : Result (list (string * Tensor3) * option (Tensor float) * option (Tensor Z)) :=
  match keys with
  | [] => ret (batch_encoded, text_output, text_sequence_lengths)
  | attribute :: rest =>
      if str_in attribute (SENTENCE_FEATURES_TO_ENCODE ++ STATE_LEVEL_FEATURES) then
        '(attribute_features, _text_output, _text_sequence_lengths) ←
          TED._encode_features_per_attribute self tf_batch_data attribute;
        let batch_encoded := dict_set batch_encoded attribute attribute_features in
        if decide (attribute = TEXT)
        then encode_attributes self tf_batch_data rest batch_encoded
               (Some _text_output) (Some _text_sequence_lengths)
        else encode_attributes self tf_batch_data rest batch_encoded
               text_output text_sequence_lengths
      else
        encode_attributes self tf_batch_data rest batch_encoded
          text_output text_sequence_lengths
  end.

(** If both action text and action name are present their encodings are
    added, otherwise the one which is present is taken; the same for the
    user input; all other encodings follow in the order of the batch. *)
Definition _process_batch_data (self : TED.t) (tf_batch_data : TED.BatchData)
    : Result (Tensor3 * option (Tensor float) * option (Tensor Z)) :=
  '(batch_encoded, text_output, text_sequence_lengths) ←
    encode_attributes self tf_batch_data (TED.attributes tf_batch_data).*1 [] None None;
  '(batch_action, batch_encoded) ←
    (if dict_has batch_encoded ACTION_TEXT && dict_has batch_encoded ACTION_NAME then
       '(action_text, batch_encoded) ← dict_pop batch_encoded ACTION_TEXT;
       '(action_name, batch_encoded) ← dict_pop batch_encoded ACTION_NAME;
       batch_action ← add action_text action_name;
       ret (batch_action, batch_encoded)
     else if dict_has batch_encoded ACTION_TEXT then dict_pop batch_encoded ACTION_TEXT
     else dict_pop batch_encoded ACTION_NAME);
  '(batch_user, batch_encoded) ←
    (if dict_has batch_encoded INTENT && dict_has batch_encoded TEXT then
       '(intent, batch_encoded) ← dict_pop batch_encoded INTENT;
       '(text, batch_encoded) ← dict_pop batch_encoded TEXT;
       batch_user ← add intent text;
       ret (batch_user, batch_encoded)
     else if dict_has batch_encoded TEXT then dict_pop batch_encoded TEXT
     else dict_pop batch_encoded INTENT);
  let batch_features := [batch_user; batch_action] ++ batch_encoded.*2 in
  batch_features ← concat_last batch_features;
  ret (batch_features, text_output, text_sequence_lengths).

End ProcessBatch.

End TEDBatch.

(** ** Example data *)

Module Examples.

(** Label data with [num_names] labels that carry an action name followed by
    [num_texts] labels that carry an action text. *)
Definition label_data (num_names num_texts : nat) : RasaModelData :=
  [ (LABEL_ACTION_NAME,
      mkAttributeData None (Some (replicate num_names true ++ replicate num_texts false)));
    (LABEL_ACTION_TEXT,
      mkAttributeData None (Some (replicate num_names false ++ replicate num_texts true)));
    (LABEL_KEY,
      mkAttributeData (Some (TEDPolicy.label_ids (num_names + num_texts))) None) ].

(** A policy with the default threshold of 0.5 that is not end-to-end
    only, and a domain of three actions. *)
Definition config : Config.t := Config.mk 0.5 (-1) true 50.
Definition policy : TEDPolicy.t := TEDPolicy.mk config [INTENT; TEXT; ACTION_NAME].
Definition domain : Domain := mkDomain ["action_listen"; "utter_greet"; "utter_bye"].

(** Confidences and similarities of an intent-based and an end-to-end
    variant: top similarities 0.6 and 0.8, top end-to-end confidence 0.55 in
    the first batch and 0.3 in the second. *)
Definition intent_confidences : list float := [0.1; 0.7; 0.2]%float.
Definition text_confidences : list float := [0.55; 0.25; 0.2]%float.
Definition low_text_confidences : list float := [0.3; 0.3; 0.2]%float.
Definition intent_similarities : list float := [0.1; 0.6; 0.0]%float.
Definition text_similarities : list float := [0.8; 0.2; 0.1]%float.

(** A model over [label_data num_names num_texts] with a budget of
    [label_batch_size] negatives and the metadata derived from both. *)
Definition sampling_metadata (num_names num_texts : nat) (label_batch_size : Z)
    : gmap string SamplingMetadata :=
  match TEDPolicy.get_label_sampling_metadata (label_data num_names num_texts)
          label_batch_size with
  | inr metadata => metadata
  | inl _ => ∅
  end.

Definition model (num_names num_texts : nat) (label_batch_size : Z) : TED.t :=
  TED.init (Config.mk 0.5 label_batch_size true 50) false
    (label_data num_names num_texts)
    (sampling_metadata num_names num_texts label_batch_size) true.

Definition generator : RNG := mkRNG (fun i => (7 * i + 3)%nat) 0.

(** Layers that keep their input recognisable: a label is embedded as the
    vector holding its id, the dialogue transformer and the embedding
    layers are the identity, and the loss layers report zero. *)
Definition layers : TED.Layers := {|
  TED._compute_embedding_for_label_ids := fun _ _ ids =>
    map (fun id => [PyNum.float_of_int id]) ids;
  TED._process_batch_data := fun tf_batch_data _ =>
    (map (fun n => replicate n [1%float]) (TED.dialogue_length tf_batch_data), None, None);
  TED.prepare_transformer_layer := fun _ _ input _ _ => (input, []);
  TED.gelu := fun x => x;
  TED.embed_dialogue_layer := fun x => x;
  TED.loss_label_layer := fun _ _ _ _ _ _ => (0%float, 1%float);
  TED.similarity_confidence_from_embeddings := fun dialogue_embed all_labels_embed _ =>
    (map (fun _ => all_labels_embed) dialogue_embed,
     map (fun _ => all_labels_embed) dialogue_embed);
  TED.entity_loss_and_f1 := fun _ _ _ _ => (0%float, 1%float);
  TED._real_batch_predict_entities := fun _ _ text_output _ =>
    (Tensors.zeros 0 (take 2 (shape text_output)),
     Tensors.zeros 1%float (take 2 (shape text_output)));
  TED.real_attribute_layers := fun tf_batch_data attribute _ _ =>
    let rows :=
      match TED.batch_attribute tf_batch_data attribute with
      | inr data => TED.sentence_rows data
      | inl _ => 0%nat
      end in
    let units :=
      if str_in attribute (SENTENCE_FEATURES_TO_ENCODE ++ LABEL_FEATURES_TO_ENCODE)
      then 50%nat else 4%nat in
    (mkTensor3 (rows, 1%nat, units)
       (map (fun i => [replicate units (PyNum.float_of_int (Z.of_nat (S i)))])
            (seq 0 rows)),
     Tensors.zeros 0%float [0%nat], Tensors.zeros 0 [0%nat]);
  TED.sparse_dense_concat_output_units := fun _ => 4%nat;
  TED.sequence_layer_output_units := fun _ => 128%nat
|}.

(** A batch of two dialogues of three and two turns. *)
Definition batch : TED.BatchData :=
  TED.mkBatchData [] [3; 2]%nat [] [[1; 0; 2]; [0; 4; 0]].

Definition no_metrics : TED.Metrics := TED.mkMetrics [] [] [] [].

(** The same dialogues with slots set on the first and the third turn of
    the first dialogue and on the second turn of the second one, and
    without any active loop. *)
Definition batch_with_slots : TED.BatchData :=
  TED._compute_dialogue_indices
    (TED.mkBatchData
       [ (SLOTS,
           TED.mkBatchAttribute
             (mkMaskTensor (2, 3)%nat [[true; false; true]; [false; true; false]])
             3);
         (ACTIVE_LOOP,
           TED.mkBatchAttribute
             (mkMaskTensor (2, 3)%nat [[false; false; false]; [false; false; false]])
             0) ]
       [3; 2]%nat [] [[1; 0; 2]; [0; 4; 0]]).

(** The same model with a max-history featurizer, at inference. *)
Definition max_history_model : TED.t :=
  TED.init (Config.mk 0.5 (-1) true 50) true (label_data 5 3)
    (sampling_metadata 5 3 (-1)) false.

(** The encoded turns of the two dialogues of [batch], the second one
    padded to three turns. *)
Definition dialogue_in : list (list Vec) :=
  [ [[1]; [2]; [3]]; [[4]; [5]; [0]] ]%float.

End Examples.

(** * Properties *)

(** ** Fallible computations *)

Lemma bind_inr {A B} (m : Result A) (k : A -> Result B) (b : B) :
  m ≫= k = inr b <-> exists a, m = inr a /\ k a = inr b.
Proof.
  destruct m as [e|a]; simpl.
  - split; [discriminate | intros (a & Ha & _); discriminate].
  - split; [eauto | intros (a' & Ha & Hk); congruence].
Qed.

Lemma bind_inl {A B} (m : Result A) (k : A -> Result B) (e : Exception) :
  m = inl e -> m ≫= k = inl e.
Proof. intros ->. reflexivity. Qed.

(** Inverts hypotheses of the shape [m ≫= k = inr b]. *)
Ltac inv_bind :=
  repeat match goal with
  | H : _ ≫= _ = inr _ |- _ =>
      let a := fresh "a" in
      let Ha := fresh "Ha" in
      apply bind_inr in H; destruct H as (a & Ha & H)
  | H : ret _ = inr _ |- _ => apply (inj inr) in H
  | H : raise _ = inr _ |- _ => discriminate H
  | H : inl _ = inr _ |- _ => discriminate H
  end.

Lemma dict_get_elem_of {V} (d : list (string * V)) key v :
  dict_get d key = inr v -> (key, v) ∈ d.
Proof.
  induction d as [|[k v'] d IH]; simpl; [discriminate|].
  destruct (decide (k = key)) as [->|Hne].
  - intros [= ->]. left.
  - intros Hd. right. auto.
Qed.

Lemma dict_get_NoDup {V} (d : list (string * V)) key v :
  NoDup d.*1 -> (key, v) ∈ d -> dict_get d key = inr v.
Proof.
  induction d as [|[k v'] d IH]; simpl; intros Hnd Hin.
  - inversion Hin.
  - apply NoDup_cons in Hnd as [Hk Hnd].
    apply elem_of_cons in Hin as [[= <- <-]|Hin].
    + rewrite decide_True; done.
    + destruct (decide (k = key)) as [->|Hne]; [|auto].
      exfalso. apply Hk. apply list_elem_of_fmap. exists (key, v). done.
Qed.

(** Settles a decidable closed proposition by evaluation. *)
Ltac by_compute :=
  match goal with
  | |- ?P => apply (bool_decide_unpack P); vm_compute; exact I
  end.

(** ** Label sampling metadata *)

Module MetadataFacts.
Import TEDPolicy.

Lemma key_label_batch_size_all n_key n :
  key_label_batch_size n_key n (-1) = inr n_key.
Proof. reflexivity. Qed.

Lemma key_label_batch_size_share n_key n b size :
  b <> -1 ->
  key_label_batch_size n_key n b = inr size ->
  exists share,
    PyNum.int_of_float
      ((PyNum.float_of_int n_key / PyNum.float_of_int n) * PyNum.float_of_int b)%float
    = inr share /\ size = Z.max 1 share.
Proof.
  intros Hb. unfold key_label_batch_size.
  destruct (Z.eqb_spec b (-1)) as [|_]; [done|].
  intros Hs. inv_bind. eauto.
Qed.

Lemma key_label_batch_size_min n_key n b size :
  b <> -1 -> key_label_batch_size n_key n b = inr size -> 1 <= size.
Proof.
  intros Hb Hs. destruct (key_label_batch_size_share _ _ _ _ Hb Hs) as (share & _ & ->).
  lia.
Qed.

(** The loop leaves the entries of the keys it does not visit. *)
Lemma sampling_metadata_loop_other items n b md md' key :
  sampling_metadata_loop items n b md = inr md' ->
  key ∉ items.*1 -> md' !! key = md !! key.
Proof.
  revert md. induction items as [|[k data] items IH]; simpl; intros md Hloop Hkey.
  - by injection Hloop as ->.
  - apply not_elem_of_cons in Hkey as [Hne Hkey].
    destruct (decide (k = LABEL_KEY)); [by apply IH|].
    inv_bind. rewrite (IH _ Hloop Hkey). by rewrite lookup_insert_ne.
Qed.

(** Every key it visits, other than the label key, gets the number of set
    mask entries and the size computed from it. *)
Lemma sampling_metadata_loop_lookup items n b md md' key data :
  NoDup items.*1 ->
  sampling_metadata_loop items n b md = inr md' ->
  (key, data) ∈ items -> key <> LABEL_KEY ->
  exists mask size,
    data_mask data = Some mask /\
    key_label_batch_size (Np.sum_mask mask) n b = inr size /\
    md' !! key = Some (mkSamplingMetadata (Np.sum_mask mask) size).
Proof.
  revert md. induction items as [|[k d] items IH]; simpl; intros md Hnd Hloop Hin Hkey.
  - inversion Hin.
  - apply NoDup_cons in Hnd as [Hk Hnd].
    apply elem_of_cons in Hin as [[= <- <-]|Hin].
    + rewrite decide_False in Hloop by done.
      inv_bind. unfold get_mask in Ha.
      destruct (data_mask data) as [mask|] eqn:Hmask; [|discriminate].
      injection Ha as <-. exists mask, a0. split_and!; [done..|].
      rewrite (sampling_metadata_loop_other _ _ _ _ _ _ Hloop Hk).
      by rewrite lookup_insert_eq.
    + destruct (decide (k = LABEL_KEY)); [by eapply IH|].
      inv_bind. by eapply IH.
Qed.

Lemma get_label_sampling_metadata_lookup label_data b md key data :
  NoDup label_data.*1 ->
  get_label_sampling_metadata label_data b = inr md ->
  (key, data) ∈ label_data -> key <> LABEL_KEY ->
  exists label_ids mask m,
    (label ← dict_get label_data LABEL_KEY; get_ids label) = inr label_ids /\
    data_mask data = Some mask /\
    md !! key = Some m /\
    NUM_LABEL_CANDIDATES m = Np.sum_mask mask /\
    key_label_batch_size (Np.sum_mask mask) (Z.of_nat (length label_ids)) b
      = inr (LABEL_BATCH_SIZE m).
Proof.
  intros Hnd Hmd Hin Hkey. unfold get_label_sampling_metadata in Hmd.
  inv_bind.
  destruct (sampling_metadata_loop_lookup _ _ _ _ _ _ _ Hnd Hmd Hin Hkey)
    as (mask & size & Hmask & Hsize & Hlook).
  exists a0, mask, (mkSamplingMetadata (Np.sum_mask mask) size).
  split_and!; try done. by rewrite Ha.
Qed.

Lemma example_metadata :
  exists md,
    get_label_sampling_metadata (Examples.label_data 100 20) 20 = inr md /\
    md !! LABEL_ACTION_NAME = Some (mkSamplingMetadata 100 16) /\
    md !! LABEL_ACTION_TEXT = Some (mkSamplingMetadata 20 3).
Proof. eexists. split; [vm_compute; reflexivity|]. split; vm_compute; reflexivity. Qed.

End MetadataFacts.

(** C1 (as the code has it).  For every label-bearing attribute, the
    metadata holds the number of candidates of the attribute and a
    per-attribute negative-sample count: the number of candidates itself when
    the budget is -1, and otherwise the integer part (towards zero, not the
    rounding) of (candidates / total label ids) * budget, at least 1.  With
    100 action-name labels, 20 action-text labels and a budget of 20 the
    counts are 16 and 3. *)
Theorem label_sampling_metadata_counts :
  (forall label_data b md key data,
     NoDup label_data.*1 ->
     TEDPolicy.get_label_sampling_metadata label_data b = inr md ->
     (key, data) ∈ label_data -> key <> LABEL_KEY ->
     exists label_ids mask m,
       (label ← dict_get label_data LABEL_KEY; get_ids label) = inr label_ids /\
       data_mask data = Some mask /\
       md !! key = Some m /\
       NUM_LABEL_CANDIDATES m = Np.sum_mask mask /\
       (b = -1 -> LABEL_BATCH_SIZE m = Np.sum_mask mask) /\
       (b <> -1 ->
        exists share,
          PyNum.int_of_float
            ((PyNum.float_of_int (Np.sum_mask mask)
              / PyNum.float_of_int (Z.of_nat (length label_ids)))
             * PyNum.float_of_int b)%float = inr share /\
          LABEL_BATCH_SIZE m = Z.max 1 share /\ 1 <= LABEL_BATCH_SIZE m)) /\
  (exists md,
     TEDPolicy.get_label_sampling_metadata (Examples.label_data 100 20) 20 = inr md /\
     md !! LABEL_ACTION_NAME = Some (mkSamplingMetadata 100 16) /\
     md !! LABEL_ACTION_TEXT = Some (mkSamplingMetadata 20 3)).
Proof.
  split; [|apply MetadataFacts.example_metadata].
  intros label_data b md key data Hnd Hmd Hin Hkey.
  destruct (MetadataFacts.get_label_sampling_metadata_lookup _ _ _ _ _ Hnd Hmd Hin Hkey)
    as (label_ids & mask & m & Hids & Hmask & Hlook & Hnum & Hsize).
  exists label_ids, mask, m. split_and!; try done.
  - intros ->. rewrite MetadataFacts.key_label_batch_size_all in Hsize. congruence.
  - intros Hb.
    destruct (MetadataFacts.key_label_batch_size_share _ _ _ _ Hb Hsize) as (share & Hshare & ->).
    exists share. split_and!; [done..|lia].
Qed.

Lemma label_sampling_metadata_counts_witness :
  exists label_ids mask m,
    (label ← dict_get (Examples.label_data 5 3) LABEL_KEY; get_ids label) = inr label_ids /\
    data_mask (mkAttributeData None (Some (replicate 5 true ++ replicate 3 false))) = Some mask /\
    ({[ LABEL_ACTION_NAME := mkSamplingMetadata 5 2;
        LABEL_ACTION_TEXT := mkSamplingMetadata 3 1 ]} : gmap string SamplingMetadata)
      !! LABEL_ACTION_NAME = Some m /\
    NUM_LABEL_CANDIDATES m = Np.sum_mask mask /\
    (4 = -1 -> LABEL_BATCH_SIZE m = Np.sum_mask mask) /\
    (4 <> -1 ->
     exists share,
       PyNum.int_of_float
         ((PyNum.float_of_int (Np.sum_mask mask)
           / PyNum.float_of_int (Z.of_nat (length label_ids)))
          * PyNum.float_of_int 4)%float = inr share /\
       LABEL_BATCH_SIZE m = Z.max 1 share /\ 1 <= LABEL_BATCH_SIZE m).
Proof.
  apply (proj1 label_sampling_metadata_counts (Examples.label_data 5 3) 4).
  - by_compute.
  - vm_compute. reflexivity.
  - left.
  - discriminate.
Defined.

(** C1 as the specification words it fails: the count is not the rounding of
    the share of the budget; at 100 of 120 labels and a budget of 20 the
    rounding is 17 and the metadata holds 16. *)
Lemma label_sampling_metadata_not_rounded :
  ~ (forall label_data b md key m label_ids,
       TEDPolicy.get_label_sampling_metadata label_data b = inr md ->
       (label ← dict_get label_data LABEL_KEY; get_ids label) = inr label_ids ->
       md !! key = Some m ->
       TEDPolicy.rounded_label_batch_size (NUM_LABEL_CANDIDATES m)
         (Z.of_nat (length label_ids)) b = inr (LABEL_BATCH_SIZE m)).
Proof.
  intros Hclaim.
  destruct MetadataFacts.example_metadata as (md & Hmd & Hname & _).
  specialize (Hclaim (Examples.label_data 100 20) 20 md LABEL_ACTION_NAME
                     (mkSamplingMetadata 100 16)
                     (map Z.of_nat (seq 0 120)) Hmd eq_refl Hname).
  vm_compute in Hclaim. discriminate Hclaim.
Qed.

(** ** Inference router *)

Module RouterFacts.
Import TEDPolicy.

Lemma argmax_from_lt rest i best best_i :
  (best_i < i)%nat -> (Np.argmax_from rest i best best_i < i + length rest)%nat.
Proof.
  revert i best best_i. induction rest as [|x rest IH]; simpl; intros i best best_i Hlt.
  - lia.
  - destruct (PrimFloat.is_nan best); [lia|].
    destruct (PrimFloat.is_nan x || (best <? x)%float)%bool.
    + specialize (IH (S i) x i). lia.
    + specialize (IH (S i) best best_i). lia.
Qed.

Lemma argmax_ok row :
  (0 < length row)%nat -> exists k, Np.argmax row = inr k /\ (k < length row)%nat.
Proof.
  destruct row as [|x rest]; simpl; [lia|]. intros _.
  eexists. split; [reflexivity|].
  pose proof (argmax_from_lt rest 1 x 0). lia.
Qed.

Lemma max_ok row : (0 < length row)%nat -> exists m, Np.max row = inr m.
Proof. destruct row; simpl; [lia|eauto]. Qed.

Lemma list_get_lt {A} (l : list A) i :
  (i < length l)%nat -> exists a, list_get l i = inr a.
Proof.
  intros Hi. unfold list_get.
  destruct (lookup_lt_is_Some_2 l i Hi) as [a ->]. eauto.
Qed.

(** Looking up the name of the top action of a row never fails when the
    domain names every action. *)
Lemma top_action_name_ok row (domain : Domain) :
  (0 < length row)%nat ->
  (length row <= length (action_names_or_texts domain))%nat ->
  exists k name,
    Np.argmax row = inr k /\ list_get (action_names_or_texts domain) k = inr name.
Proof.
  intros Hpos Hdom. destruct (argmax_ok row Hpos) as (k & Hk & Hlt).
  destruct (list_get_lt (action_names_or_texts domain) k) as [name Hname]; [lia|].
  eauto.
Qed.

(** Two floats that compare equal are not strictly ordered. *)
Lemma ltb_of_eqb (x y : float) : (x =? y)%float = true -> (x <? y)%float = false.
Proof.
  rewrite FloatAxioms.eqb_spec, FloatAxioms.ltb_spec. unfold SFeqb, SFltb.
  destruct (SFcompare _ _) as [[]|]; done.
Qed.

(** The result on a batch of two rows, by the two comparisons. *)
Lemma pick_confidence_two self c0 c1 s0 s1 domain top_conf top_text top_intent :
  (0 < length c0)%nat -> (0 < length c1)%nat ->
  (length c0 <= length (action_names_or_texts domain))%nat ->
  (length c1 <= length (action_names_or_texts domain))%nat ->
  Np.max c1 = inr top_conf -> Np.max s1 = inr top_text -> Np.max s0 = inr top_intent ->
  _pick_confidence self [c0; c1] [s0; s1] domain =
  inr (if ((Config.E2E_CONFIDENCE_THRESHOLD (config self) <? top_conf)%float
           && (top_intent <? top_text)%float)%bool
       then (c1, true) else (c0, false)).
Proof.
  intros H0 H1 Hd0 Hd1 Hc Ht Hi.
  destruct (top_action_name_ok c0 domain H0 Hd0) as (k0 & n0 & Hk0 & Hn0).
  destruct (top_action_name_ok c1 domain H1 Hd1) as (k1 & n1 & Hk1 & Hn1).
  unfold _pick_confidence. cbn [length Nat.ltb Nat.leb Nat.eqb].
  change (list_get [c0; c1] 0) with (inr c0 : Result (list float)).
  change (list_get [c0; c1] 1) with (inr c1 : Result (list float)).
  change (list_get [s0; s1] 0) with (inr s0 : Result (list float)).
  change (list_get [s0; s1] 1) with (inr s1 : Result (list float)).
  cbn [mbind Result_bind].
  rewrite Hk0; cbn [mbind Result_bind]. rewrite Hn0; cbn [mbind Result_bind].
  rewrite Hk1; cbn [mbind Result_bind]. rewrite Hn1; cbn [mbind Result_bind].
  rewrite Hc; cbn [mbind Result_bind].
  destruct (Config.E2E_CONFIDENCE_THRESHOLD (config self) <? top_conf)%float;
    cbn [mbind Result_bind andb ret]; [|reflexivity].
  rewrite Ht; cbn [mbind Result_bind]. rewrite Hi; cbn [mbind Result_bind ret].
  destruct (top_intent <? top_text)%float; reflexivity.
Qed.

End RouterFacts.

(** C2.  On a batch of two rows, the intent-based one first, the router
    returns the end-to-end confidences with the flag set exactly when the
    top end-to-end confidence is strictly above the threshold and the top
    end-to-end similarity is strictly above the top intent-based similarity;
    otherwise, and so when the two top similarities are equal, it returns
    the intent-based confidences with the flag unset. *)
Theorem pick_confidence_two_variants
    (self : TEDPolicy.t) (c0 c1 s0 s1 : list float) (domain : Domain) (n : nat) :
  (0 < n)%nat ->
  length c0 = n -> length c1 = n -> length s0 = n -> length s1 = n ->
  (n <= length (action_names_or_texts domain))%nat ->
  exists top_conf top_text top_intent,
    Np.max c1 = inr top_conf /\ Np.max s1 = inr top_text /\ Np.max s0 = inr top_intent /\
    let threshold := Config.E2E_CONFIDENCE_THRESHOLD (TEDPolicy.config self) in
    let result := TEDPolicy._pick_confidence self [c0; c1] [s0; s1] domain in
    (result = inr (c1, true) <->
       (threshold <? top_conf)%float = true /\ (top_intent <? top_text)%float = true) /\
    (~ ((threshold <? top_conf)%float = true /\ (top_intent <? top_text)%float = true) ->
       result = inr (c0, false)) /\
    ((top_intent =? top_text)%float = true -> result = inr (c0, false)).
Proof.
  intros Hn H0 H1 Hs0 Hs1 Hdom.
  destruct (RouterFacts.max_ok c1) as [top_conf Hc]; [lia|].
  destruct (RouterFacts.max_ok s1) as [top_text Ht]; [lia|].
  destruct (RouterFacts.max_ok s0) as [top_intent Hi]; [lia|].
  exists top_conf, top_text, top_intent.
  split; [done|]. split; [done|]. split; [done|].
  cbv zeta.
  rewrite (RouterFacts.pick_confidence_two self c0 c1 s0 s1 domain
             top_conf top_text top_intent) by (done || lia).
  destruct (_ <? top_conf)%float;
    destruct (top_intent <? top_text)%float eqn:Hsim; cbn [andb];
    (split; [|split]); try (intuition congruence).
  intros Heq. rewrite (RouterFacts.ltb_of_eqb _ _ Heq) in Hsim. discriminate.
Qed.

Lemma pick_confidence_two_variants_witness :
  exists top_conf top_text top_intent,
    Np.max Examples.text_confidences = inr top_conf /\
    Np.max Examples.text_similarities = inr top_text /\
    Np.max Examples.intent_similarities = inr top_intent /\
    let threshold := Config.E2E_CONFIDENCE_THRESHOLD (TEDPolicy.config Examples.policy) in
    let result :=
      TEDPolicy._pick_confidence Examples.policy
        [Examples.intent_confidences; Examples.text_confidences]
        [Examples.intent_similarities; Examples.text_similarities] Examples.domain in
    (result = inr (Examples.text_confidences, true) <->
       (threshold <? top_conf)%float = true /\ (top_intent <? top_text)%float = true) /\
    (~ ((threshold <? top_conf)%float = true /\ (top_intent <? top_text)%float = true) ->
       result = inr (Examples.intent_confidences, false)) /\
    ((top_intent =? top_text)%float = true ->
       result = inr (Examples.intent_confidences, false)).
Proof.
  apply (pick_confidence_two_variants Examples.policy Examples.intent_confidences
           Examples.text_confidences Examples.intent_similarities
           Examples.text_similarities Examples.domain 3);
    [lia | reflexivity | reflexivity | reflexivity | reflexivity | simpl; lia].
Defined.

(** The scenarios of the router: a single variant is reported as it is; of
    two variants the end-to-end one wins with top confidence 0.55 and loses
    with 0.3, the threshold being 0.5 and the top similarities 0.6 and 0.8. *)
Lemma pick_confidence_scenarios :
  TEDPolicy._pick_confidence Examples.policy [[0.1; 0.9; 0.0]%float]
    [[0.1; 0.9; 0.0]%float] Examples.domain = inr ([0.1; 0.9; 0.0]%float, false) /\
  TEDPolicy._pick_confidence Examples.policy
    [Examples.intent_confidences; Examples.text_confidences]
    [Examples.intent_similarities; Examples.text_similarities] Examples.domain
    = inr (Examples.text_confidences, true) /\
  TEDPolicy._pick_confidence Examples.policy
    [Examples.intent_confidences; Examples.low_text_confidences]
    [Examples.intent_similarities; Examples.text_similarities] Examples.domain
    = inr (Examples.intent_confidences, false).
Proof. split_and!; vm_compute; reflexivity. Qed.

(** C9.  A confidence batch with more than two rows makes the router raise
    its error, whatever the other arguments are; on a batch of one or two
    rows of the shape (batch-size x number of actions), the domain naming
    every action, it returns a prediction. *)
Theorem pick_confidence_batch_size :
  (forall self confidences similarities domain,
     (2 < length confidences)%nat ->
     TEDPolicy._pick_confidence self confidences similarities domain =
     inl (ValueError "We cannot pick prediction from batches of size more than 2.")) /\
  (forall self confidences similarities domain (n : nat),
     length confidences = 1%nat \/ length confidences = 2%nat ->
     length similarities = length confidences ->
     Forall (fun row => length row = n) confidences ->
     Forall (fun row => length row = n) similarities ->
     (0 < n)%nat -> (n <= length (action_names_or_texts domain))%nat ->
     exists row is_e2e,
       TEDPolicy._pick_confidence self confidences similarities domain = inr (row, is_e2e)).
Proof.
  split.
  - intros self confidences similarities domain Hlen. unfold TEDPolicy._pick_confidence.
    apply Nat.ltb_lt in Hlen. by rewrite Hlen.
  - intros self confidences similarities domain n Hsize Hsims Hrows Hsrows Hn Hdom.
    destruct Hsize as [Hsize|Hsize].
    + destruct confidences as [|c0 [|]]; try discriminate.
      apply Forall_cons in Hrows as [Hc0 _].
      destruct (RouterFacts.top_action_name_ok c0 domain) as (k & name & Hk & Hname);
        [lia..|].
      exists c0, (TEDPolicy.only_e2e self). unfold TEDPolicy._pick_confidence.
      cbn [length Nat.ltb Nat.leb Nat.eqb].
      change (list_get [c0] 0) with (inr c0 : Result (list float)).
      cbn [mbind Result_bind]. rewrite Hk; cbn [mbind Result_bind].
      by rewrite Hname.
    + destruct confidences as [|c0 [|c1 [|]]]; try discriminate.
      rewrite Hsize in Hsims.
      destruct similarities as [|s0 [|s1 [|]]]; try discriminate.
      apply Forall_cons in Hrows as [Hc0 Hrows]. apply Forall_cons in Hrows as [Hc1 _].
      apply Forall_cons in Hsrows as [Hs0 Hsrows]. apply Forall_cons in Hsrows as [Hs1 _].
      destruct (RouterFacts.max_ok c1) as [top_conf Hc]; [lia|].
      destruct (RouterFacts.max_ok s1) as [top_text Ht]; [lia|].
      destruct (RouterFacts.max_ok s0) as [top_intent Hi]; [lia|].
      rewrite (RouterFacts.pick_confidence_two self c0 c1 s0 s1 domain
                 top_conf top_text top_intent) by (done || lia).
      destruct (_ && _); eauto.
Qed.

Lemma pick_confidence_batch_size_witness :
  TEDPolicy._pick_confidence Examples.policy
    [Examples.intent_confidences; Examples.text_confidences; Examples.text_confidences]
    [] Examples.domain =
  inl (ValueError "We cannot pick prediction from batches of size more than 2.") /\
  exists row is_e2e,
    TEDPolicy._pick_confidence Examples.policy
      [Examples.intent_confidences; Examples.low_text_confidences]
      [Examples.intent_similarities; Examples.text_similarities] Examples.domain
    = inr (row, is_e2e).
Proof.
  split.
  - apply (proj1 pick_confidence_batch_size). simpl. lia.
  - apply (proj2 pick_confidence_batch_size Examples.policy _ _ Examples.domain 3%nat).
    + right. reflexivity.
    + reflexivity.
    + repeat constructor.
    + repeat constructor.
    + lia.
    + simpl. lia.
Defined.

(** ** TensorFlow operations *)

Module TfFacts.

Lemma boolean_mask_sublist {A} (tensor : list A) mask kept :
  Tf.boolean_mask tensor mask = inr kept -> kept `sublist_of` tensor.
Proof.
  unfold Tf.boolean_mask. destruct (_ =? _)%nat; [|discriminate].
  intros [= <-]. clear. revert mask.
  induction tensor as [|x tensor IH]; intros [|b mask]; simpl;
    try apply sublist_nil_l.
  rewrite filter_cons. destruct (decide _); simpl.
  - by apply sublist_skip.
  - by apply sublist_cons.
Qed.

(** What the mask keeps: the entries at the positions it sets. *)
Lemma boolean_mask_elem_of {A} (tensor : list A) mask kept x :
  Tf.boolean_mask tensor mask = inr kept ->
  x ∈ kept <-> exists i, tensor !! i = Some x /\ mask !! i = Some true.
Proof.
  unfold Tf.boolean_mask. destruct (_ =? _)%nat; [|discriminate].
  intros [= <-]. rewrite list_elem_of_fmap. split.
  - intros ([y b] & -> & Hin). apply list_elem_of_filter in Hin as [Hb Hin].
    simpl in Hb. subst b. apply list_elem_of_lookup in Hin as [i Hi].
    apply lookup_zip_with_Some in Hi as (y' & b' & [= <- <-] & Hy & Hb). eauto.
  - intros (i & Hx & Hm). exists (x, true). split; [done|].
    apply list_elem_of_filter. split; [done|].
    apply list_elem_of_lookup. exists i.
    apply lookup_zip_with_Some. eauto.
Qed.

Lemma boolean_mask_length {A} (tensor : list A) mask kept :
  Tf.boolean_mask tensor mask = inr kept ->
  Z.of_nat (length kept) = Np.sum_mask mask.
Proof.
  unfold Tf.boolean_mask, Np.sum_mask. destruct (Nat.eqb_spec (length tensor) (length mask)) as [Hlen|];
    [|discriminate].
  intros [= <-]. f_equal. rewrite length_fmap. revert mask Hlen.
  induction tensor as [|x tensor IH]; intros [|b mask] Hlen; simpl in *; try done.
  destruct b.
  - rewrite (filter_cons_True _ (x, true)), (filter_cons_True _ true) by done.
    simpl. f_equal. apply IH. lia.
  - rewrite (filter_cons_False _ (x, false)), (filter_cons_False _ false) by done.
    apply IH. lia.
Qed.

Lemma boolean_mask_ok {A} (tensor : list A) mask :
  length tensor = length mask -> is_ok (Tf.boolean_mask tensor mask).
Proof.
  intros Hlen. unfold Tf.boolean_mask. apply Nat.eqb_eq in Hlen. rewrite Hlen.
  by eexists.
Qed.

Lemma gather_lookup {A} (params : list A) indices gathered :
  Tf.gather params indices = inr gathered ->
  Forall2 (fun i a => params !! i = Some a) indices gathered.
Proof.
  revert gathered. induction indices as [|i indices IH]; simpl; intros gathered.
  - intros [= <-]. constructor.
  - destruct (params !! i) as [a|] eqn:Hi; [|discriminate].
    intros Hg. inv_bind. subst gathered. constructor; auto.
Qed.

Lemma gather_ok {A} (params : list A) indices :
  Forall (fun i => (i < length params)%nat) indices ->
  is_ok (Tf.gather params indices).
Proof.
  induction 1 as [|i indices Hi _ [gathered IH]]; simpl; [by eexists|].
  destruct (lookup_lt_is_Some_2 params i Hi) as [a ->].
  rewrite IH. by eexists.
Qed.

(** Gathering at distinct positions of a list without repetition gives a
    list without repetition. *)
Lemma gather_NoDup {A} (params : list A) indices gathered :
  NoDup params -> NoDup indices ->
  Tf.gather params indices = inr gathered -> NoDup gathered.
Proof.
  intros Hparams Hind Hg. apply gather_lookup in Hg.
  induction Hg as [|i a indices gathered Hi Hg IH]; [constructor|].
  apply NoDup_cons in Hind as [Hni Hind]. apply NoDup_cons. split; [|auto].
  intros Hin. apply Hni. clear IH Hind Hni.
  induction Hg as [|j b indices gathered Hj Hg IH]; [inversion Hin|].
  apply elem_of_cons in Hin as [->|Hin].
  - rewrite (NoDup_lookup params i j b Hparams Hi Hj). left.
  - right. auto.
Qed.

Lemma gather_elem_of {A} (params : list A) indices gathered x :
  Tf.gather params indices = inr gathered -> x ∈ gathered -> x ∈ params.
Proof.
  intros Hg Hin. apply gather_lookup in Hg.
  induction Hg as [|i a indices gathered Hi Hg IH]; [inversion Hin|].
  apply elem_of_cons in Hin as [->|Hin]; [|auto].
  by eapply list_elem_of_lookup_2.
Qed.

Lemma gather_length {A} (params : list A) indices gathered :
  Tf.gather params indices = inr gathered -> length gathered = length indices.
Proof. intros Hg. apply gather_lookup in Hg. symmetry. by eapply Forall2_length. Qed.

(** A value with fewer than 25 significant bits is a float32 number. *)
Lemma cast_float32_exact z : Z.abs z < 2 ^ 24 -> Tf.cast_float32 z = z.
Proof.
  intros Hz. unfold Tf.cast_float32.
  destruct (Z.leb_spec (Z.log2 (Z.abs z) - 23) 0) as [|Hshift]; [done|].
  exfalso. destruct (Z.eq_dec (Z.abs z) 0) as [H0|H0].
  - rewrite H0 in Hshift. simpl in Hshift. lia.
  - assert (Z.log2 (Z.abs z) < 24); [|lia]. apply Z.log2_lt_pow2; lia.
Qed.

Lemma draw_position g : position (draw g).2 = S (position g).
Proof. reflexivity. Qed.

(** The classes drawn one after the other from a list without repetition:
    all from the list, pairwise distinct, as many as asked for (or as the
    list has), at the price of one draw each. *)
Lemma sample_distinct_spec remaining num_sampled g sampled g' :
  NoDup remaining ->
  Tf.sample_distinct remaining num_sampled g = (sampled, g') ->
  NoDup sampled /\ sampled ⊆ remaining /\
  length sampled = Nat.min num_sampled (length remaining) /\
  position g' = (position g + length sampled)%nat /\ stream g' = stream g.
Proof.
  revert remaining g sampled g'.
  induction num_sampled as [|n IH]; intros remaining g sampled g' Hnd; simpl.
  - intros [= <- <-]. split_and!; simpl; [constructor|set_solver|done|lia|done].
  - destruct remaining as [|first rest] eqn:Hrem.
    { intros [= <- <-]. split_and!; simpl; [constructor|set_solver|done|lia|done]. }
    rewrite <- Hrem in *. assert (0 < length remaining)%nat as Hpos by (subst; simpl; lia).
    clear Hrem.
    set (i := (stream g (position g) mod length remaining)%nat).
    assert (i < length remaining)%nat as Hi by (apply Nat.mod_upper_bound; lia).
    destruct (lookup_lt_is_Some_2 remaining i Hi) as [x Hx].
    destruct (Tf.sample_distinct (delete i remaining) n
                (mkRNG (stream g) (S (position g)))) as [rest_sampled g2] eqn:Hrec.
    intros [= <- <-].
    assert (nth i remaining first = x) as -> by (by rewrite nth_lookup, Hx).
    pose proof (delete_Permutation remaining i x Hx) as Hperm.
    assert (NoDup (x :: delete i remaining)) as Hnd' by (by rewrite <- Hperm).
    apply NoDup_cons in Hnd' as [Hx_notin Hnd_del].
    destruct (IH _ _ _ _ Hnd_del Hrec) as (Hnd_rest & Hsub & Hlen & Hposn & Hstream).
    split_and!.
    + apply NoDup_cons. split; [|done]. intros Hin. apply Hx_notin. by apply Hsub.
    + intros y Hy. apply elem_of_cons in Hy as [->|Hy].
      * by eapply list_elem_of_lookup_2.
      * eapply list_elem_of_delete_inv. by apply Hsub.
    + cbn [length]. rewrite Hlen, length_delete by eauto.
      destruct (length remaining); [lia|]. simpl. f_equal. lia.
    + simpl in *. lia.
    + done.
Qed.

(** The contract of the unique sampler. *)
Lemma uniform_candidate_sampler_unique true_classes num_true num_sampled range_max g
    indices g' :
  Tf.uniform_candidate_sampler true_classes num_true num_sampled true range_max g
    = inr (indices, g') ->
  NoDup indices /\
  Forall (fun i => (i < Z.to_nat range_max)%nat) indices /\
  Z.of_nat (length indices) = num_sampled /\
  1 <= num_sampled <= range_max /\
  Z.of_nat (length true_classes) = num_true /\ num_true >= 1 /\
  position g' = (position g + length indices)%nat.
Proof.
  unfold Tf.uniform_candidate_sampler.
  destruct (Z.ltb_spec num_true 1), (Z.ltb_spec num_sampled 1),
    (Z.ltb_spec range_max 1); simpl; try discriminate.
  destruct (Z.eqb_spec (Z.of_nat (length true_classes)) num_true); simpl; [|discriminate].
  destruct (Z.ltb_spec range_max num_sampled); simpl; [discriminate|].
  intros [= Hs].
  destruct (sample_distinct_spec (seq 0 (Z.to_nat range_max)) (Z.to_nat num_sampled)
              g indices g' (NoDup_seq _ _) Hs) as (Hnd & Hsub & Hlen & Hposn & _).
  rewrite length_seq in Hlen. split_and!; try done; try lia.
  apply Forall_forall. intros i Hin. apply Hsub, elem_of_seq in Hin. lia.
Qed.

Lemma uniform_candidate_sampler_ok true_classes num_true num_sampled range_max g :
  Z.of_nat (length true_classes) = num_true ->
  1 <= num_true -> 1 <= num_sampled <= range_max ->
  is_ok (Tf.uniform_candidate_sampler true_classes num_true num_sampled true range_max g).
Proof.
  intros Hlen Htrue Hsampled. unfold Tf.uniform_candidate_sampler.
  destruct (Z.ltb_spec num_true 1), (Z.ltb_spec num_sampled 1),
    (Z.ltb_spec range_max 1); simpl; try lia.
  destruct (Z.eqb_spec (Z.of_nat (length true_classes)) num_true); simpl; [|lia].
  destruct (Z.ltb_spec range_max num_sampled); simpl; [lia|].
  by eexists.
Qed.

End TfFacts.

(** The label ids of a domain are pairwise distinct, and they are float32
    numbers as long as the domain has at most 2^24 actions. *)
Lemma label_ids_distinct num_actions :
  NoDup (TEDPolicy.label_ids num_actions) /\
  (Z.of_nat num_actions <= 2 ^ 24 ->
   Forall (fun id => Z.abs id < 2 ^ 24) (TEDPolicy.label_ids num_actions)).
Proof.
  unfold TEDPolicy.label_ids. split.
  - apply (NoDup_fmap_2 _), NoDup_seq.
  - intros Hmax. apply Forall_forall. intros id Hid.
    apply list_elem_of_fmap in Hid as (i & -> & Hi). apply elem_of_seq in Hi. lia.
Qed.

(** ** Rounding in the share of the budget

    The share of the budget of an attribute is computed on binary64
    numbers: a division and a multiplication, each rounded to nearest, and
    a truncation.  The lemmas below bound the two roundings from above. *)

Module FloatFacts.
























End FloatFacts.

Module BudgetFacts.
Import TEDPolicy.



End BudgetFacts.

(** ** The keys of the label sampling metadata *)

Module MetadataKeyFacts.
Import TEDPolicy.

Lemma sampling_metadata_loop_keys items n b md md' key :
  sampling_metadata_loop items n b md = inr md' ->
  is_Some (md' !! key) <-> is_Some (md !! key) \/ (key ∈ items.*1 /\ key <> LABEL_KEY).
Proof.
  revert md. induction items as [|[k data] items IH]; simpl; intros md Hloop.
  - injection Hloop as ->. split; [by left|]. intros [?|[Hin _]]; [done|inversion Hin].
  - destruct (decide (k = LABEL_KEY)) as [->|Hk].
    + rewrite (IH _ Hloop). rewrite elem_of_cons. intuition congruence.
    + apply bind_inr in Hloop as (mask & _ & Hloop).
      apply bind_inr in Hloop as (size & _ & Hloop).
      rewrite (IH _ Hloop). rewrite elem_of_cons.
      destruct (decide (key = k)) as [->|Hne].
      * rewrite lookup_insert_eq. split; [|eauto]. intros _. right. auto.
      * rewrite lookup_insert_ne by done. intuition congruence.
Qed.

Lemma dict_get_missing {V} (d : list (string * V)) key :
  key ∉ d.*1 -> dict_get d key = inl (KeyError key).
Proof.
  induction d as [|[k v] d IH]; simpl; [done|]. intros Hkey.
  apply not_elem_of_cons in Hkey as [Hne Hkey].
  rewrite decide_False by done. auto.
Qed.

End MetadataKeyFacts.

(** ** Negative label sampling *)

Module SamplingFacts.
Import TED.

Lemma map_cast_float32_exact ids :
  Forall (fun id => Z.abs id < 2 ^ 24) ids -> map Tf.cast_float32 ids = ids.
Proof.
  induction 1 as [|id ids Hid _ IH]; simpl; [done|].
  by rewrite IH, TfFacts.cast_float32_exact.
Qed.

(** The ids of one attribute: drawn from the candidates handed over,
    pairwise distinct, exactly as many as asked for. *)
Lemma sample_unique_label_ids_spec key_ids num_samples total g sample g' :
  NoDup key_ids -> Forall (fun id => Z.abs id < 2 ^ 24) key_ids ->
  _sample_unique_label_ids key_ids num_samples total g = inr (sample, g') ->
  NoDup sample /\ sample ⊆ key_ids /\
  Z.of_nat (length sample) = num_samples /\
  total = Z.of_nat (length key_ids) /\ 1 <= num_samples <= total.
Proof.
  intros Hnd Hsmall Hs. unfold _sample_unique_label_ids in Hs.
  apply bind_inr in Hs as ([indices g1] & Hsampler & Hs).
  apply bind_inr in Hs as (gathered & Hgather & Hs).
  injection Hs as <- <-.
  apply TfFacts.uniform_candidate_sampler_unique in Hsampler
    as (Hind & Hrange & Hlen & Hnum & Htrue & _ & _).
  assert (gathered ⊆ key_ids) as Hsub.
  { intros id Hin. by eapply TfFacts.gather_elem_of. }
  assert (Forall (fun id => Z.abs id < 2 ^ 24) gathered) as Hsmall'.
  { apply Forall_forall. intros id Hin. rewrite Forall_forall in Hsmall. auto. }
  rewrite (map_cast_float32_exact _ Hsmall'). split_and!; try done; try lia.
  - by eapply TfFacts.gather_NoDup.
  - rewrite (TfFacts.gather_length _ _ _ Hgather). lia.
Qed.

Lemma sample_unique_label_ids_ok key_ids num_samples g :
  1 <= num_samples <= Z.of_nat (length key_ids) ->
  is_ok (_sample_unique_label_ids key_ids num_samples (Z.of_nat (length key_ids)) g).
Proof.
  intros Hnum. unfold _sample_unique_label_ids.
  destruct (TfFacts.uniform_candidate_sampler_ok key_ids (Z.of_nat (length key_ids))
              num_samples (Z.of_nat (length key_ids)) g) as [[indices g1] Hs];
    [done|lia|lia|].
  rewrite Hs. cbn [mbind Result_bind].
  apply TfFacts.uniform_candidate_sampler_unique in Hs as (_ & Hrange & _).
  destruct (TfFacts.gather_ok key_ids indices) as [gathered Hg].
  { eapply Forall_impl; [exact Hrange|]. intros i Hi. simpl in Hi. lia. }
  rewrite Hg. by eexists.
Qed.

Lemma sample_for_each_key_spec self keys g samples g' ids :
  all_label_ids self = inr ids ->
  NoDup ids -> Forall (fun id => Z.abs id < 2 ^ 24) ids ->
  sample_for_each_key self keys g = inr (samples, g') ->
  Forall2 (sample_of self ids) (filter (fun key => key <> LABEL_KEY) keys) samples.
Proof.
  intros Hids Hnd Hsmall. revert g samples.
  induction keys as [|key keys IH]; simpl; intros g samples Hs.
  - injection Hs as <- <-. constructor.
  - destruct (decide (key = LABEL_KEY)) as [->|Hkey].
    + rewrite filter_cons_False by naive_solver. eauto.
    + rewrite filter_cons_True by done.
      apply bind_inr in Hs as (key_ids & Hkey_ids & Hs).
      apply bind_inr in Hs as (metadata & Hmeta & Hs).
      apply bind_inr in Hs as ([label_ids g1] & Hsample & Hs).
      apply bind_inr in Hs as ([more g2] & Hmore & Hs).
      injection Hs as <- <-. constructor; [|eauto].
      unfold calculate_key_ids in Hkey_ids. rewrite Hids in Hkey_ids.
      cbn [mbind Result_bind] in Hkey_ids.
      apply bind_inr in Hkey_ids as (data & Hdata & Hkey_ids).
      apply bind_inr in Hkey_ids as (mask & Hmask & Hkey_ids).
      unfold get_mask in Hmask.
      destruct (data_mask data) as [mask'|] eqn:Hmask'; [|discriminate].
      injection Hmask as ->.
      unfold sampling_metadata in Hmeta.
      destruct (_label_sampling_metadata self !! key) as [metadata'|] eqn:Hmeta';
        [|discriminate].
      injection Hmeta as ->.
      pose proof (TfFacts.boolean_mask_sublist _ _ _ Hkey_ids) as Hsub.
      destruct (sample_unique_label_ids_spec key_ids (LABEL_BATCH_SIZE metadata)
                  (NUM_LABEL_CANDIDATES metadata) g label_ids g1)
        as (Hnd' & Hin & Hlen & _ & _).
      { by eapply sublist_NoDup. }
      { apply Forall_forall. intros id Hid. rewrite Forall_forall in Hsmall.
        apply Hsmall. by eapply elem_of_sublist. }
      { done. }
      exists data, mask, metadata. split_and!; try done.
      intros id Hid. apply (TfFacts.boolean_mask_elem_of _ _ _ _ Hkey_ids). auto.
Qed.


Lemma sample_negative_label_ids_inv self b g negative g' :
  _sample_negative_label_ids self b g = inr (negative, g') ->
  exists ids samples,
    all_label_ids self = inr ids /\ b <= Z.of_nat (length ids) /\
    sample_for_each_key self (tf_label_data self).*1 g = inr (samples, g') /\
    negative = List.concat samples.
Proof.
  unfold _sample_negative_label_ids. intros Hs.
  apply bind_inr in Hs as (ids & Hids & Hs).
  destruct (Z.ltb_spec (Z.of_nat (length ids)) b); [discriminate|].
  apply bind_inr in Hs as ([samples g1] & Hsamples & Hs).
  apply bind_inr in Hs as (sampled & Hconcat & Hs).
  injection Hs as <- <-.
  exists ids, samples. split_and!; try done.
  unfold Tf.concat in Hconcat. destruct samples; [discriminate|]. by injection Hconcat.
Qed.

(** Sampling succeeds when every attribute is asked for at least one and at
    most all of its candidates. *)
Lemma sample_for_each_key_ok self keys g ids :
  all_label_ids self = inr ids ->
  (forall key, key ∈ keys -> key <> LABEL_KEY ->
     exists data mask metadata,
       dict_get (tf_label_data self) key = inr data /\
       data_mask data = Some mask /\ length mask = length ids /\
       _label_sampling_metadata self !! key = Some metadata /\
       NUM_LABEL_CANDIDATES metadata = Np.sum_mask mask /\
       1 <= LABEL_BATCH_SIZE metadata <= NUM_LABEL_CANDIDATES metadata) ->
  is_ok (sample_for_each_key self keys g).
Proof.
  intros Hids. revert g. induction keys as [|key keys IH]; simpl; intros g Hkeys.
  - by eexists.
  - destruct (decide (key = LABEL_KEY)) as [->|Hkey].
    + apply IH. intros k Hk. apply Hkeys. by right.
    + destruct (Hkeys key) as (data & mask & metadata & Hdata & Hmask & Hlen & Hmeta & Hnum & Hsize);
        [left|done|].
      unfold calculate_key_ids. rewrite Hids. cbn [mbind Result_bind]. rewrite Hdata.
      cbn [mbind Result_bind]. unfold get_mask. rewrite Hmask. cbn [mbind Result_bind ret].
      destruct (TfFacts.boolean_mask_ok ids mask) as [key_ids Hk]; [done|].
      rewrite Hk. cbn [mbind Result_bind].
      unfold sampling_metadata. rewrite Hmeta. cbn [mbind Result_bind ret].
      pose proof (TfFacts.boolean_mask_length _ _ _ Hk) as Hcount.
      rewrite Hnum, <- Hcount in *.
      destruct (sample_unique_label_ids_ok key_ids (LABEL_BATCH_SIZE metadata) g)
        as [[sample g1] Hsample]; [lia|].
      rewrite Hsample. cbn [mbind Result_bind].
      destruct (IH g1) as [[more g2] Hmore].
      { intros k Hk'. apply Hkeys. by right. }
      rewrite Hmore. by eexists.
Qed.

End SamplingFacts.

(** C4.  The negative label ids of a training step are the concatenation of
    one sample per label-bearing attribute, in the order of the attributes;
    the sample of an attribute ([TED.sample_of]) holds only label ids whose
    mask entry for the attribute is set, holds as many ids as the metadata
    of the attribute asks for, and holds no id twice.  The label ids are
    pairwise distinct and small enough to be float32 numbers. *)
Theorem negative_sampling_per_attribute
    (self : TED.t) (b : Z) (g g' : RNG) (negative ids : list Z) :
  TED.all_label_ids self = inr ids ->
  NoDup ids -> Forall (fun id => Z.abs id < 2 ^ 24) ids ->
  TED._sample_negative_label_ids self b g = inr (negative, g') ->
  exists samples,
    negative = List.concat samples /\
    Forall2 (TED.sample_of self ids)
      (filter (fun key => key <> LABEL_KEY) (TED.tf_label_data self).*1) samples.
Proof.
  intros Hids Hnd Hsmall Hs.
  apply SamplingFacts.sample_negative_label_ids_inv in Hs
    as (ids' & samples & Hids' & _ & Hsamples & ->).
  exists samples. split; [done|].
  by apply (SamplingFacts.sample_for_each_key_spec self _ g samples g' ids).
Qed.

Lemma negative_sampling_per_attribute_witness :
  exists samples,
    [3; 2; 7] = List.concat samples /\
    Forall2 (TED.sample_of (Examples.model 5 3 4) (map Z.of_nat (seq 0 8)))
      (filter (fun key => key <> LABEL_KEY)
              (TED.tf_label_data (Examples.model 5 3 4)).*1) samples.
Proof.
  apply (negative_sampling_per_attribute (Examples.model 5 3 4) 4 Examples.generator
           (mkRNG (stream Examples.generator) 3)).
  - reflexivity.
  - by_compute.
  - by_compute.
  - vm_compute. reflexivity.
Defined.

Module GuardFacts.
Import TED.

Lemma sample_for_each_key_length self keys g samples g' :
  sample_for_each_key self keys g = inr (samples, g') ->
  length samples = length (filter (fun key => key <> LABEL_KEY) keys).
Proof.
  revert g samples. induction keys as [|key keys IH]; simpl; intros g samples Hs.
  - by injection Hs as <- <-.
  - destruct (decide (key = LABEL_KEY)) as [->|Hkey].
    + rewrite filter_cons_False by naive_solver. eauto.
    + rewrite filter_cons_True by done.
      apply bind_inr in Hs as (key_ids & _ & Hs).
      apply bind_inr in Hs as (metadata & _ & Hs).
      apply bind_inr in Hs as ([label_ids g1] & _ & Hs).
      apply bind_inr in Hs as ([more g2] & Hmore & Hs).
      injection Hs as <- <-. simpl. f_equal. eauto.
Qed.

(** Sampling returns when the budget does not exceed the number of label
    ids, some attribute bears labels, and every attribute is asked for at
    least one and at most all of its candidates. *)
Lemma sample_negative_label_ids_ok self b g ids :
  all_label_ids self = inr ids ->
  b <= Z.of_nat (length ids) ->
  (exists key, key ∈ (tf_label_data self).*1 /\ key <> LABEL_KEY) ->
  (forall key, key ∈ (tf_label_data self).*1 -> key <> LABEL_KEY ->
     exists data mask metadata,
       dict_get (tf_label_data self) key = inr data /\
       data_mask data = Some mask /\ length mask = length ids /\
       _label_sampling_metadata self !! key = Some metadata /\
       NUM_LABEL_CANDIDATES metadata = Np.sum_mask mask /\
       1 <= LABEL_BATCH_SIZE metadata <= NUM_LABEL_CANDIDATES metadata) ->
  is_ok (_sample_negative_label_ids self b g).
Proof.
  intros Hids Hb (key & Hkey & Hne) Hkeys.
  destruct (SamplingFacts.sample_for_each_key_ok self _ g ids Hids Hkeys)
    as [[samples g1] Hsamples].
  unfold _sample_negative_label_ids. rewrite Hids. cbn [mbind Result_bind].
  destruct (Z.ltb_spec (Z.of_nat (length ids)) b); [lia|].
  rewrite Hsamples. cbn [mbind Result_bind].
  apply sample_for_each_key_length in Hsamples.
  destruct samples as [|sample samples].
  - exfalso. simpl in Hsamples. symmetry in Hsamples. apply length_zero_iff_nil in Hsamples.
    assert (key ∈ filter (fun key => key <> LABEL_KEY) (tf_label_data self).*1) as Hin
      by (by apply list_elem_of_filter).
    rewrite Hsamples in Hin. inversion Hin.
  - by eexists.
Qed.



End GuardFacts.



(** ** Label embeddings of a training step *)

Module EmbeddingFacts.
Import TED.

Lemma unique_from_elem_of seen x v :
  v ∈ Tf.unique_from seen x <-> v ∈ x /\ v ∉ seen.
Proof.
  revert seen. induction x as [|w x IH]; simpl; intros seen.
  - set_solver.
  - case_bool_decide as Hw.
    + rewrite IH. set_solver.
    + rewrite elem_of_cons, IH. destruct (decide (v = w)); set_solver.
Qed.

Lemma unique_from_NoDup seen x : NoDup (Tf.unique_from seen x).
Proof.
  revert seen. induction x as [|w x IH]; simpl; intros seen; [constructor|].
  case_bool_decide; [apply IH|].
  apply NoDup_cons. split; [|apply IH].
  rewrite unique_from_elem_of. set_solver.
Qed.

Lemma unique_elem_of x v : v ∈ Tf.unique x <-> v ∈ x.
Proof. unfold Tf.unique. rewrite unique_from_elem_of. set_solver. Qed.

Lemma sort_elem_of x v : v ∈ Tf.sort x <-> v ∈ x.
Proof. unfold Tf.sort. by rewrite merge_sort_Permutation. Qed.

(** Sorting a list without repetition gives a strictly ascending list. *)
Lemma sort_ascending x : NoDup x -> StronglySorted Z.lt (Tf.sort x).
Proof.
  intros Hnd. unfold Tf.sort.
  assert (NoDup (merge_sort Z.le x)) as Hnd' by (by rewrite merge_sort_Permutation).
  pose proof (StronglySorted_merge_sort Z.le x) as Hsorted.
  induction Hsorted as [|v l Hsorted IH Hall]; [constructor|].
  apply NoDup_cons in Hnd' as [Hv Hnd']. constructor; [auto|].
  apply Forall_forall. intros w Hw. rewrite Forall_forall in Hall.
  specialize (Hall w Hw). assert (v <> w) by (intros ->; done). lia.
Qed.

Lemma StronglySorted_lt_NoDup l : StronglySorted Z.lt l -> NoDup l.
Proof.
  induction 1 as [|v l _ IH Hall]; constructor; [|done].
  intros Hin. rewrite Forall_forall in Hall. specialize (Hall v Hin). lia.
Qed.

(** The ids for which embeddings are computed: strictly ascending, and
    exactly the ids that occur as a negative or as a positive. *)
Lemma unique_label_ids_spec negative positive :
  StronglySorted Z.lt (unique_label_ids negative positive) /\
  forall id, id ∈ unique_label_ids negative positive <->
             id ∈ negative \/ id ∈ List.concat positive.
Proof.
  unfold unique_label_ids. split.
  - apply sort_ascending, unique_from_NoDup.
  - intros id. rewrite sort_elem_of, unique_elem_of, elem_of_app. done.
Qed.

Lemma imap_pair_shift (all_ids : list Z) k :
  imap ((fun u v => ((k + u)%nat, v)) ∘ S) all_ids
  = imap (fun u v => ((S k + u)%nat, v)) all_ids.
Proof. apply imap_ext. intros i w _. simpl. f_equal. lia. Qed.

Lemma where_equal_shift (all_ids : list Z) id k :
  map fst (filter (fun p : nat * Z => p.2 = id)
             (imap (fun u v => ((k + u)%nat, v)) all_ids))
  = map (fun u => (k + u)%nat) (where_equal all_ids id).
Proof.
  unfold where_equal.
  change (imap (fun u v => (u, v)) all_ids)
    with (imap (fun u v => ((0 + u)%nat, v)) all_ids).
  revert k. induction all_ids as [|v all_ids IH]; intros k; [done|].
  rewrite !imap_cons, !imap_pair_shift.
  destruct (decide (v = id)) as [->|Hne].
  - rewrite !filter_cons_True by done. cbn [map fst]. f_equal.
    rewrite (IH (S k)), (IH 1%nat).
    rewrite (List.map_map (fun u => (1 + u)%nat) (fun u => (k + u)%nat)).
    apply map_ext. intros u. lia.
  - rewrite !filter_cons_False by done.
    rewrite (IH (S k)), (IH 1%nat).
    rewrite (List.map_map (fun u => (1 + u)%nat) (fun u => (k + u)%nat)).
    apply map_ext. intros u. lia.
Qed.

Lemma where_equal_cons v all_ids id :
  where_equal (v :: all_ids) id =
  (if decide (v = id) then [0%nat] else []) ++ map S (where_equal all_ids id).
Proof.
  unfold where_equal at 1.
  change (imap (fun u w => (u, w)) (v :: all_ids))
    with (imap (fun u w => ((0 + u)%nat, w)) (v :: all_ids)).
  rewrite imap_cons, imap_pair_shift.
  destruct (decide (v = id)) as [->|Hne].
  - rewrite filter_cons_True by done. cbn [map fst app]. f_equal.
    apply where_equal_shift.
  - rewrite filter_cons_False by done. apply where_equal_shift.
Qed.

Lemma where_equal_absent all_ids id : id ∉ all_ids -> where_equal all_ids id = [].
Proof.
  induction all_ids as [|v all_ids IH]; [done|]. intros Hid.
  apply not_elem_of_cons in Hid as [Hne Hid]. rewrite where_equal_cons.
  rewrite decide_False by done. by rewrite IH.
Qed.

(** In a list without repetition an id is found at its one position. *)
Lemma where_equal_position all_ids id u :
  NoDup all_ids -> all_ids !! u = Some id -> where_equal all_ids id = [u].
Proof.
  revert u. induction all_ids as [|v all_ids IH]; intros u Hnd Hu; [done|].
  apply NoDup_cons in Hnd as [Hv Hnd]. rewrite where_equal_cons.
  destruct u as [|u]; simpl in Hu.
  - injection Hu as ->. rewrite decide_True by done.
    by rewrite where_equal_absent.
  - rewrite decide_False.
    + by rewrite (IH u).
    + intros ->. apply Hv. by eapply list_elem_of_lookup_2.
Qed.

(** Every selected id that has an embedding gets the row at its position. *)
Lemma get_labels_embed_lookup selection all_ids embed rows :
  NoDup all_ids ->
  Forall (fun id => id ∈ all_ids) selection ->
  _get_labels_embed selection all_ids embed = inr rows ->
  Forall2 (fun id row => exists u, all_ids !! u = Some id /\ embed !! u = Some row)
          selection rows.
Proof.
  intros Hnd Hsel. unfold _get_labels_embed. revert rows.
  induction Hsel as [|id selection Hid _ IH]; simpl; intros rows Hrows.
  - injection Hrows as <-. constructor.
  - apply list_elem_of_lookup in Hid as [u Hu].
    rewrite (where_equal_position _ _ _ Hnd Hu) in Hrows. simpl in Hrows.
    destruct (embed !! u) as [row|] eqn:Hrow; [|discriminate].
    apply bind_inr in Hrows as (rest & Hrest & Hrows). injection Hrows as <-.
    constructor; eauto.
Qed.

Lemma get_labels_embed_ok selection all_ids embed :
  NoDup all_ids -> length embed = length all_ids ->
  Forall (fun id => id ∈ all_ids) selection ->
  is_ok (_get_labels_embed selection all_ids embed).
Proof.
  intros Hnd Hlen Hsel. unfold _get_labels_embed. apply TfFacts.gather_ok.
  induction Hsel as [|id selection Hid _ IH]; simpl; [constructor|].
  apply list_elem_of_lookup in Hid as [u Hu].
  rewrite (where_equal_position _ _ _ Hnd Hu). simpl. constructor; [|done].
  rewrite Hlen. by eapply lookup_lt_Some.
Qed.

(** The embeddings of a training step are gathered without error once the
    negatives are sampled, provided the embedder returns one row per id. *)
Lemma batch_label_embeddings_ok {L : Layers} self tf_batch_data g negative g' :
  (forall ids,
     length (_compute_embedding_for_label_ids (tf_label_data self) (_training self) ids)
     = length ids) ->
  _sample_negative_label_ids self (Config.LABEL_BATCH_SIZE (config self)) g
    = inr (negative, g') ->
  is_ok (batch_label_embeddings self tf_batch_data g).
Proof.
  intros Hrows Hneg. unfold batch_label_embeddings. rewrite Hneg.
  cbn [mbind Result_bind]. unfold _create_label_embeddings_for_training.
  destruct (unique_label_ids_spec negative (batch_label_ids tf_batch_data))
    as [Hsorted Hmem].
  pose proof (StronglySorted_lt_NoDup _ Hsorted) as Hnd.
  destruct (get_labels_embed_ok (List.concat (batch_label_ids tf_batch_data))
              (unique_label_ids negative (batch_label_ids tf_batch_data))
              (_compute_embedding_for_label_ids (tf_label_data self) (_training self)
                 (unique_label_ids negative (batch_label_ids tf_batch_data))))
    as [positive_embed Hpos]; [done|apply Hrows| |].
  { apply Forall_forall. intros id Hid. apply Hmem. by right. }
  destruct (get_labels_embed_ok negative
              (unique_label_ids negative (batch_label_ids tf_batch_data))
              (_compute_embedding_for_label_ids (tf_label_data self) (_training self)
                 (unique_label_ids negative (batch_label_ids tf_batch_data))))
    as [negative_embed Hnegs]; [done|apply Hrows| |].
  { apply Forall_forall. intros id Hid. apply Hmem. by left. }
  rewrite Hpos. cbn [mbind Result_bind]. rewrite Hnegs. by eexists.
Qed.

End EmbeddingFacts.

(** C5.  In a training step the sampled negative ids and the positive ids
    of the batch are merged into one strictly ascending list, so without
    repetition; the label embeddings are the result of one application of
    the embedder to that list; every positive and every negative slot gets
    the row of the list position of its id, and so an id gets the same
    embedding in a positive and in a negative slot. *)
Theorem label_embeddings_computed_once {L : TED.Layers}
    (self : TED.t) (tf_batch_data : TED.BatchData) (g g' : RNG)
    (all_unique_label_ids negative_label_ids : list Z)
    (all_labels_embed positive_labels_embed negative_labels_embed : list Vec) :
  TED.batch_label_embeddings self tf_batch_data g =
    inr (all_unique_label_ids, all_labels_embed, positive_labels_embed,
         negative_labels_embed, negative_label_ids, g') ->
  let positive_label_ids := List.concat (TED.batch_label_ids tf_batch_data) in
  let row_of id row :=
    exists u, all_unique_label_ids !! u = Some id /\ all_labels_embed !! u = Some row in
  StronglySorted Z.lt all_unique_label_ids /\
  (forall id, id ∈ all_unique_label_ids <->
              id ∈ negative_label_ids \/ id ∈ positive_label_ids) /\
  all_labels_embed =
    TED._compute_embedding_for_label_ids (TED.tf_label_data self) (TED._training self)
      all_unique_label_ids /\
  Forall2 row_of positive_label_ids positive_labels_embed /\
  Forall2 row_of negative_label_ids negative_labels_embed /\
  (forall i j id,
     positive_label_ids !! i = Some id -> negative_label_ids !! j = Some id ->
     positive_labels_embed !! i = negative_labels_embed !! j).
Proof.
  unfold TED.batch_label_embeddings. intros Hb.
  apply bind_inr in Hb as ([negative g1] & Hneg & Hb).
  unfold TED._create_label_embeddings_for_training in Hb.
  apply bind_inr in Hb as (positive_embed & Hpos_embed & Hb).
  apply bind_inr in Hb as (negative_embed & Hneg_embed & Hb).
  injection Hb as <- <- <- <- <- <-.
  destruct (EmbeddingFacts.unique_label_ids_spec negative (TED.batch_label_ids tf_batch_data))
    as [Hsorted Hmem].
  pose proof (EmbeddingFacts.StronglySorted_lt_NoDup _ Hsorted) as Hnd.
  assert (Forall2 (fun id row => exists u,
             TED.unique_label_ids negative (TED.batch_label_ids tf_batch_data) !! u = Some id /\
             TED._compute_embedding_for_label_ids (TED.tf_label_data self) (TED._training self)
               (TED.unique_label_ids negative (TED.batch_label_ids tf_batch_data)) !! u
             = Some row)
            (List.concat (TED.batch_label_ids tf_batch_data)) positive_embed) as Hpos.
  { eapply EmbeddingFacts.get_labels_embed_lookup; [done| |done].
    apply Forall_forall. intros id Hid. apply Hmem. by right. }
  assert (Forall2 (fun id row => exists u,
             TED.unique_label_ids negative (TED.batch_label_ids tf_batch_data) !! u = Some id /\
             TED._compute_embedding_for_label_ids (TED.tf_label_data self) (TED._training self)
               (TED.unique_label_ids negative (TED.batch_label_ids tf_batch_data)) !! u
             = Some row)
            negative negative_embed) as Hnegs.
  { eapply EmbeddingFacts.get_labels_embed_lookup; [done| |done].
    apply Forall_forall. intros id Hid. apply Hmem. by left. }
  cbv zeta. split_and!; try done.
  intros i j id Hi Hj.
  destruct (Forall2_lookup_l _ _ _ _ _ Hpos Hi) as (row1 & Hrow1 & u1 & Hu1 & He1).
  destruct (Forall2_lookup_l _ _ _ _ _ Hnegs Hj) as (row2 & Hrow2 & u2 & Hu2 & He2).
  rewrite Hrow1, Hrow2.
  assert (u1 = u2) as -> by (by eapply NoDup_lookup).
  congruence.
Qed.

Lemma label_embeddings_computed_once_witness :
  let embed := map (fun id => [PyNum.float_of_int id]) in
  let all_unique_label_ids := [0; 1; 2; 3; 4; 7] in
  let positive_label_ids := List.concat (TED.batch_label_ids Examples.batch) in
  let negative_label_ids := [3; 2; 7] in
  let row_of id row :=
    exists u, all_unique_label_ids !! u = Some id /\
              embed all_unique_label_ids !! u = Some row in
  StronglySorted Z.lt all_unique_label_ids /\
  (forall id, id ∈ all_unique_label_ids <->
              id ∈ negative_label_ids \/ id ∈ positive_label_ids) /\
  embed all_unique_label_ids =
    TED._compute_embedding_for_label_ids (Layers := Examples.layers)
      (TED.tf_label_data (Examples.model 5 3 4))
      (TED._training (Examples.model 5 3 4)) all_unique_label_ids /\
  Forall2 row_of positive_label_ids (embed [1; 0; 2; 0; 4; 0]) /\
  Forall2 row_of negative_label_ids (embed negative_label_ids) /\
  (forall i j id,
     positive_label_ids !! i = Some id -> negative_label_ids !! j = Some id ->
     embed [1; 0; 2; 0; 4; 0] !! i = embed negative_label_ids !! j).
Proof.
  apply (label_embeddings_computed_once (L := Examples.layers) (Examples.model 5 3 4)
           Examples.batch Examples.generator (mkRNG (stream Examples.generator) 3)).
  vm_compute. reflexivity.
Defined.

(** ** Entity tagger *)

(** C6.  On a batch without any real text, the first axis of the text
    output being empty, the entity loss is exactly zero and no entity metric
    is recorded, and the predicted tag ids and confidences are all-zero
    tensors of the shape given by the first two axes of the text output; so
    it is with the placeholder that the text encoder emits on such a batch,
    whose predictions have the shape (0 x 0). *)
Theorem degenerate_entity_batch {L : TED.Layers}
    (metrics : TED.Metrics) (tf_batch_data : TED.BatchData)
    (dialogue_transformer_output : list (list Vec))
    (text_output : Tensor float) (text_sequence_lengths : Tensor Z)
    (dims : list nat) :
  shape text_output = 0%nat :: dims ->
  TED._batch_loss_entities metrics tf_batch_data dialogue_transformer_output
    text_output text_sequence_lengths = (0%float, metrics) /\
  TED._batch_predict_entities tf_batch_data dialogue_transformer_output
    text_output text_sequence_lengths
  = (mkTensor (0%nat :: take 1 dims) [], mkTensor (0%nat :: take 1 dims) []) /\
  (forall (self : TED.t) features placeholder lengths,
     TED._encode_fake_features_per_attribute self tf_batch_data TEXT
       = inr (features, placeholder, lengths) ->
     TED._batch_loss_entities metrics tf_batch_data dialogue_transformer_output
       placeholder lengths = (0%float, metrics) /\
     TED._batch_predict_entities tf_batch_data dialogue_transformer_output
       placeholder lengths = (mkTensor [0; 0]%nat [], mkTensor [0; 0]%nat [])).
Proof.
  intros Hshape. split_and!.
  - unfold TED._batch_loss_entities, TED.first_dim. by rewrite Hshape.
  - unfold TED._batch_predict_entities, TED.first_dim. rewrite Hshape. simpl.
    unfold Tensors.zeros. simpl. done.
  - intros self features placeholder lengths Hfake.
    unfold TED._encode_fake_features_per_attribute in Hfake.
    apply bind_inr in Hfake as (data & _ & Hfake).
    rewrite decide_True in Hfake by done. injection Hfake as <- <- <-.
    split; reflexivity.
Qed.

Lemma degenerate_entity_batch_witness :
  let text_output := Tensors.zeros 0%float [0; 7; 128]%nat in
  TED._batch_loss_entities (L := Examples.layers) Examples.no_metrics Examples.batch []
    text_output (Tensors.zeros 0 [0%nat]) = (0%float, Examples.no_metrics) /\
  TED._batch_predict_entities (L := Examples.layers) Examples.batch []
    text_output (Tensors.zeros 0 [0%nat])
  = (mkTensor (0%nat :: take 1 [7; 128]%nat) [], mkTensor (0%nat :: take 1 [7; 128]%nat) []).
Proof.
  pose proof (degenerate_entity_batch (L := Examples.layers) Examples.no_metrics
                Examples.batch [] (Tensors.zeros 0%float [0; 7; 128]%nat)
                (Tensors.zeros 0 [0%nat]) [7; 128]%nat eq_refl) as (Hloss & Hpredict & _).
  split; [exact Hloss | exact Hpredict].
Defined.

(** ** Dialogue encoder *)

Module DialogueFacts.
Import TED.

Lemma reverse_sequence_lookup {A} (input : list (list A)) seq_lengths reversed b row n :
  Tf.reverse_sequence input seq_lengths = inr reversed ->
  input !! b = Some row -> seq_lengths !! b = Some n ->
  (n <= length row)%nat /\ reversed !! b = Some (rev (take n row) ++ drop n row).
Proof.
  unfold Tf.reverse_sequence.
  destruct (length input =? length seq_lengths)%nat; [|discriminate]. simpl.
  destruct (forallb _ _) eqn:Hall; [|discriminate]. simpl.
  intros [= <-] Hrow Hn. split.
  - rewrite forallb_forall in Hall. specialize (Hall (row, n)).
    apply Nat.leb_le. apply Hall. apply list_elem_of_In, list_elem_of_lookup.
    exists b. apply lookup_zip_with_Some. eauto.
  - rewrite lookup_zip_with, Hrow, Hn. done.
Qed.

(** After the reversal the turn in front is the last true turn. *)
Lemma reverse_row_head {A} (row : list A) n :
  (0 < n <= length row)%nat -> head (Tf.reverse_row row n) = row !! (n - 1)%nat.
Proof.
  intros Hn. unfold Tf.reverse_row.
  destruct (lookup_lt_is_Some_2 row (n - 1)%nat) as [v Hv]; [lia|].
  rewrite Hv. replace n with (S (n - 1)) at 1 2 by lia.
  rewrite (take_S_r _ _ _ Hv), rev_unit. done.
Qed.

Lemma reverse_row_length {A} (row : list A) n : length (Tf.reverse_row row n) = length row.
Proof.
  unfold Tf.reverse_row. rewrite length_app, length_rev, length_take, length_drop. lia.
Qed.

Lemma reverse_sequence_ok {A} (input : list (list A)) seq_lengths :
  Forall2 (fun row n => (n <= length row)%nat) input seq_lengths ->
  is_ok (Tf.reverse_sequence input seq_lengths).
Proof.
  intros Hall. unfold Tf.reverse_sequence.
  rewrite (Forall2_length _ _ _ Hall), Nat.eqb_refl. simpl.
  assert (forallb (fun p : list A * nat => (p.2 <=? length p.1)%nat)
            (zip input seq_lengths) = true) as ->.
  { induction Hall as [|row n input seq_lengths Hn _ IH]; simpl; [done|].
    rewrite IH, andb_true_r. by apply Nat.leb_le. }
  by eexists.
Qed.

Lemma last_token_lookup {A} (x : list (list A)) lengths last b row n :
  _last_token x lengths = inr last ->
  x !! b = Some row -> lengths !! b = Some n ->
  exists v, last !! b = Some v /\ row !! (n - 1)%nat = Some v.
Proof.
  unfold _last_token. destruct (length x =? length lengths)%nat; [|discriminate].
  simpl. intros Hlast Hrow Hn.
  assert (zip x lengths !! b = Some (row, n)) as Hzip
    by (apply lookup_zip_with_Some; eauto).
  clear Hrow Hn. revert b last Hlast Hzip.
  induction (zip x lengths) as [|[row' n'] l IH]; intros b last Hlast Hzip; [done|].
  cbn [mapM] in Hlast.
  apply bind_inr in Hlast as (v & Hv & Hlast).
  apply bind_inr in Hlast as (rest & Hrest & Hlast). injection Hlast as <-.
  destruct b as [|b]; simpl in Hzip.
  - injection Hzip as -> ->. exists v. split; [done|]. simpl in Hv.
    destruct (row !! (n - 1)%nat) as [w|]; [|discriminate]. by injection Hv as ->.
  - exact (IH b rest Hrest Hzip).
Qed.

Lemma last_token_ok {A} (x : list (list A)) lengths :
  Forall2 (fun (row : list A) n => (n - 1 < length row)%nat) x lengths ->
  is_ok (_last_token x lengths).
Proof.
  intros Hall. unfold _last_token.
  rewrite (Forall2_length _ _ _ Hall), Nat.eqb_refl. simpl.
  induction Hall as [|row n x lengths Hn _ [rest IH]]; [by eexists|].
  cbn [mapM zip zip_with fst snd].
  destruct (lookup_lt_is_Some_2 row (n - 1)%nat Hn) as [v ->].
  cbn [mbind Result_bind ret]. rewrite IH. by eexists.
Qed.

End DialogueFacts.

(** C8.  [_prepare_layers] builds the dialogue transformer unidirectional
    exactly when no max-history featurizer is used.  With a max-history featurizer the
    transformer (bidirectional) reads every dialogue with its true turns in
    reverse order, so that the last true turn comes first, and only the
    first position of its output is kept.  Without one the transformer
    (unidirectional) reads the dialogues as they are; in training its whole
    output is kept, at inference only the output at the last true turn of
    every dialogue. *)
Theorem dialogue_encoder_modes {L : TED.Layers}
    (self : TED.t) (dialogue_in : list (list Vec)) (tf_batch_data : TED.BatchData)
    (dialogue_embed : list (list Vec)) (mask : list (list float))
    (dialogue_transformed attention_weights : list (list Vec)) :
  TED._embed_dialogue self dialogue_in tf_batch_data
    = inr (dialogue_embed, mask, dialogue_transformed, attention_weights) ->
  let lengths := TED.dialogue_length tf_batch_data in
  let padding := map (map (fun m => (1 - m)%float)) (rasa_layers.compute_mask lengths) in
  let activated (x : list (list Vec)) := map (map (map TED.gelu)) x in
  TED._prepare_layers self
    = TED.mkTfLayers
        (TED.prepare_transformer_layer DIALOGUE
           (negb (TED.max_history_featurizer_is_used self))) /\
  dialogue_embed = TED.embed_dialogue_layer dialogue_transformed /\
  (TED.max_history_featurizer_is_used self = true ->
   exists reversed,
     Tf.reverse_sequence dialogue_in lengths = inr reversed /\
     (forall b row n,
        dialogue_in !! b = Some row -> lengths !! b = Some n ->
        reversed !! b = Some (Tf.reverse_row row n) /\
        ((0 < n)%nat -> head (Tf.reverse_row row n) = row !! (n - 1)%nat)) /\
     dialogue_transformed =
       map (take 1)
         (activated (TED.prepare_transformer_layer DIALOGUE false reversed padding
                       (TED._training self)).1)) /\
  (TED.max_history_featurizer_is_used self = false ->
   let output :=
     activated (TED.prepare_transformer_layer DIALOGUE true dialogue_in padding
                  (TED._training self)).1 in
   (TED._training self = true ->
      dialogue_transformed = output /\ mask = rasa_layers.compute_mask lengths) /\
   (TED._training self = false ->
      exists last,
        TED._last_token output lengths = inr last /\
        dialogue_transformed = map (fun v => [v]) last /\
        forall b row n,
          output !! b = Some row -> lengths !! b = Some n ->
          exists v, last !! b = Some v /\ row !! (n - 1)%nat = Some v)).
Proof.
  unfold TED._embed_dialogue, TED._prepare_layers. cbn [TED.transformer_DIALOGUE].
  intros Hembed. cbv zeta. split; [done|].
  destruct (TED.max_history_featurizer_is_used self) eqn:Hmax; simpl negb in Hembed.
  - apply bind_inr in Hembed as (reversed & Hrev & Hembed).
    destruct (TED.prepare_transformer_layer DIALOGUE false reversed _ _)
      as [output attention] eqn:Hlayer.
    apply bind_inr in Hembed as ([transformed mask'] & Hkeep & Hembed).
    apply bind_inr in Hkeep as (last_mask & _ & Hkeep).
    injection Hkeep as <- <-. injection Hembed as <- <- <- <-.
    split; [done|]. split; [|done]. intros _.
    exists reversed. split; [done|]. split; [|by rewrite Hlayer].
    intros b row n Hrow Hn.
    destruct (DialogueFacts.reverse_sequence_lookup _ _ _ _ _ _ Hrev Hrow Hn)
      as [Hle Hb].
    split; [done|]. intros Hpos. apply DialogueFacts.reverse_row_head. lia.
  - cbn [mbind Result_bind ret] in Hembed.
    destruct (TED.prepare_transformer_layer DIALOGUE true dialogue_in _ _)
      as [output attention] eqn:Hlayer.
    apply bind_inr in Hembed as ([transformed mask'] & Hkeep & Hembed).
    injection Hembed as <- <- <- <-.
    split; [done|]. split; [done|]. intros _.
    destruct (TED._training self) eqn:Htraining; simpl negb in Hkeep.
    + injection Hkeep as <- <-. split; [done|]. done.
    + split; [done|]. intros _.
      apply bind_inr in Hkeep as (last & Hlast & Hkeep).
      apply bind_inr in Hkeep as (last_mask & _ & Hkeep).
      injection Hkeep as <- <-.
      exists last. split; [done|]. split; [done|].
      intros b row n Hrow Hn.
      by eapply DialogueFacts.last_token_lookup.
Qed.

Lemma dialogue_encoder_modes_witness :
  exists dialogue_embed mask dialogue_transformed attention_weights,
    TED._embed_dialogue (L := Examples.layers) Examples.max_history_model
      Examples.dialogue_in Examples.batch
    = inr (dialogue_embed, mask, dialogue_transformed, attention_weights) /\
    dialogue_transformed = [ [[3]]; [[5]] ]%float /\
    Tf.reverse_sequence Examples.dialogue_in (TED.dialogue_length Examples.batch)
    = inr [ [[3]; [2]; [1]]; [[5]; [4]; [0]] ]%float /\
    TED._prepare_layers (L := Examples.layers) Examples.max_history_model
    = TED.mkTfLayers (TED.prepare_transformer_layer (Layers := Examples.layers)
                        DIALOGUE false).
Proof.
  exists [ [[3]]; [[5]] ]%float, [[1]; [1]]%float, [ [[3]]; [[5]] ]%float, [].
  split; [vm_compute; reflexivity|]. split; [reflexivity|].
  split; [vm_compute; reflexivity|].
  apply (dialogue_encoder_modes (L := Examples.layers) Examples.max_history_model
           Examples.dialogue_in Examples.batch
           [ [[3]]; [[5]] ]%float [[1]; [1]]%float [ [[3]]; [[5]] ]%float []).
  vm_compute. reflexivity.
Defined.

(** ** Prediction *)

Module PredictionFacts.
Import TED.

Lemma reverse_sequence_error {A} (input : list (list A)) lengths e :
  Tf.reverse_sequence input lengths = inl e -> exists msg, e = InvalidArgumentError msg.
Proof.
  unfold Tf.reverse_sequence. destruct (negb _); [intros [= <-]; eauto|].
  destruct (negb _); [intros [= <-]; eauto|]. discriminate.
Qed.

Lemma last_token_error {A} (x : list (list A)) lengths e :
  _last_token x lengths = inl e -> exists msg, e = InvalidArgumentError msg.
Proof.
  unfold _last_token. destruct (negb _); [intros [= <-]; eauto|].
  induction (zip x lengths) as [|[row n] l IH]; cbn [mapM]; [discriminate|].
  simpl. destruct (row !! (n - 1)%nat); cbn [mbind Result_bind ret raise].
  - destruct (mapM _ l); cbn [mbind Result_bind]; [auto|discriminate].
  - intros [= <-]; eauto.
Qed.

(** The dialogue encoder raises nothing but shape errors. *)
Lemma embed_dialogue_error {L : Layers} self dialogue_in tf_batch_data e :
  _embed_dialogue self dialogue_in tf_batch_data = inl e ->
  exists msg, e = InvalidArgumentError msg.
Proof.
  unfold _embed_dialogue, _prepare_layers. cbn [transformer_DIALOGUE].
  destruct (max_history_featurizer_is_used self).
  - destruct (Tf.reverse_sequence dialogue_in _) as [e'|reversed] eqn:Hrev;
      cbn [mbind Result_bind].
    { intros [= <-]. by eapply reverse_sequence_error. }
    destruct (prepare_transformer_layer DIALOGUE _ reversed _ _) as [output attention].
    destruct (_last_token _ _) as [e'|last] eqn:Hlast; cbn [mbind Result_bind ret].
    { intros [= <-]. by eapply last_token_error. }
    discriminate.
  - cbn [mbind Result_bind ret].
    destruct (prepare_transformer_layer DIALOGUE _ dialogue_in _ _) as [output attention].
    destruct (negb (_training self)); cbn [mbind Result_bind ret]; [|discriminate].
    destruct (_last_token (map (map (map gelu)) output) (dialogue_length tf_batch_data))
      as [e'|last] eqn:Hlast;
      cbn [mbind Result_bind ret].
    { intros [= <-]. by eapply last_token_error. }
    destruct (_last_token (rasa_layers.compute_mask _) _) as [e'|last_mask] eqn:Hmask;
      cbn [mbind Result_bind ret].
    { intros [= <-]. by eapply last_token_error. }
    discriminate.
Qed.

Lemma predict_with_error {L : Layers} self embed batch_in e :
  predict_with self embed batch_in = inl e -> exists msg, e = InvalidArgumentError msg.
Proof.
  unfold predict_with.
  destruct (_process_batch_data _ _) as [[dialogue_in text_output] lengths].
  destruct (_embed_dialogue self dialogue_in _) as [e'|[[[emb mask] output] attention]] eqn:He;
    cbn [mbind Result_bind].
  { intros [= <-]. by eapply embed_dialogue_error. }
  destruct (similarity_confidence_from_embeddings _ _ _) as [sim scores].
  destruct (Config.ENTITY_RECOGNITION _), text_output, lengths; try discriminate.
  destruct (_batch_predict_entities _ _ _ _). discriminate.
Qed.

(** What a prediction reports was scored against the given embeddings. *)
Lemma predict_with_similarities {L : Layers} self embed batch_in predictions :
  predict_with self embed batch_in = inr predictions ->
  exists dialogue_embed dialogue_mask,
    (similarities predictions, action_scores predictions)
    = similarity_confidence_from_embeddings dialogue_embed embed dialogue_mask.
Proof.
  unfold predict_with.
  destruct (_process_batch_data _ _) as [[dialogue_in text_output] lengths].
  intros Hp. apply bind_inr in Hp as ([[[emb mask] output] attention] & _ & Hp).
  exists emb, mask.
  destruct (similarity_confidence_from_embeddings _ _ _) as [sim scores].
  destruct (Config.ENTITY_RECOGNITION _), text_output, lengths;
    try (injection Hp as <-; reflexivity).
  destruct (_batch_predict_entities _ _ _ _). by injection Hp as <-.
Qed.

(** With a positive batch size the loop of [prepare_for_predict] ends
    within as many iterations as ids are left. *)
Lemma prepare_in_batches_terminates {L : Layers} fuel self ids index acc :
  1 <= Config.LABEL_BATCH_SIZE (config self) ->
  Z.max 0 (Z.of_nat (length ids) - index) < Z.of_nat fuel ->
  is_Some (prepare_in_batches fuel self ids index acc).
Proof.
  intros Hsize. revert index acc.
  induction fuel as [|fuel IH]; intros index acc Hfuel; simpl.
  - lia.
  - destruct (Z.ltb_spec index (Z.of_nat (length ids))); [|done].
    apply IH. lia.
Qed.

(** Every iteration adds a batch, so after an iteration the list of batches
    is not empty. *)
Lemma prepare_in_batches_grows {L : Layers} fuel self ids index acc embeds :
  prepare_in_batches fuel self ids index acc = Some embeds ->
  (length acc <= length embeds)%nat.
Proof.
  revert index acc. induction fuel as [|fuel IH]; intros index acc; simpl; [done|].
  destruct (index <? _).
  - intros Hp. apply IH in Hp. rewrite length_app in Hp. simpl in Hp. lia.
  - by intros [= <-].
Qed.

(** [prepare_for_predict] returns: at once when all labels are embedded
    together, and within [length ids + 1] iterations when there are labels
    and they are embedded in batches of a positive size. *)
Lemma prepare_for_predict_returns {L : Layers} self ids :
  all_label_ids self = inr ids ->
  Config.LABEL_BATCH_SIZE (config self) = -1 \/
  (1 <= Config.LABEL_BATCH_SIZE (config self) /\ ids <> []) ->
  exists self', prepare_for_predict (S (length ids)) self = Some (inr self').
Proof.
  intros Hids Hsize. unfold prepare_for_predict. rewrite Hids.
  destruct Hsize as [->|[Hsize Hne]]; [by eexists|].
  destruct (Z.eqb_spec (Config.LABEL_BATCH_SIZE (config self)) (-1)); [lia|].
  destruct (prepare_in_batches_terminates (S (length ids)) self ids 0 [] Hsize)
    as [embeds Hembeds]; [lia|].
  rewrite Hembeds.
  destruct embeds as [|batch embeds]; [|by eexists].
  exfalso. simpl in Hembeds.
  destruct (Z.ltb_spec 0 (Z.of_nat (length ids))) as [_|Hlen].
  - apply prepare_in_batches_grows in Hembeds. simpl in Hembeds. lia.
  - destruct ids; [done|simpl in Hlen; lia].
Qed.

(** A batch size of 0 makes the loop run forever. *)
Lemma prepare_in_batches_diverges {L : Layers} fuel self ids index acc :
  Config.LABEL_BATCH_SIZE (config self) = 0 ->
  index < Z.of_nat (length ids) ->
  prepare_in_batches fuel self ids index acc = None.
Proof.
  intros Hsize Hindex. revert acc. induction fuel as [|fuel IH]; intros acc; simpl; [done|].
  destruct (Z.ltb_spec index (Z.of_nat (length ids))); [|lia].
  rewrite Hsize, Z.add_0_r. apply IH.
Qed.

End PredictionFacts.

(** C10.  A model whose cached label embeddings are unset, as right after
    its construction, answers [batch_predict] with the [ValueError] that
    asks for [prepare_for_predict], whatever the batch is.  When
    [prepare_for_predict] returns, the cache is set and nothing else of the
    model has changed; [batch_predict] then goes on to the prediction, does
    not raise that error any more, and what it reports is scored against
    the cached embeddings. *)
Theorem predict_requires_prepare {L : TED.Layers} :
  (forall self batch_in,
     TED.all_labels_embed self = None ->
     TED.batch_predict self batch_in = inl TED.not_prepared_error) /\
  (forall config max_history label_data metadata training,
     TED.all_labels_embed (TED.init config max_history label_data metadata training)
     = None) /\
  (forall fuel self self',
     TED.prepare_for_predict fuel self = Some (inr self') ->
     exists embed,
       self' = TED.set_all_labels_embed self embed /\
       TED.all_labels_embed self' = Some embed /\
       forall batch_in,
         TED.batch_predict self' batch_in = TED.predict_with self' embed batch_in /\
         TED.batch_predict self' batch_in <> inl TED.not_prepared_error /\
         forall predictions,
           TED.batch_predict self' batch_in = inr predictions ->
           exists dialogue_embed dialogue_mask,
             (TED.similarities predictions, TED.action_scores predictions)
             = TED.similarity_confidence_from_embeddings dialogue_embed embed
                 dialogue_mask).
Proof.
  split_and!.
  - intros self batch_in Hnone. unfold TED.batch_predict. by rewrite Hnone.
  - done.
  - intros fuel self self' Hprepare.
    assert (exists embed, self' = TED.set_all_labels_embed self embed) as [embed ->].
    { unfold TED.prepare_for_predict in Hprepare.
      destruct (TED.all_label_ids self) as [e|ids]; [discriminate|].
      destruct (_ =? _).
      - injection Hprepare as <-. eauto.
      - destruct (TED.prepare_in_batches _ _ _ _ _) as [embeds|]; [|discriminate].
        injection Hprepare as Hprepare.
        apply bind_inr in Hprepare as (embed & _ & Hprepare).
        injection Hprepare as <-. eauto. }
    exists embed. split; [done|]. split; [done|].
    intros batch_in. unfold TED.batch_predict. simpl TED.all_labels_embed. cbv iota.
    split_and!; [done| |].
    + intros Herr. apply PredictionFacts.predict_with_error in Herr as [msg Hmsg].
      discriminate Hmsg.
    + apply PredictionFacts.predict_with_similarities.
Qed.

Lemma predict_requires_prepare_witness :
  let embed := map (fun id => [PyNum.float_of_int id]) (map Z.of_nat (seq 0 8)) in
  let prepared := TED.set_all_labels_embed (Examples.model 5 3 3) embed in
  TED.batch_predict (L := Examples.layers) Examples.max_history_model Examples.batch
  = inl TED.not_prepared_error /\
  TED.prepare_for_predict (L := Examples.layers) 9 (Examples.model 5 3 3)
  = Some (inr prepared) /\
  exists predictions dialogue_embed dialogue_mask,
    TED.batch_predict (L := Examples.layers) prepared Examples.batch = inr predictions /\
    (TED.similarities predictions, TED.action_scores predictions)
    = TED.similarity_confidence_from_embeddings (Layers := Examples.layers)
        dialogue_embed embed dialogue_mask.
Proof.
  intros embed prepared.
  destruct (predict_requires_prepare (L := Examples.layers)) as (Hnone & _ & Hprepared).
  split; [by apply Hnone|].
  assert (TED.prepare_for_predict (L := Examples.layers) 9 (Examples.model 5 3 3)
          = Some (inr prepared)) as Hprepare by (vm_compute; reflexivity).
  split; [exact Hprepare|].
  destruct (Hprepared 9%nat (Examples.model 5 3 3) prepared Hprepare)
    as (embed' & _ & Hcache & Hbatch).
  injection Hcache as <-.
  destruct (Hbatch Examples.batch) as (_ & _ & Hscored).
  destruct (TED.batch_predict (L := Examples.layers) prepared Examples.batch)
    as [e|predictions] eqn:Hpredict.
  { vm_compute in Hpredict. discriminate Hpredict. }
  destruct (Hscored predictions eq_refl) as (dialogue_embed & dialogue_mask & Hsim).
  exists predictions, dialogue_embed, dialogue_mask. split; [reflexivity|exact Hsim].
Defined.

(** ** Attribute encoder *)

Module EncoderFacts.
Import TED.

Lemma count_true_take_le row n : (Tensors.count_true (take n row) <= Tensors.count_true row)%nat.
Proof.
  unfold Tensors.count_true. rewrite <- (take_drop n row) at 2.
  rewrite filter_app, length_app. lia.
Qed.

Lemma length_filter_zip_true {A} (l : list A) (m : list bool) :
  length l = length m ->
  length (filter (fun p : A * bool => p.2 = true) (zip l m)) = Tensors.count_true m.
Proof.
  unfold Tensors.count_true. revert m. induction l as [|x l IH]; intros [|b m] Hlen;
    simpl in *; try done.
  destruct b.
  - rewrite (filter_cons_True _ (x, true)), (filter_cons_True _ true) by done.
    simpl. f_equal. apply IH. lia.
  - rewrite (filter_cons_False _ (x, false)), (filter_cons_False _ false) by done.
    apply IH. lia.
Qed.

(** The turns of one dialogue that carry a real instance. *)
Lemma real_turns_elem_of (row : list bool) n d :
  d ∈ map fst (filter (fun p : nat * bool => p.2 = true) (zip (seq 0 n) (take n row))) ->
  row !! d = Some true.
Proof.
  intros Hd. apply list_elem_of_fmap in Hd as ([d' b] & -> & Hd).
  apply list_elem_of_filter in Hd as [Hb Hd]. simpl in Hb. subst b.
  apply list_elem_of_lookup in Hd as [i Hi].
  apply lookup_zip_with_Some in Hi as (d'' & b & [= <- <-] & Hseq & Htake).
  apply lookup_seq in Hseq as [-> Hlt]. simpl.
  by rewrite lookup_take_lt in Htake.
Qed.

Lemma real_turns_length (row : list bool) n :
  (n <= length row)%nat ->
  length (map fst (filter (fun p : nat * bool => p.2 = true)
                     (zip (seq 0 n) (take n row))))
  = Tensors.count_true (take n row).
Proof.
  intros Hn. rewrite length_fmap. apply length_filter_zip_true.
  rewrite length_seq, length_take. lia.
Qed.

Lemma dialogue_turns_cons n lengths (row : list bool) rows :
  (n <= length row)%nat ->
  zip (flat_map (seq 0) (n :: lengths)) (List.concat (zip_with take (n :: lengths) (row :: rows)))
  = zip (seq 0 n) (take n row)
    ++ zip (flat_map (seq 0) lengths) (List.concat (zip_with take lengths rows)).
Proof.
  intros Hn. simpl. apply zip_with_app. rewrite length_seq, length_take. lia.
Qed.

Lemma real_turns_le rows lengths b0 :
  Forall2 (fun (row : list bool) n => (n <= length row)%nat) rows lengths ->
  (length (filter (fun p : nat * bool => p.2 = true)
             (zip (flat_map (seq 0) lengths) (List.concat (zip_with take lengths rows))))
   <= length (List.concat (zip_with (fun b n => replicate n b) (seq b0 (length rows))
                             (map Tensors.count_true rows))))%nat.
Proof.
  intros Hall. revert b0. induction Hall as [|row n rows lengths Hn _ IH]; intros b0.
  - simpl. lia.
  - rewrite dialogue_turns_cons by done. rewrite filter_app, length_app.
    cbn [length seq map zip_with List.concat]. rewrite length_app, length_replicate.
    rewrite length_filter_zip_true by (rewrite length_seq, length_take; lia).
    pose proof (count_true_take_le row n). specialize (IH (S b0)). lia.
Qed.

(** Every index the conversion scatters to is a real position of the
    mask. *)
Lemma real_indices_in_mask rows lengths b0 b d :
  Forall2 (fun (row : list bool) n => (n <= length row)%nat) rows lengths ->
  length (List.concat (zip_with (fun b n => replicate n b) (seq b0 (length rows))
                         (map Tensors.count_true rows)))
  = length (map fst (filter (fun p : nat * bool => p.2 = true)
                       (zip (flat_map (seq 0) lengths)
                            (List.concat (zip_with take lengths rows))))) ->
  (b, d) ∈ zip (List.concat (zip_with (fun b n => replicate n b) (seq b0 (length rows))
                               (map Tensors.count_true rows)))
               (map fst (filter (fun p : nat * bool => p.2 = true)
                           (zip (flat_map (seq 0) lengths)
                                (List.concat (zip_with take lengths rows))))) ->
  exists row, rows !! (b - b0)%nat = Some row /\ (b0 <= b)%nat /\ row !! d = Some true.
Proof.
  intros Hall. revert b0. induction Hall as [|row n rows lengths Hn Hall IH]; intros b0.
  - simpl. intros _ Hin. inversion Hin.
  - rewrite dialogue_turns_cons by done. rewrite filter_app, fmap_app.
    cbn [length seq map zip_with List.concat].
    rewrite !length_app, length_replicate, real_turns_length by done.
    rewrite !length_fmap.
    pose proof (count_true_take_le row n) as Hle.
    pose proof (real_turns_le rows lengths (S b0) Hall) as Hrest.
    intros Hlen.
    assert (Tensors.count_true row = Tensors.count_true (take n row)) as Hcount by lia.
    rewrite zip_with_app
      by (by rewrite length_replicate, real_turns_length, Hcount).
    intros Hin. apply elem_of_app in Hin as [Hin|Hin].
    + exists row. pose proof (elem_of_zip_l _ _ _ _ Hin) as Hb.
      apply elem_of_replicate_inv in Hb as ->.
      replace (b0 - b0)%nat with 0%nat by lia.
      split_and!; [done|lia|].
      eapply real_turns_elem_of. by eapply elem_of_zip_r.
    + destruct (IH (S b0)) as (row' & Hrow' & Hb & Hd).
      { rewrite length_fmap. lia. }
      { done. }
      exists row'. split_and!; [|lia|done].
      replace (b - b0)%nat with (S (b - S b0)) by lia. done.
Qed.

(** For a label attribute the dialogue length is a fake axis of 1. *)
Lemma label_dialogue_indices batch_dim :
  replicate batch_dim 0%nat = flat_map (seq 0) (replicate batch_dim 1%nat).
Proof. induction batch_dim as [|n IH]; simpl; [done|]. by rewrite IH. Qed.

Lemma scattered_at_absent indices updates units b d :
  (b, d) ∉ indices ->
  Tf.scattered_at indices updates units b d = Tensors.zero_vec units.
Proof.
  intros Hnot. unfold Tf.scattered_at.
  assert (filter (fun p : nat * nat * Vec => p.1 = (b, d)) (zip indices updates) = [])
    as ->; [|done].
  apply elem_of_nil_inv. intros [index update] Hin.
  apply list_elem_of_filter in Hin as [Heq Hin].
  simpl in Heq. subst index. apply Hnot. by eapply elem_of_zip_l.
Qed.

Lemma vec_add_length x y units :
  length x = units -> length y = units -> length (Tensors.vec_add x y) = units.
Proof. intros Hx Hy. unfold Tensors.vec_add. rewrite length_zip_with. lia. Qed.

Lemma scattered_at_length indices updates units b d :
  Forall (fun v : Vec => length v = units) updates ->
  length (Tf.scattered_at indices updates units b d) = units.
Proof.
  intros Hall. unfold Tf.scattered_at.
  assert (Forall (fun v : Vec => length v = units)
            (map snd (filter (fun p : nat * nat * Vec => p.1 = (b, d))
                        (zip indices updates)))) as Hsel.
  { apply Forall_forall. intros v Hv.
    apply list_elem_of_fmap in Hv as ([index update] & -> & Hin).
    apply list_elem_of_filter in Hin as [_ Hin]. apply elem_of_zip_r in Hin.
    rewrite Forall_forall in Hall. by apply Hall. }
  assert (length (Tensors.zero_vec units) = units) as Hzero
    by apply length_replicate.
  revert Hzero. generalize (Tensors.zero_vec units).
  induction Hsel as [|v l Hv _ IH]; intros acc Hacc; simpl; [done|].
  apply IH. by apply vec_add_length.
Qed.

(** The tensor [tf.scatter_nd] returns. *)
Lemma scatter_nd_spec indices updates batch_dim dialogue_dim units t :
  Tf.scatter_nd indices updates (batch_dim, dialogue_dim, units) = inr t ->
  shape3 t = (batch_dim, dialogue_dim, units) /\
  (Forall (fun v : Vec => length v = units) updates -> Tensors.well_shaped3 t) /\
  forall b d, (b < batch_dim)%nat -> (d < dialogue_dim)%nat ->
    Tensors.at3 t b d = Some (Tf.scattered_at indices updates units b d).
Proof.
  unfold Tf.scatter_nd. destruct (negb _); [discriminate|].
  destruct (negb _); [discriminate|]. intros [= <-]. simpl.
  split_and!.
  - done.
  - intros Hupdates. unfold Tensors.well_shaped3. simpl. split.
    + by rewrite length_fmap, length_seq.
    + apply Forall_forall. intros row Hrow.
      apply list_elem_of_fmap in Hrow as (b & -> & _).
      split; [by rewrite length_fmap, length_seq|].
      apply Forall_forall. intros v Hv.
      apply list_elem_of_fmap in Hv as (d & -> & _).
      by apply scattered_at_length.
  - intros b d Hb Hd. unfold Tensors.at3. simpl.
    rewrite list_lookup_fmap, lookup_seq_lt by done. simpl.
    rewrite list_lookup_fmap, lookup_seq_lt by done. done.
Qed.

Lemma squeeze_axis1_rows features rows :
  Tf.squeeze_axis1 features = inr rows ->
  Tensors.well_shaped3 features ->
  Forall (fun v : Vec => length v = (shape3 features).2) rows.
Proof.
  unfold Tf.squeeze_axis1, Tensors.well_shaped3.
  destruct (shape3 features) as [[n one] units]. simpl.
  destruct (Nat.eqb_spec one 1) as [->|]; [|discriminate].
  intros [= <-] [_ Hrows]. apply Forall_forall. intros v Hv.
  apply list_elem_of_fmap in Hv as (row & -> & Hrow).
  rewrite Forall_forall in Hrows. destruct (Hrows row Hrow) as [Hone Hunits].
  destruct row as [|v [|]]; try discriminate. simpl.
  by apply Forall_cons in Hunits as [Hv _].
Qed.

Lemma mask_rows_cover_lengths (mask : MaskTensor) lengths :
  Tensors.well_shaped_mask mask ->
  mask_shape mask = (length lengths, max_list lengths) ->
  Forall2 (fun (row : list bool) n => (n <= length row)%nat) (mask_data mask) lengths.
Proof.
  intros [Hrows Hcols] Hshape. rewrite Hshape in Hrows, Hcols. simpl in *.
  apply Forall2_same_length_lookup_2; [done|].
  intros i row n Hrow Hn. rewrite Forall_forall in Hcols.
  rewrite (Hcols row) by (by eapply list_elem_of_lookup_2).
  apply max_list_elem_of_le. by eapply list_elem_of_lookup_2.
Qed.

(** The conversion back to the original shape: the result has the shape
    (batch x dialogue length x units), and the positions the mask does not
    set hold zeros. *)
Lemma convert_to_original_shape_spec features tf_batch_data attribute data t :
  batch_attribute tf_batch_data attribute = inr data ->
  Tensors.well_shaped_mask (attribute_mask data) ->
  Tensors.well_shaped3 features ->
  dialogue_indices tf_batch_data = flat_map (seq 0) (dialogue_length tf_batch_data) ->
  _convert_to_original_shape features tf_batch_data attribute = inr t ->
  let batch_dim := (mask_shape (attribute_mask data)).1 in
  let dialogue_dim := (mask_shape (attribute_mask data)).2 in
  let units := (shape3 features).2 in
  shape3 t = (batch_dim, dialogue_dim, units) /\
  Tensors.well_shaped3 t /\
  forall b d, (b < batch_dim)%nat -> (d < dialogue_dim)%nat ->
    Tensors.mask_at (attribute_mask data) b d = false ->
    Tensors.at3 t b d = Some (Tensors.zero_vec units).
Proof.
  intros Hdata Hmask Hfeatures Hindices Hconvert. cbv zeta.
  unfold _convert_to_original_shape in Hconvert. rewrite Hdata in Hconvert.
  cbn [mbind Result_bind] in Hconvert.
  set (mask := attribute_mask data) in *.
  assert (exists lengths,
            (if str_in attribute (SENTENCE_FEATURES_TO_ENCODE ++ STATE_LEVEL_FEATURES)
             then (dialogue_length tf_batch_data, dialogue_indices tf_batch_data)
             else (replicate (mask_shape mask).1 1%nat, replicate (mask_shape mask).1 0%nat))
            = (lengths, flat_map (seq 0) lengths)) as [lengths Hpair].
  { destruct (str_in _ _); eexists.
    - by rewrite Hindices.
    - by rewrite label_dialogue_indices. }
  rewrite Hpair in Hconvert. clear Hpair.
  apply bind_inr in Hconvert as (indices_mask & Hwithin & Hconvert).
  apply bind_inr in Hconvert as (turns & Hturns & Hconvert).
  apply bind_inr in Hconvert as (indices & Hstack & Hconvert).
  apply bind_inr in Hconvert as (rows & Hsqueeze & Hconvert).
  unfold mask_within_lengths in Hwithin. case_bool_decide as Hshape; [|discriminate].
  injection Hwithin as <-.
  unfold Tf.boolean_mask in Hturns. destruct (_ =? _)%nat; [|discriminate].
  injection Hturns as <-.
  unfold Tf.stack in Hstack.
  destruct (Nat.eqb_spec
              (length (List.concat (zip_with (fun b n => replicate n b)
                                      (seq 0 (mask_shape mask).1)
                                      (map Tensors.count_true (mask_data mask)))))
              (length (map fst (filter (fun p : nat * bool => p.2 = true)
                                  (zip (flat_map (seq 0) lengths)
                                       (List.concat (zip_with take lengths (mask_data mask))))))))
    as [Hlen|]; [|discriminate].
  injection Hstack as <-.
  pose proof (mask_rows_cover_lengths mask lengths Hmask Hshape) as Hcover.
  assert ((mask_shape mask).1 = length (mask_data mask)) as Hbatch
    by (by destruct Hmask as [-> _]).
  rewrite Hbatch in Hlen, Hconvert.
  destruct (scatter_nd_spec _ _ _ _ _ _ Hconvert) as (Hshape3 & Hwell & Hat).
  split_and!.
  - by rewrite Hbatch.
  - apply Hwell. by apply squeeze_axis1_rows.
  - intros b d Hb Hd Hfalse. rewrite Hbatch in Hb. rewrite (Hat b d Hb Hd).
    f_equal. apply scattered_at_absent. intros Hin.
    destruct (real_indices_in_mask _ _ _ _ _ Hcover Hlen Hin) as (row & Hrow & _ & Htrue).
    unfold Tensors.mask_at in Hfalse. rewrite Nat.sub_0_r in Hrow.
    rewrite Hrow in Hfalse. simpl in Hfalse. rewrite Htrue in Hfalse. discriminate.
Qed.

Lemma dialogue_turns_length rows lengths :
  Forall2 (fun (row : list bool) n => (n <= length row)%nat) rows lengths ->
  length (flat_map (seq 0) lengths) = length (List.concat (zip_with take lengths rows)).
Proof.
  induction 1 as [|row n rows lengths Hn _ IH]; simpl; [done|].
  rewrite !length_app, length_seq, length_take, IH. lia.
Qed.

Lemma batch_indices_length rows b0 :
  length (List.concat (zip_with (fun b n => replicate n b) (seq b0 (length rows))
                         (map Tensors.count_true rows)))
  = sum_list (map Tensors.count_true rows).
Proof.
  revert b0. induction rows as [|row rows IH]; intros b0; simpl; [done|].
  by rewrite length_app, length_replicate, IH.
Qed.

Lemma real_turns_total rows lengths :
  Forall2 (fun (row : list bool) n => (n <= length row)%nat) rows lengths ->
  Forall2 (fun (row : list bool) n => Tensors.count_true row = Tensors.count_true (take n row))
          rows lengths ->
  length (filter (fun p : nat * bool => p.2 = true)
            (zip (flat_map (seq 0) lengths) (List.concat (zip_with take lengths rows))))
  = sum_list (map Tensors.count_true rows).
Proof.
  intros Hcover Hpad. induction Hcover as [|row n rows lengths Hn _ IH].
  - done.
  - apply Forall2_cons in Hpad as [Hrow Hpad].
    rewrite dialogue_turns_cons by done. rewrite filter_app, length_app.
    rewrite length_filter_zip_true by (rewrite length_seq, length_take; lia).
    simpl. rewrite IH by done. lia.
Qed.

(** The conversion returns on a batch whose mask is unset on the padding of
    every dialogue and whose real features have one row per set mask
    entry. *)
Lemma convert_to_original_shape_ok features tf_batch_data attribute data :
  batch_attribute tf_batch_data attribute = inr data ->
  let mask := attribute_mask data in
  let lengths :=
    if str_in attribute (SENTENCE_FEATURES_TO_ENCODE ++ STATE_LEVEL_FEATURES)
    then dialogue_length tf_batch_data else replicate (mask_shape mask).1 1%nat in
  Tensors.well_shaped_mask mask ->
  mask_shape mask = (length lengths, max_list lengths) ->
  dialogue_indices tf_batch_data = flat_map (seq 0) (dialogue_length tf_batch_data) ->
  Forall2 (fun (row : list bool) n => Tensors.count_true row = Tensors.count_true (take n row))
          (mask_data mask) lengths ->
  Tensors.well_shaped3 features ->
  (shape3 features).1 = (sum_list (map Tensors.count_true (mask_data mask)), 1%nat) ->
  is_ok (_convert_to_original_shape features tf_batch_data attribute).
Proof.
  intros Hdata mask lengths Hmask Hshape Hindices Hpad Hfeatures Hrows.
  unfold _convert_to_original_shape. rewrite Hdata. cbn [mbind Result_bind].
  fold mask.
  assert ((if str_in attribute (SENTENCE_FEATURES_TO_ENCODE ++ STATE_LEVEL_FEATURES)
           then (dialogue_length tf_batch_data, dialogue_indices tf_batch_data)
           else (replicate (mask_shape mask).1 1%nat, replicate (mask_shape mask).1 0%nat))
          = (lengths, flat_map (seq 0) lengths)) as ->.
  { subst lengths. destruct (str_in _ _).
    - by rewrite Hindices.
    - by rewrite label_dialogue_indices. }
  pose proof (mask_rows_cover_lengths mask lengths Hmask Hshape) as Hcover.
  assert ((mask_shape mask).1 = length (mask_data mask)) as Hbatch
    by (by destruct Hmask as [-> _]).
  unfold mask_within_lengths. rewrite bool_decide_true by done.
  cbn [mbind Result_bind ret].
  unfold Tf.boolean_mask.
  rewrite (dialogue_turns_length _ _ Hcover), Nat.eqb_refl. cbn [mbind Result_bind ret].
  unfold Tf.stack. rewrite Hbatch.
  assert (length (List.concat (zip_with (fun b n => replicate n b)
                                 (seq 0 (length (mask_data mask)))
                                 (map Tensors.count_true (mask_data mask))))
          = length (map fst (filter (fun p : nat * bool => p.2 = true)
                               (zip (flat_map (seq 0) lengths)
                                    (List.concat (zip_with take lengths (mask_data mask)))))))
    as Hlen.
  { by rewrite batch_indices_length, length_fmap, real_turns_total. }
  rewrite Hlen, Nat.eqb_refl. cbn [mbind Result_bind ret].
  unfold Tf.squeeze_axis1. destruct (shape3 features) as [[n one] units] eqn:Hshape3.
  simpl in Hrows. injection Hrows as -> ->. cbn [fst snd Nat.eqb mbind Result_bind ret].
  unfold Tf.scatter_nd.
  assert (length (data3 features) = sum_list (map Tensors.count_true (mask_data mask))) as Hn.
  { unfold Tensors.well_shaped3 in Hfeatures. rewrite Hshape3 in Hfeatures.
    by destruct Hfeatures as [-> _]. }
  rewrite length_zip_with, <- Hlen, Nat.min_id, batch_indices_length,
    (List.length_map _ (data3 features)), Hn, Nat.eqb_refl.
  cbn [negb].
  assert (forallb (fun p : nat * nat =>
                     (p.1 <? length (mask_data mask))%nat && (p.2 <? (mask_shape mask).2)%nat)
            (zip (List.concat (zip_with (fun b n => replicate n b)
                                 (seq 0 (length (mask_data mask)))
                                 (map Tensors.count_true (mask_data mask))))
                 (map fst (filter (fun p : nat * bool => p.2 = true)
                             (zip (flat_map (seq 0) lengths)
                                  (List.concat (zip_with take lengths (mask_data mask)))))))
          = true) as ->; [|by eexists].
  apply forallb_forall. intros [b d] Hin. apply list_elem_of_In in Hin.
  destruct (real_indices_in_mask _ _ _ _ _ Hcover Hlen Hin) as (row & Hrow & _ & Htrue).
  rewrite Nat.sub_0_r in Hrow. simpl.
  apply andb_true_iff. split; apply Nat.ltb_lt.
  - by eapply lookup_lt_Some.
  - destruct Hmask as [_ Hcols]. rewrite Forall_forall in Hcols.
    rewrite <- (Hcols row) by (by eapply list_elem_of_lookup_2).
    by eapply lookup_lt_Some.
Qed.

(** The placeholder of the fake path: zeros of the shape
    (batch x dialogue length x units). *)
Lemma zeros3_spec batch_dim dialogue_dim units :
  Tensors.well_shaped3 (Tensors.zeros3 (batch_dim, dialogue_dim, units)) /\
  forall b d, (b < batch_dim)%nat -> (d < dialogue_dim)%nat ->
    Tensors.at3 (Tensors.zeros3 (batch_dim, dialogue_dim, units)) b d
    = Some (Tensors.zero_vec units).
Proof.
  split.
  - unfold Tensors.well_shaped3. simpl. split; [by rewrite length_replicate|].
    apply Forall_forall. intros row Hrow. apply elem_of_replicate_inv in Hrow as ->.
    split; [by rewrite length_replicate|].
    apply Forall_forall. intros v Hv. apply elem_of_replicate_inv in Hv as ->.
    apply length_replicate.
  - intros b d Hb Hd. unfold Tensors.at3. simpl.
    rewrite lookup_replicate_2 by done. simpl. by rewrite lookup_replicate_2.
Qed.

(** The encoder returns on a well-formed batch, through either path. *)
Lemma encode_features_per_attribute_ok {L : Layers} self batch_in attribute data :
  let tf_batch_data := _compute_dialogue_indices batch_in in
  let mask := attribute_mask data in
  let lengths :=
    if str_in attribute (SENTENCE_FEATURES_TO_ENCODE ++ STATE_LEVEL_FEATURES)
    then dialogue_length tf_batch_data else replicate (mask_shape mask).1 1%nat in
  let real_features :=
    (real_attribute_layers tf_batch_data attribute (_training self)
       (max_history_featurizer_is_used self)).1.1 in
  batch_attribute tf_batch_data attribute = inr data ->
  Tensors.well_shaped_mask mask ->
  mask_shape mask = (length lengths, max_list lengths) ->
  Forall2 (fun (row : list bool) n => Tensors.count_true row = Tensors.count_true (take n row))
          (mask_data mask) lengths ->
  ((0 < sentence_rows data)%nat ->
   Tensors.well_shaped3 real_features /\
   (shape3 real_features).1 = (sum_list (map Tensors.count_true (mask_data mask)), 1%nat)) ->
  is_ok (_encode_features_per_attribute self tf_batch_data attribute).
Proof.
  intros tf_batch_data mask lengths real_features Hdata Hmask Hshape Hpad Hreal.
  unfold _encode_features_per_attribute. rewrite Hdata. cbn [mbind Result_bind].
  destruct (Nat.ltb_spec 0 (sentence_rows data)) as [Hrows|Hrows].
  - destruct (Hreal Hrows) as [Hwell Hn].
    unfold _encode_real_features_per_attribute. fold tf_batch_data.
    subst real_features.
    destruct (real_attribute_layers tf_batch_data attribute _ _)
      as [[real text] text_lengths].
    simpl in Hwell, Hn.
    destruct (convert_to_original_shape_ok real tf_batch_data attribute data Hdata
                Hmask Hshape eq_refl Hpad Hwell Hn) as [converted ->].
    by eexists.
  - unfold _encode_fake_features_per_attribute. rewrite Hdata.
    cbn [mbind Result_bind]. destruct (decide (attribute = TEXT)); by eexists.
Qed.

End EncoderFacts.

(** C7.  Whatever the mask of an attribute sets, the encoding of the
    attribute has the shape (batch x dialogue length x units), the batch and
    dialogue axes being those of the mask and the units those of the
    attribute; without any real instance it is the all-zero tensor of that
    shape, which is the shape the real path produces; and after the real
    features are scattered back, every position the mask does not set holds
    zeros.  The layers of the real path are taken to return a tensor whose
    last axis has the units of the attribute. *)
Theorem attribute_encoder_shape {L : TED.Layers}
    (self : TED.t) (batch_in : TED.BatchData) (attribute : string)
    (data : TED.BatchAttribute) (features : Tensor3)
    (text_output : Tensor float) (text_sequence_lengths : Tensor Z) :
  let tf_batch_data := TED._compute_dialogue_indices batch_in in
  let mask := TED.attribute_mask data in
  let batch_dim := (mask_shape mask).1 in
  let dialogue_dim := (mask_shape mask).2 in
  let units := TED.attribute_units self attribute in
  let real_features :=
    (TED.real_attribute_layers tf_batch_data attribute (TED._training self)
       (TED.max_history_featurizer_is_used self)).1.1 in
  TED.batch_attribute tf_batch_data attribute = inr data ->
  Tensors.well_shaped_mask mask ->
  Tensors.well_shaped3 real_features -> (shape3 real_features).2 = units ->
  TED._encode_features_per_attribute self tf_batch_data attribute
    = inr (features, text_output, text_sequence_lengths) ->
  shape3 features = (batch_dim, dialogue_dim, units) /\
  Tensors.well_shaped3 features /\
  (TED.sentence_rows data = 0%nat ->
   features = Tensors.zeros3 (batch_dim, dialogue_dim, units)) /\
  (forall b d, (b < batch_dim)%nat -> (d < dialogue_dim)%nat ->
     Tensors.mask_at mask b d = false ->
     Tensors.at3 features b d = Some (Tensors.zero_vec units)).
Proof.
  intros tf_batch_data mask batch_dim dialogue_dim units real_features
    Hdata Hmask Hreal Hunits Hencode.
  unfold TED._encode_features_per_attribute in Hencode. rewrite Hdata in Hencode.
  cbn [mbind Result_bind] in Hencode.
  destruct (Nat.ltb_spec 0 (TED.sentence_rows data)) as [Hrows|Hrows].
  - unfold TED._encode_real_features_per_attribute in Hencode.
    fold tf_batch_data in Hencode.
    destruct (TED.real_attribute_layers tf_batch_data attribute _ _)
      as [[real text] lengths] eqn:Hlayers.
    apply bind_inr in Hencode as (converted & Hconvert & Hencode).
    injection Hencode as <- <- <-.
    subst real_features. simpl in Hreal, Hunits.
    destruct (EncoderFacts.convert_to_original_shape_spec real tf_batch_data attribute
                data converted Hdata Hmask Hreal eq_refl Hconvert)
      as (Hshape & Hwell & Hzero).
    rewrite Hunits in Hshape, Hzero. split_and!; try done. lia.
  - unfold TED._encode_fake_features_per_attribute in Hencode.
    rewrite Hdata in Hencode. cbn [mbind Result_bind] in Hencode.
    assert (features = Tensors.zeros3 (batch_dim, dialogue_dim, units)) as ->.
    { destruct (decide (attribute = TEXT)); by injection Hencode as <- _ _. }
    destruct (EncoderFacts.zeros3_spec batch_dim dialogue_dim units) as [Hwell Hzero].
    split_and!; try done. intros b d Hb Hd _. by apply Hzero.
Qed.

Lemma attribute_encoder_shape_witness :
  let features :=
    mkTensor3 (2, 3, 4)%nat
      [ [[1; 1; 1; 1]; [0; 0; 0; 0]; [2; 2; 2; 2]];
        [[0; 0; 0; 0]; [3; 3; 3; 3]; [0; 0; 0; 0]] ]%float in
  let mask := mkMaskTensor (2, 3)%nat [[true; false; true]; [false; true; false]] in
  TED._encode_features_per_attribute (L := Examples.layers) (Examples.model 5 3 4)
    Examples.batch_with_slots SLOTS
  = inr (features, Tensors.zeros 0%float [0%nat], Tensors.zeros 0 [0%nat]) /\
  shape3 features = (2, 3, 4)%nat /\
  Tensors.well_shaped3 features /\
  (3%nat = 0%nat -> features = Tensors.zeros3 (2, 3, 4)%nat) /\
  (forall b d, (b < 2)%nat -> (d < 3)%nat ->
     Tensors.mask_at mask b d = false ->
     Tensors.at3 features b d = Some (Tensors.zero_vec 4)).
Proof.
  intros features mask.
  assert (TED._encode_features_per_attribute (L := Examples.layers) (Examples.model 5 3 4)
            Examples.batch_with_slots SLOTS
          = inr (features, Tensors.zeros 0%float [0%nat], Tensors.zeros 0 [0%nat]))
    as Hencode by (vm_compute; reflexivity).
  split; [exact Hencode|].
  apply (attribute_encoder_shape (L := Examples.layers) (Examples.model 5 3 4)
           (TED.mkBatchData (TED.attributes Examples.batch_with_slots) [3; 2]%nat []
              [[1; 0; 2]; [0; 4; 0]])
           SLOTS (TED.mkBatchAttribute mask 3) features
           (Tensors.zeros 0%float [0%nat]) (Tensors.zeros 0 [0%nat])).
  - reflexivity.
  - split; [reflexivity|]. repeat constructor.
  - split; [reflexivity|]. repeat constructor.
  - reflexivity.
  - exact Hencode.
Defined.

(** ** Negative sampling with the default budget *)

Module DefaultBudgetFacts.
Import TED.

(** With the budget -1 the metadata loop returns as soon as every
    label-bearing attribute has a mask. *)
Lemma sampling_metadata_loop_all items n md :
  (forall key data, (key, data) ∈ items -> key <> LABEL_KEY -> is_Some (data_mask data)) ->
  is_ok (TEDPolicy.sampling_metadata_loop items n (-1) md).
Proof.
  revert md. induction items as [|[k d] items IH]; simpl; intros md Hmask.
  - by eexists.
  - destruct (decide (k = LABEL_KEY)).
    + apply IH. intros key data Hin. apply Hmask. by right.
    + destruct (Hmask k d) as [mask Hd]; [left|done|].
      unfold get_mask. rewrite Hd. cbn [mbind Result_bind ret].
      apply IH. intros key data Hin. apply Hmask. by right.
Qed.

Lemma sum_mask_pos mask : true ∈ mask -> 1 <= Np.sum_mask mask.
Proof.
  intros Hin. unfold Np.sum_mask.
  assert (true ∈ filter (fun b : bool => b = true) mask) as Hf
    by (by apply list_elem_of_filter).
  destruct (filter _ mask); [inversion Hf|simpl; lia].
Qed.

Lemma boolean_mask_NoDup {A} (tensor : list A) mask kept :
  NoDup tensor -> Tf.boolean_mask tensor mask = inr kept -> NoDup kept.
Proof.
  intros Hnd Hk. eapply sublist_NoDup; [exact Hnd|].
  by eapply TfFacts.boolean_mask_sublist.
Qed.

Lemma Forall2_impl_elem_of {A B} (P Q : A -> B -> Prop) l k :
  Forall2 P l k -> (forall x y, x ∈ l -> P x y -> Q x y) -> Forall2 Q l k.
Proof.
  induction 1 as [|x y l k Hxy _ IH]; intros Himpl; constructor.
  - apply Himpl; [left|done].
  - apply IH. intros x' y' Hin. apply Himpl. by right.
Qed.

(** A sample that takes as many ids as an attribute has takes them all. *)
Lemma sample_of_all self ids key sample data mask metadata key_ids :
  NoDup ids ->
  sample_of self ids key sample ->
  dict_get (tf_label_data self) key = inr data ->
  data_mask data = Some mask ->
  _label_sampling_metadata self !! key = Some metadata ->
  LABEL_BATCH_SIZE metadata = Np.sum_mask mask ->
  Tf.boolean_mask ids mask = inr key_ids ->
  sample ≡ₚ key_ids.
Proof.
  intros Hnd (data' & mask' & metadata' & Hdata' & Hmask' & Hmeta' & Hs & Hin & Hlen)
    Hdata Hmask Hmeta Hall Hkey.
  rewrite Hdata in Hdata'. injection Hdata' as <-.
  rewrite Hmask in Hmask'. injection Hmask' as <-.
  rewrite Hmeta in Hmeta'. injection Hmeta' as <-.
  apply submseteq_length_Permutation.
  - apply NoDup_submseteq; [done|].
    intros id Hid. apply (TfFacts.boolean_mask_elem_of ids mask key_ids id Hkey). auto.
  - pose proof (TfFacts.boolean_mask_length _ _ _ Hkey). lia.
Qed.

End DefaultBudgetFacts.

(** X1.  With the default budget of -1 the metadata that
    [get_label_sampling_metadata] derives from the label data makes
    [_sample_negative_label_ids] return, and what it returns holds, attribute
    after attribute, every label id of the attribute exactly once: the sample
    of an attribute is a rearrangement of the ids [calculate_key_ids] gives
    for it.  The label data has distinct keys, distinct label ids that are
    float32 numbers, at least one label-bearing attribute, and for each one
    a mask over the label ids that sets at least one of them. *)
Theorem default_budget_samples_every_label
    (label_data : RasaModelData) (ids : list Z) (config : Config.t)
    (max_history training : bool) (g : RNG) :
  NoDup label_data.*1 ->
  (label ← dict_get label_data LABEL_KEY; get_ids label) = inr ids ->
  NoDup ids -> Forall (fun id => Z.abs id < 2 ^ 24) ids ->
  (exists key, key ∈ label_data.*1 /\ key <> LABEL_KEY) ->
  (forall key data, (key, data) ∈ label_data -> key <> LABEL_KEY ->
     exists mask, data_mask data = Some mask /\ length mask = length ids /\ true ∈ mask) ->
  Config.LABEL_BATCH_SIZE config = -1 ->
  exists metadata samples g',
    TEDPolicy.get_label_sampling_metadata label_data (Config.LABEL_BATCH_SIZE config)
      = inr metadata /\
    let self := TED.init config max_history label_data metadata training in
    TED._sample_negative_label_ids self (Config.LABEL_BATCH_SIZE config) g
      = inr (List.concat samples, g') /\
    Forall2 (fun key sample =>
               exists key_ids,
                 TED.calculate_key_ids self key = inr key_ids /\ sample ≡ₚ key_ids)
            (filter (fun key => key <> LABEL_KEY) label_data.*1) samples.
Proof.
  intros Hkeys Hids Hnd Hsmall (key0 & Hkey0 & Hne0) Hmasks ->.
  destruct (DefaultBudgetFacts.sampling_metadata_loop_all label_data
              (Z.of_nat (length ids)) ∅) as [metadata Hloop].
  { intros key data Hin Hk. destruct (Hmasks key data Hin Hk) as (mask & -> & _). eauto. }
  assert (TEDPolicy.get_label_sampling_metadata label_data (-1) = inr metadata) as Hmd.
  { unfold TEDPolicy.get_label_sampling_metadata.
    apply bind_inr in Hids as (label & Hlabel & Hget).
    rewrite Hlabel. cbn [mbind Result_bind]. rewrite Hget. cbn [mbind Result_bind].
    exact Hloop. }
  exists metadata.
  set (self := TED.init config max_history label_data metadata training).
  assert (TED.all_label_ids self = inr ids) as Hall by exact Hids.
  assert (forall key, key ∈ label_data.*1 -> key <> LABEL_KEY ->
            exists data mask m key_ids,
              dict_get label_data key = inr data /\ data_mask data = Some mask /\
              length mask = length ids /\ true ∈ mask /\
              metadata !! key = Some m /\
              NUM_LABEL_CANDIDATES m = Np.sum_mask mask /\
              LABEL_BATCH_SIZE m = Np.sum_mask mask /\
              Tf.boolean_mask ids mask = inr key_ids /\
              TED.calculate_key_ids self key = inr key_ids) as Hkey.
  { intros key Hin Hk. apply list_elem_of_fmap in Hin as ([k data] & -> & Hin).
    simpl in Hk |- *.
    destruct (Hmasks k data Hin Hk) as (mask & Hmask & Hlen & Htrue).
    destruct (MetadataFacts.get_label_sampling_metadata_lookup label_data (-1) metadata
                k data Hkeys Hmd Hin Hk)
      as (ids' & mask' & m & _ & Hmask' & Hm & Hnum & Hsize).
    rewrite Hmask in Hmask'. injection Hmask' as <-.
    destruct (TfFacts.boolean_mask_ok ids mask) as [key_ids Hk_ids]; [done|].
    exists data, mask, m, key_ids.
    pose proof (dict_get_NoDup label_data k data Hkeys Hin) as Hdata.
    split_and!; try done.
    - by injection Hsize.
    - unfold TED.calculate_key_ids. rewrite Hall. cbn [mbind Result_bind].
      simpl TED.tf_label_data. rewrite Hdata. cbn [mbind Result_bind].
      unfold get_mask. rewrite Hmask. done. }
  destruct (SamplingFacts.sample_for_each_key_ok self label_data.*1 g ids Hall)
    as [[samples g'] Hsamples].
  { intros key Hin Hk.
    destruct (Hkey key Hin Hk) as (data & mask & m & key_ids & ? & ? & ? & Htrue & ? & Hnum
                                   & Hsize & _).
    exists data, mask, m. split_and!; try done.
    - rewrite Hsize. by apply DefaultBudgetFacts.sum_mask_pos.
    - lia. }
  exists samples, g'.
  pose proof (SamplingFacts.sample_for_each_key_spec self _ g samples g' ids Hall Hnd
                Hsmall Hsamples) as Hspec.
  cbv zeta. split; [done|]. split.
  - unfold TED._sample_negative_label_ids. rewrite Hall. cbn [mbind Result_bind].
    destruct (Z.ltb_spec (Z.of_nat (length ids)) (-1)); [lia|].
    simpl TED.tf_label_data. rewrite Hsamples. cbn [mbind Result_bind].
    destruct samples as [|sample samples]; [|done].
    exfalso. apply Forall2_nil_inv_r in Hspec.
    assert (key0 ∈ filter (fun key => key <> LABEL_KEY) label_data.*1) as Hin
      by (by apply list_elem_of_filter).
    rewrite Hspec in Hin. inversion Hin.
  - eapply DefaultBudgetFacts.Forall2_impl_elem_of; [exact Hspec|].
    intros key sample Hin Hsample.
    apply list_elem_of_filter in Hin as [Hk Hin].
    destruct (Hkey key Hin Hk) as (data & mask & m & key_ids & ? & ? & ? & _ & ? & _
                                   & Hsize & Hmasked & Hcalc).
    exists key_ids. split; [done|].
    by eapply (DefaultBudgetFacts.sample_of_all self ids key sample data mask m).
Qed.

Lemma default_budget_samples_every_label_witness :
  exists metadata samples g',
    TEDPolicy.get_label_sampling_metadata (Examples.label_data 5 3)
      (Config.LABEL_BATCH_SIZE Examples.config) = inr metadata /\
    let self := TED.init Examples.config false (Examples.label_data 5 3) metadata true in
    TED._sample_negative_label_ids self (Config.LABEL_BATCH_SIZE Examples.config)
      Examples.generator = inr (List.concat samples, g') /\
    Forall2 (fun key sample =>
               exists key_ids,
                 TED.calculate_key_ids self key = inr key_ids /\ sample ≡ₚ key_ids)
            (filter (fun key => key <> LABEL_KEY) (Examples.label_data 5 3).*1) samples.
Proof.
  apply (default_budget_samples_every_label (Examples.label_data 5 3)
           (TEDPolicy.label_ids 8) Examples.config false true Examples.generator).
  - by_compute.
  - reflexivity.
  - apply label_ids_distinct.
  - apply label_ids_distinct. vm_compute. discriminate.
  - exists LABEL_ACTION_NAME. split; by_compute.
  - intros key data Hin Hkey.
    apply elem_of_cons in Hin as [[= -> ->]|Hin];
      [|apply elem_of_cons in Hin as [[= -> ->]|Hin];
        [|apply elem_of_cons in Hin as [[= -> ->]|Hin]; [done|inversion Hin]]].
    + eexists. split; [reflexivity|]. split; [reflexivity|by_compute].
    + eexists. split; [reflexivity|]. split; [reflexivity|by_compute].
  - reflexivity.
Defined.

(** ** Gathering label embeddings by id *)

Module LookupFacts.
Import TED.

(** The positions looked up for the selected ids are those of the selected
    ids that occur among the label ids. *)
Lemma where_equal_known selection all_ids :
  flat_map (where_equal all_ids) selection
  = flat_map (where_equal all_ids) (filter (fun id => id ∈ all_ids) selection).
Proof.
  induction selection as [|id selection IH]; [done|]. simpl.
  destruct (decide (id ∈ all_ids)) as [Hin|Hout].
  - rewrite filter_cons_True by done. simpl. by rewrite IH.
  - rewrite filter_cons_False by done.
    by rewrite (EmbeddingFacts.where_equal_absent _ _ Hout).
Qed.

End LookupFacts.

(** X2.  [_get_labels_embed] does not raise on a selected id that is not
    among the label ids: the id is skipped, so the result has one row for
    every selected id that is among them, in the order of the selection, and
    fewer rows than ids are selected as soon as one is unknown.  The label
    ids are pairwise distinct and every one has its row of embeddings. *)
Theorem labels_embed_skips_unknown_ids
    (selection all_ids : list Z) (all_labels_embed : list Vec) :
  NoDup all_ids -> length all_labels_embed = length all_ids ->
  let known := filter (fun id => id ∈ all_ids) selection in
  exists rows,
    TED._get_labels_embed selection all_ids all_labels_embed = inr rows /\
    TED._get_labels_embed known all_ids all_labels_embed = inr rows /\
    Forall2 (fun id row =>
               exists u, all_ids !! u = Some id /\ all_labels_embed !! u = Some row)
            known rows /\
    ((exists id, id ∈ selection /\ id ∉ all_ids) ->
     (length rows < length selection)%nat).
Proof.
  intros Hnd Hlen known.
  assert (Forall (fun id => id ∈ all_ids) known) as Hknown.
  { apply Forall_forall. intros id Hid. by apply list_elem_of_filter in Hid as [? _]. }
  destruct (EmbeddingFacts.get_labels_embed_ok known all_ids all_labels_embed Hnd Hlen
              Hknown) as [rows Hrows].
  pose proof (EmbeddingFacts.get_labels_embed_lookup known all_ids all_labels_embed rows
                Hnd Hknown Hrows) as Hlookup.
  exists rows. split_and!; try done.
  - unfold TED._get_labels_embed in *. by rewrite LookupFacts.where_equal_known.
  - intros (id & Hin & Hout).
    rewrite <- (Forall2_length _ _ _ Hlookup). subst known.
    clear -Hin Hout. induction selection as [|x selection IH]; [inversion Hin|].
    destruct (decide (x ∈ all_ids)) as [Hx|Hx].
    + rewrite filter_cons_True by done. simpl.
      apply elem_of_cons in Hin as [->|Hin]; [done|].
      specialize (IH Hin). lia.
    + rewrite filter_cons_False by done. simpl.
      pose proof (length_filter (fun id => id ∈ all_ids) selection). lia.
Qed.

Lemma labels_embed_skips_unknown_ids_witness :
  exists rows,
    TED._get_labels_embed [2; 7; 0] [0; 1; 2] [[0.5]; [1.5]; [2.5]]%float = inr rows /\
    TED._get_labels_embed (filter (fun id => id ∈ [0; 1; 2]) [2; 7; 0]) [0; 1; 2]
      [[0.5]; [1.5]; [2.5]]%float = inr rows /\
    Forall2 (fun id row =>
               exists u, [0; 1; 2] !! u = Some id /\
                         ([[0.5]; [1.5]; [2.5]]%float : list Vec) !! u = Some row)
            (filter (fun id => id ∈ [0; 1; 2]) [2; 7; 0]) rows /\
    ((exists id, id ∈ [2; 7; 0] /\ id ∉ [0; 1; 2]) ->
     (length rows < length [2; 7; 0])%nat).
Proof.
  apply (labels_embed_skips_unknown_ids [2; 7; 0] [0; 1; 2] [[0.5]; [1.5]; [2.5]]%float).
  - by_compute.
  - reflexivity.
Defined.

(** ** Preparing the label embeddings in batches *)

Module BatchingFacts.
Import TED.

(** A slice that starts inside the list and has a positive size. *)
Lemma slice_inside {A} (x : list A) (index size : Z) :
  0 <= index -> 0 <= size ->
  slice x index (index + size) = take (Z.to_nat size) (drop (Z.to_nat index) x).
Proof.
  intros Hindex Hsize. unfold slice.
  destruct (Z.ltb_spec (index + size) 0); [lia|].
  destruct (Z.ltb_spec index 0); [lia|].
  destruct (Z.le_gt_cases (Z.of_nat (length x)) index) as [Hout|Hin].
  - rewrite !drop_ge by lia. by rewrite !take_nil.
  - rewrite (Z.min_l index) by lia.
    destruct (Z.le_gt_cases (index + size) (Z.of_nat (length x))).
    + rewrite Z.min_l by lia. f_equal. lia.
    + rewrite Z.min_r by lia.
      rewrite !take_ge; [done|rewrite length_drop; lia|rewrite length_drop; lia].
Qed.

(** The loop cuts what is left of the label ids into batches of the
    configured size, the last one possibly shorter, and embeds them one
    after the other. *)
Lemma prepare_in_batches_spec {L : Layers} fuel self ids index acc :
  let size := Config.LABEL_BATCH_SIZE (config self) in
  let embed := _compute_embedding_for_label_ids (tf_label_data self) (_training self) in
  1 <= size -> 0 <= index ->
  Z.max 0 (Z.of_nat (length ids) - index) < Z.of_nat fuel ->
  exists batches,
    prepare_in_batches fuel self ids index acc = Some (acc ++ map embed batches) /\
    List.concat batches = drop (Z.to_nat index) ids /\
    Forall (fun batch => 1 <= Z.of_nat (length batch) <= size) batches /\
    (forall i batch, batches !! i = Some batch -> (S i < length batches)%nat ->
       Z.of_nat (length batch) = size).
Proof.
  intros size embed Hsize. revert index acc.
  induction fuel as [|fuel IH]; intros index acc Hindex Hfuel; [lia|].
  simpl. destruct (Z.ltb_spec index (Z.of_nat (length ids))) as [Hin|Hout].
  - fold size. destruct (IH (index + size) (acc ++ [embed (slice ids index (index + size))]))
      as (batches & Hrun & Hconcat & Hlen & Hfull); [lia|lia|].
    exists (slice ids index (index + size) :: batches).
    rewrite slice_inside in * by lia.
    split_and!.
    + fold embed. rewrite Hrun. by rewrite <- app_assoc.
    + simpl. rewrite Hconcat.
      replace (Z.to_nat (index + size)) with (Z.to_nat index + Z.to_nat size)%nat by lia.
      rewrite <- drop_drop. apply take_drop.
    + constructor; [|done]. rewrite length_take, length_drop. lia.
    + intros [|i] batch Hbatch Hlast; simpl in *.
      * injection Hbatch as <-. rewrite length_take, length_drop.
        destruct batches as [|next batches]; [simpl in Hlast; lia|].
        apply Forall_cons in Hlen as [Hnext _].
        assert (length (List.concat (next :: batches)) <> 0)%nat as Hne
          by (simpl; rewrite length_app; lia).
        rewrite Hconcat, length_drop in Hne. lia.
      * apply (Hfull i); [done|lia].
  - exists []. rewrite app_nil_r. split_and!; try done.
    simpl. rewrite drop_ge; [done|lia].
Qed.

(** The index of the loop does not advance when the batch size is not
    positive. *)
Lemma prepare_in_batches_stuck {L : Layers} fuel self ids index acc :
  Config.LABEL_BATCH_SIZE (config self) <= 0 ->
  index < Z.of_nat (length ids) ->
  prepare_in_batches fuel self ids index acc = None.
Proof.
  intros Hsize. revert index acc.
  induction fuel as [|fuel IH]; intros index acc Hindex; simpl; [done|].
  destruct (Z.ltb_spec index (Z.of_nat (length ids))); [|lia].
  apply IH. lia.
Qed.

End BatchingFacts.

(** X3.  With a positive [label_batch_size] and at least one label,
    [prepare_for_predict] returns after at most one iteration per label, and
    the embeddings it caches are those of consecutive batches of the label
    ids put together: the batches, in order, make up the label ids, every id
    being embedded once; no batch is empty or larger than the batch size,
    and only the last one can be smaller. *)
Theorem prepare_for_predict_batches {L : TED.Layers} (self : TED.t) (ids : list Z) :
  let size := Config.LABEL_BATCH_SIZE (TED.config self) in
  let embed :=
    TED._compute_embedding_for_label_ids (TED.tf_label_data self) (TED._training self) in
  TED.all_label_ids self = inr ids -> ids <> [] -> 1 <= size ->
  exists batches,
    TED.prepare_for_predict (S (length ids)) self
      = Some (inr (TED.set_all_labels_embed self (List.concat (map embed batches)))) /\
    List.concat batches = ids /\
    Forall (fun batch => 1 <= Z.of_nat (length batch) <= size) batches /\
    (forall i batch, batches !! i = Some batch -> (S i < length batches)%nat ->
       Z.of_nat (length batch) = size).
Proof.
  intros size embed Hids Hne Hsize.
  destruct (BatchingFacts.prepare_in_batches_spec (S (length ids)) self ids 0 [])
    as (batches & Hrun & Hconcat & Hlen & Hfull); [done|lia|lia|].
  exists batches. split_and!; try done.
  unfold TED.prepare_for_predict. rewrite Hids.
  destruct (Z.eqb_spec (Config.LABEL_BATCH_SIZE (TED.config self)) (-1)); [fold size in e; lia|].
  rewrite Hrun. simpl app. fold embed.
  destruct batches as [|batch batches]; [by destruct ids|].
  reflexivity.
Qed.

Lemma prepare_for_predict_batches_witness :
  let self := Examples.model 5 3 3 in
  let embed :=
    TED._compute_embedding_for_label_ids (Layers := Examples.layers)
      (TED.tf_label_data self) (TED._training self) in
  exists batches,
    TED.prepare_for_predict (L := Examples.layers) 9 self
      = Some (inr (TED.set_all_labels_embed self (List.concat (map embed batches)))) /\
    List.concat batches = TEDPolicy.label_ids 8 /\
    Forall (fun batch => 1 <= Z.of_nat (length batch) <= 3) batches /\
    (forall i batch, batches !! i = Some batch -> (S i < length batches)%nat ->
       Z.of_nat (length batch) = 3).
Proof.
  apply (prepare_for_predict_batches (L := Examples.layers) (Examples.model 5 3 3)
           (TEDPolicy.label_ids 8)).
  - reflexivity.
  - discriminate.
  - simpl. lia.
Defined.

(** X4.  [prepare_for_predict] does not return on every configuration.
    With labels and a [label_batch_size] of 0 or below -1 the index of its
    loop never advances, so the loop does not end, however many iterations
    it is given. *)
Theorem prepare_for_predict_edge_cases {L : TED.Layers}
    (self : TED.t) (ids : list Z) (fuel : nat) :
  TED.all_label_ids self = inr ids -> ids <> [] ->
  Config.LABEL_BATCH_SIZE (TED.config self) <= 0 ->
  Config.LABEL_BATCH_SIZE (TED.config self) <> -1 ->
  TED.prepare_for_predict fuel self = None.
Proof.
  intros Hids Hne Hsize Hall. unfold TED.prepare_for_predict.
  rewrite Hids. destruct (Z.eqb_spec (Config.LABEL_BATCH_SIZE (TED.config self)) (-1));
    [done|].
  rewrite BatchingFacts.prepare_in_batches_stuck; [done|done|].
  destruct ids; [done|simpl; lia].
Qed.

Lemma prepare_for_predict_edge_cases_witness :
  TED.prepare_for_predict (L := Examples.layers) 1000 (Examples.model 5 3 0) = None /\
  TED.prepare_for_predict (L := Examples.layers) 1000 (Examples.model 5 3 (-2)) = None.
Proof.
  split.
  - apply (prepare_for_predict_edge_cases (L := Examples.layers)
             (Examples.model 5 3 0) (TEDPolicy.label_ids 8)).
    + reflexivity.
    + discriminate.
    + simpl. lia.
    + discriminate.
  - apply (prepare_for_predict_edge_cases (L := Examples.layers)
             (Examples.model 5 3 (-2)) (TEDPolicy.label_ids 8)).
    + reflexivity.
    + discriminate.
    + simpl. lia.
    + discriminate.
Defined.

(** ** Inference router: single rows, short domains and NaN *)

Module RouterEdgeFacts.
Import TEDPolicy.

Lemma SFcompare_refl f : f <> S754_nan -> SFcompare f f = Some Eq.
Proof.
  destruct f as [[]|[]| |[] m e]; simpl; try done; intros _.
  - by rewrite Z.compare_refl, Pos.compare_cont_refl.
  - by rewrite Z.compare_refl, Pos.compare_cont_refl.
Qed.

Lemma is_nan_Prim2SF x : PrimFloat.is_nan x = true -> Prim2SF x = S754_nan.
Proof.
  unfold PrimFloat.is_nan. rewrite FloatAxioms.eqb_spec. unfold SFeqb.
  intros Hnan. destruct (Prim2SF x) as [s|s| |s m e] eqn:Hx; [| |done|];
    rewrite SFcompare_refl in Hnan by done; discriminate.
Qed.

(** No number is above or below a NaN. *)
Lemma ltb_nan_r x y : PrimFloat.is_nan y = true -> (x <? y)%float = false.
Proof.
  intros Hy. rewrite FloatAxioms.ltb_spec, (is_nan_Prim2SF y Hy). unfold SFltb.
  by destruct (Prim2SF x).
Qed.

Lemma ltb_nan_l x y : PrimFloat.is_nan x = true -> (x <? y)%float = false.
Proof.
  intros Hx. rewrite FloatAxioms.ltb_spec, (is_nan_Prim2SF x Hx). done.
Qed.

Lemma fmax_nan_l a b : PrimFloat.is_nan a = true -> Np.fmax a b = a.
Proof. intros Ha. unfold Np.fmax. by rewrite Ha. Qed.

Lemma fold_fmax_nan rest a :
  PrimFloat.is_nan a = true -> fold_left Np.fmax rest a = a.
Proof.
  revert a. induction rest as [|x rest IH]; intros a Ha; simpl; [done|].
  rewrite (fmax_nan_l a x Ha). by apply IH.
Qed.

Lemma fold_fmax_has_nan rest a :
  (exists x, x ∈ rest /\ PrimFloat.is_nan x = true) ->
  PrimFloat.is_nan (fold_left Np.fmax rest a) = true.
Proof.
  revert a. induction rest as [|y rest IH]; intros a (x & Hin & Hx); [inversion Hin|].
  simpl. destruct (PrimFloat.is_nan (Np.fmax a y)) eqn:Hm.
  - by rewrite fold_fmax_nan.
  - apply IH. exists x. split; [|done].
    apply elem_of_cons in Hin as [->|Hin]; [|done].
    exfalso. unfold Np.fmax in Hm.
    destruct (PrimFloat.is_nan a) eqn:Ha; [congruence|]. rewrite Hx in Hm. congruence.
Qed.

(** The maximum of a row that holds a NaN is a NaN. *)
Lemma max_nan row m :
  (exists x, x ∈ row /\ PrimFloat.is_nan x = true) ->
  Np.max row = inr m -> PrimFloat.is_nan m = true.
Proof.
  destruct row as [|a rest]; simpl; [discriminate|]. intros (x & Hin & Hx) [= <-].
  apply elem_of_cons in Hin as [->|Hin].
  - by rewrite fold_fmax_nan.
  - apply fold_fmax_has_nan. eauto.
Qed.


End RouterEdgeFacts.



(** X6.  On a batch of two rows a NaN decides for the intent-based row: when
    the end-to-end confidences hold a NaN, or when the threshold is passed
    and either row of similarities holds one, the router returns the
    intent-based confidences with the flag unset, since no comparison with a
    NaN holds. *)
Theorem pick_confidence_nan
    (self : TEDPolicy.t) (c0 c1 s0 s1 : list float) (domain : Domain) (n : nat) :
  (0 < n)%nat ->
  length c0 = n -> length c1 = n -> length s0 = n -> length s1 = n ->
  (n <= length (action_names_or_texts domain))%nat ->
  let has_nan (row : list float) := exists x, x ∈ row /\ PrimFloat.is_nan x = true in
  has_nan c1 \/ has_nan s0 \/ has_nan s1 ->
  TEDPolicy._pick_confidence self [c0; c1] [s0; s1] domain = inr (c0, false).
Proof.
  intros Hn H0 H1 Hs0 Hs1 Hdom has_nan Hnan.
  destruct (RouterFacts.max_ok c1) as [top_conf Hc]; [lia|].
  destruct (RouterFacts.max_ok s1) as [top_text Ht]; [lia|].
  destruct (RouterFacts.max_ok s0) as [top_intent Hi]; [lia|].
  rewrite (RouterFacts.pick_confidence_two self c0 c1 s0 s1 domain
             top_conf top_text top_intent) by (done || lia).
  destruct Hnan as [Hnan|[Hnan|Hnan]].
  - rewrite RouterEdgeFacts.ltb_nan_r; [done|]. by eapply RouterEdgeFacts.max_nan.
  - rewrite (RouterEdgeFacts.ltb_nan_l top_intent);
      [by rewrite andb_false_r|by eapply RouterEdgeFacts.max_nan].
  - rewrite (RouterEdgeFacts.ltb_nan_r top_intent);
      [by rewrite andb_false_r|by eapply RouterEdgeFacts.max_nan].
Qed.

Lemma pick_confidence_nan_witness :
  TEDPolicy._pick_confidence Examples.policy
    [Examples.intent_confidences; [0.9; nan; 0.1]%float]
    [Examples.intent_similarities; Examples.text_similarities] Examples.domain
  = inr (Examples.intent_confidences, false).
Proof.
  apply (pick_confidence_nan Examples.policy _ _ _ _ Examples.domain 3%nat);
    try reflexivity; try (simpl; lia).
  left. exists nan. split; [|reflexivity]. right. left.
Defined.

(** ** Label sampling metadata: its keys *)

(** X7.  The metadata that [get_label_sampling_metadata] returns has an
    entry for every key of the label data other than the label key, and for
    no other key. *)
Theorem label_sampling_metadata_keys
    (label_data : RasaModelData) (b : Z) (md : gmap string SamplingMetadata)
    (key : string) :
  TEDPolicy.get_label_sampling_metadata label_data b = inr md ->
  is_Some (md !! key) <-> key ∈ label_data.*1 /\ key <> LABEL_KEY.
Proof.
  intros Hmd. unfold TEDPolicy.get_label_sampling_metadata in Hmd.
  apply bind_inr in Hmd as (label & _ & Hmd). apply bind_inr in Hmd as (ids & _ & Hmd).
  rewrite (MetadataKeyFacts.sampling_metadata_loop_keys _ _ _ _ _ key Hmd).
  rewrite lookup_empty. split; [|by right]. intros [[? [=]]|?]. done.
Qed.

Lemma label_sampling_metadata_keys_witness :
  (is_Some (Examples.sampling_metadata 5 3 4 !! LABEL_ACTION_TEXT) <->
   LABEL_ACTION_TEXT ∈ (Examples.label_data 5 3).*1 /\ LABEL_ACTION_TEXT <> LABEL_KEY) /\
  (is_Some (Examples.sampling_metadata 5 3 4 !! LABEL_KEY) <->
   LABEL_KEY ∈ (Examples.label_data 5 3).*1 /\ LABEL_KEY <> LABEL_KEY).
Proof.
  split.
  - apply (label_sampling_metadata_keys (Examples.label_data 5 3) 4).
    vm_compute. reflexivity.
  - apply (label_sampling_metadata_keys (Examples.label_data 5 3) 4).
    vm_compute. reflexivity.
Defined.

(** ** Data signatures *)

Module SignatureFacts.
Import Signatures.

Lemma any_key_in_spec keys data_signature :
  any_key_in keys data_signature = true <-> exists key, key ∈ keys /\ key ∈ data_signature.*1.
Proof.
  unfold any_key_in. rewrite existsb_exists. split.
  - intros (key & Hin & Hkey). apply list_elem_of_In in Hin.
    apply bool_decide_eq_true in Hkey. eauto.
  - intros (key & Hkey & Hin). exists key. split; [by apply list_elem_of_In|].
    by apply bool_decide_eq_true.
Qed.

Lemma dict_get_filter {V} (keys : list string) (d : list (string * V)) key :
  key ∈ keys ->
  dict_get (filter (fun entry : string * V => entry.1 ∈ keys) d) key = dict_get d key.
Proof.
  intros Hkey. induction d as [|[k v] d IH]; [done|].
  destruct (decide (k ∈ keys)) as [Hk|Hk].
  - rewrite filter_cons_True by done. simpl. by rewrite IH.
  - rewrite filter_cons_False by done. simpl. rewrite decide_False; [done|].
    by intros ->.
Qed.

End SignatureFacts.

(** X8.  [_check_data] accepts a data signature exactly when it names a
    user attribute (intent or text), an action attribute (action name or
    action text) and the label.  The user attributes are checked first and
    the label last: without a user attribute the error is Rasa's own
    exception whatever else is missing, and a [ValueError] about the label
    is only raised for a signature that has both other kinds. *)
Theorem check_data_accepts (data_signature : Signatures.DataSignature) :
  let keys := data_signature.*1 in
  let user := INTENT ∈ keys \/ TEXT ∈ keys in
  let action := ACTION_NAME ∈ keys \/ ACTION_TEXT ∈ keys in
  (Signatures._check_data data_signature = inr () <-> user /\ action /\ LABEL ∈ keys) /\
  (~ user <->
   Signatures._check_data data_signature
   = inl (Signatures.RasaException
            "No user features specified. Cannot train 'TED' model.")) /\
  (user /\ ~ action <->
   Signatures._check_data data_signature
   = inl (Signatures.Builtin
            (ValueError "No action features specified. Cannot train 'TED' model."))) /\
  (user /\ action /\ LABEL ∉ keys <->
   Signatures._check_data data_signature
   = inl (Signatures.Builtin
            (ValueError "No label features specified. Cannot train 'TED' model."))).
Proof.
  intros keys user action.
  assert (Signatures.any_key_in [INTENT; TEXT] data_signature = true <-> user) as Huser.
  { rewrite SignatureFacts.any_key_in_spec. subst user keys. split.
    - intros (key & Hkey & Hin).
      apply elem_of_cons in Hkey as [->|Hkey]; [by left|].
      apply elem_of_cons in Hkey as [->|Hkey]; [by right|inversion Hkey].
    - intros [H|H]; [exists INTENT|exists TEXT]; (split; [by_compute|done]). }
  assert (Signatures.any_key_in [ACTION_NAME; ACTION_TEXT] data_signature = true <-> action)
    as Haction.
  { rewrite SignatureFacts.any_key_in_spec. subst action keys. split.
    - intros (key & Hkey & Hin).
      apply elem_of_cons in Hkey as [->|Hkey]; [by left|].
      apply elem_of_cons in Hkey as [->|Hkey]; [by right|inversion Hkey].
    - intros [H|H]; [exists ACTION_NAME|exists ACTION_TEXT]; (split; [by_compute|done]). }
  assert (str_in LABEL data_signature.*1 = true <-> LABEL ∈ keys) as Hlabel
    by apply bool_decide_eq_true.
  unfold Signatures._check_data.
  destruct (Signatures.any_key_in [INTENT; TEXT] data_signature);
    destruct (Signatures.any_key_in [ACTION_NAME; ACTION_TEXT] data_signature);
    destruct (str_in LABEL data_signature.*1); simpl;
    split_and!; split; try done; try (intros; exfalso; intuition congruence);
    intuition (try congruence).
Qed.

(** X9.  The prediction signature that [TED.__init__] derives, and the
    prediction example that [TEDPolicy.load] derives in the same way, keep
    the entries of the prediction features in their order and with their
    values, and drop every other entry: the label, the label attributes and
    the entity tags are not part of it. *)
Theorem prediction_features_kept {V} (data : list (string * V)) :
  Signatures.predict_data_example data = Signatures.prediction_features_only data /\
  (forall data_signature,
     Signatures.predict_data_signature data_signature
     = Signatures.prediction_features_only data_signature) /\
  let kept := Signatures.prediction_features_only data in
  kept `sublist_of` data /\
  (forall key, key ∈ kept.*1 <-> key ∈ data.*1 /\ key ∈ PREDICTION_FEATURES) /\
  (forall key, key ∈ PREDICTION_FEATURES -> dict_get kept key = dict_get data key) /\
  (forall key, key ∈ [LABEL_KEY; LABEL_ACTION_NAME; LABEL_ACTION_TEXT; ENTITY_TAGS] ->
     dict_get kept key = inl (KeyError key)).
Proof.
  split; [done|]. split; [done|]. cbv zeta. unfold Signatures.prediction_features_only.
  split_and!.
  - apply sublist_filter.
  - intros key. rewrite !list_elem_of_fmap. split.
    + intros ([k v] & -> & Hin). apply list_elem_of_filter in Hin as [Hk Hin].
      split; [|done]. by exists (k, v).
    + intros (([k v] & -> & Hin) & Hkey). exists (k, v). split; [done|].
      by apply list_elem_of_filter.
  - intros key Hkey. by apply SignatureFacts.dict_get_filter.
  - intros key Hkey. apply MetadataKeyFacts.dict_get_missing.
    assert (key ∉ PREDICTION_FEATURES) as Hout.
    { repeat (apply elem_of_cons in Hkey as [->|Hkey]); [| | | |inversion Hkey];
        by_compute. }
    rewrite list_elem_of_fmap. intros ([k v] & -> & Hin).
    by apply list_elem_of_filter in Hin as [Hk _].
Qed.

(** ** The last turns of the dialogues of a batch *)

Module TurnFacts.
Import TEDBatch.

Lemma map_const {A B} (f : A -> B) (l : list A) (b : B) :
  (forall x, x ∈ l -> f x = b) -> map f l = replicate (length l) b.
Proof.
  induction l as [|x l IH]; intros Hall; simpl; [done|].
  rewrite Hall by left. f_equal. apply IH. intros y Hy. apply Hall. by right.
Qed.

(** Of the turns of a dialogue only the last one is marked. *)
Lemma marks_of_dialogue n :
  map (fun d => bool_decide (S d = S n)) (seq 0 (S n)) = replicate n false ++ [true].
Proof.
  rewrite seq_S, map_app. simpl. rewrite bool_decide_true by done. f_equal.
  rewrite (map_const _ _ false), length_seq; [done|].
  intros d Hd. apply elem_of_seq in Hd. apply bool_decide_false. lia.
Qed.

(** The dialogue indices, followed by anything, start with a 0 wherever a
    dialogue starts. *)
Lemma indices_head lengths rest :
  exists after, flat_map (seq 0) lengths ++ 0%nat :: rest = 0%nat :: after.
Proof.
  induction lengths as [|n lengths [after IH]]; simpl; [eauto|].
  destruct n as [|n]; simpl; [eauto|]. eauto.
Qed.

(** The indices shifted by one position are 0 exactly on the last turns. *)
Lemma shifted_indices lengths rest :
  map (fun i => negb (negb (i =? 0)%nat)) (tail (flat_map (seq 0) lengths ++ 0%nat :: rest))
  = Masks.last_turn_marks lengths ++ map (fun i => negb (negb (i =? 0)%nat)) rest.
Proof.
  unfold Masks.last_turn_marks.
  induction lengths as [|n lengths IH]; [done|].
  destruct n as [|n]; [exact IH|].
  cbn [flat_map]. rewrite marks_of_dialogue.
  change (seq 0 (S n)) with (0%nat :: seq 1 n). simpl tail.
  rewrite <- !app_assoc, map_app. f_equal.
  - rewrite (map_const _ _ false), length_seq; [done|].
    intros i Hi. apply elem_of_seq in Hi. by destruct i; [lia|].
  - destruct (indices_head lengths rest) as [after Hafter].
    rewrite Hafter in IH |- *. simpl in IH |- *. by rewrite IH.
Qed.

Lemma last_turn_marks_length lengths :
  length (Masks.last_turn_marks lengths) = sum_list lengths.
Proof.
  unfold Masks.last_turn_marks. induction lengths as [|n lengths IH]; [done|].
  simpl. by rewrite length_app, length_fmap, length_seq, IH.
Qed.

Lemma filter_true_replicate_false n :
  filter (fun b : bool => b = true) (replicate n false) = [].
Proof. induction n as [|n IH]; [done|]. simpl. by rewrite filter_cons_False. Qed.

Lemma last_turn_marks_count lengths :
  Tensors.count_true (Masks.last_turn_marks lengths)
  = length (filter (fun n => (0 < n)%nat) lengths).
Proof.
  unfold Masks.last_turn_marks, Tensors.count_true.
  induction lengths as [|n lengths IH]; [done|].
  cbn [flat_map]. rewrite filter_app, length_app, IH.
  destruct n as [|n].
  - rewrite filter_cons_False by lia. done.
  - rewrite filter_cons_True by lia. rewrite marks_of_dialogue, filter_app, length_app.
    by rewrite filter_true_replicate_false.
Qed.

End TurnFacts.

(** X10.  On the dialogue indices that [_compute_dialogue_indices] writes,
    [_create_last_dialogue_turns_mask] marks, among the turns with real
    features of the attribute, exactly those that are the last turn of their
    dialogue: its result is the list that says for every turn of the batch
    whether it is the last one, reduced to the turns whose sequence length
    is not 0.  That list has one entry per turn and marks one turn for
    every dialogue that is not empty.  The batch holds the attribute, the
    attribute its sequence lengths, and these at least one tensor. *)
Theorem last_dialogue_turns_marked
    (batch_in : TED.BatchData) (tensors : list (string * list (string * list (Tensor Z))))
    (attribute : string) (attribute_data : list (string * list (Tensor Z)))
    (lengths : list (Tensor Z)) (sequence_lengths : Tensor Z) :
  dict_get tensors attribute = inr attribute_data ->
  dict_get attribute_data SEQUENCE_LENGTH = inr lengths ->
  lengths !! 0%nat = Some sequence_lengths ->
  let tf_batch_data :=
    TEDBatch.mkSequenceBatchData (TED._compute_dialogue_indices batch_in) tensors in
  let marks := Masks.last_turn_marks (TED.dialogue_length batch_in) in
  TEDBatch._create_last_dialogue_turns_mask tf_batch_data attribute
  = Tf.boolean_mask marks (map TEDBatch.nonzero (values sequence_lengths)) /\
  length marks = sum_list (TED.dialogue_length batch_in) /\
  Tensors.count_true marks
  = length (filter (fun n => (0 < n)%nat) (TED.dialogue_length batch_in)).
Proof.
  intros Hattribute Hlengths Hfirst tf_batch_data marks. split_and!.
  - unfold TEDBatch._create_last_dialogue_turns_mask.
    simpl. rewrite Hattribute. cbn [mbind Result_bind]. rewrite Hlengths.
    cbn [mbind Result_bind]. unfold list_get. rewrite Hfirst.
    cbn [mbind Result_bind ret].
    by rewrite TurnFacts.shifted_indices, app_nil_r.
  - apply TurnFacts.last_turn_marks_length.
  - apply TurnFacts.last_turn_marks_count.
Qed.

Lemma last_dialogue_turns_marked_witness :
  TEDBatch._create_last_dialogue_turns_mask
    (TEDBatch.mkSequenceBatchData
       (TED._compute_dialogue_indices (TED.mkBatchData [] [2; 1; 3]%nat [] []))
       [(TEXT, [(SEQUENCE_LENGTH, [mkTensor [6; 1]%nat [4; 0; 0; 2; 0; 5]])])]) TEXT
  = inr [false; false; true] /\
  Masks.last_turn_marks [2; 1; 3]%nat = [false; true; true; false; false; true].
Proof.
  split; [|reflexivity].
  rewrite (proj1 (last_dialogue_turns_marked (TED.mkBatchData [] [2; 1; 3]%nat [] [])
                    [(TEXT, [(SEQUENCE_LENGTH, [mkTensor [6; 1]%nat [4; 0; 0; 2; 0; 5]])])]
                    TEXT [(SEQUENCE_LENGTH, [mkTensor [6; 1]%nat [4; 0; 0; 2; 0; 5]])]
                    [mkTensor [6; 1]%nat [4; 0; 0; 2; 0; 5]]
                    (mkTensor [6; 1]%nat [4; 0; 0; 2; 0; 5])
                    eq_refl eq_refl eq_refl));
    reflexivity.
Defined.

(** ** Scattering the real features back to their positions *)

Module RoundTripFacts.
Import TED.

Lemma filter_zip_no_true {A} (xs : list A) (m : list bool) :
  Tensors.count_true m = 0%nat ->
  filter (fun p : A * bool => p.2 = true) (zip xs m) = [].
Proof.
  unfold Tensors.count_true. revert xs.
  induction m as [|b m IH]; intros [|x xs] Hcount; simpl; try done.
  destruct b.
  - rewrite filter_cons_True in Hcount by done. discriminate.
  - rewrite filter_cons_False in Hcount by done.
    rewrite filter_cons_False by done. by apply IH.
Qed.

Lemma count_true_app l k :
  Tensors.count_true (l ++ k) = (Tensors.count_true l + Tensors.count_true k)%nat.
Proof. unfold Tensors.count_true. by rewrite filter_app, length_app. Qed.

(** The real turns of a dialogue are the set entries of its row of the
    mask, when the mask sets nothing behind the length of the dialogue. *)
Lemma real_turns_true_positions (row : list bool) n :
  (n <= length row)%nat ->
  Tensors.count_true row = Tensors.count_true (take n row) ->
  map fst (filter (fun p : nat * bool => p.2 = true) (zip (seq 0 n) (take n row)))
  = Masks.true_positions row.
Proof.
  intros Hn Hcount. unfold Masks.true_positions.
  rewrite <- (take_drop n row) in Hcount at 1. rewrite count_true_app in Hcount.
  rewrite <- (take_drop n row) at 3.
  replace (length row) with (n + (length row - n))%nat by lia.
  rewrite seq_app, zip_with_app by (rewrite length_seq, length_take; lia).
  rewrite filter_app, (filter_zip_no_true (seq (0 + n) (length row - n)))
    by lia.
  by rewrite app_nil_r.
Qed.

(** The indices the conversion scatters to are the set entries of the mask
    in row-major order. *)
Lemma indices_set_positions rows lengths b0 :
  Forall2 (fun (row : list bool) n => (n <= length row)%nat) rows lengths ->
  length (List.concat (zip_with (fun b n => replicate n b) (seq b0 (length rows))
                         (map Tensors.count_true rows)))
  = length (map fst (filter (fun p : nat * bool => p.2 = true)
                       (zip (flat_map (seq 0) lengths)
                            (List.concat (zip_with take lengths rows))))) ->
  zip (List.concat (zip_with (fun b n => replicate n b) (seq b0 (length rows))
                      (map Tensors.count_true rows)))
      (map fst (filter (fun p : nat * bool => p.2 = true)
                  (zip (flat_map (seq 0) lengths)
                       (List.concat (zip_with take lengths rows)))))
  = Masks.set_positions_from b0 rows.
Proof.
  intros Hall. revert b0. induction Hall as [|row n rows lengths Hn Hall IH]; intros b0.
  - done.
  - rewrite EncoderFacts.dialogue_turns_cons by done. rewrite filter_app, fmap_app.
    cbn [length seq map zip_with List.concat Masks.set_positions_from].
    rewrite !length_app, length_replicate, EncoderFacts.real_turns_length by done.
    rewrite !length_fmap.
    pose proof (EncoderFacts.count_true_take_le row n) as Hle.
    pose proof (EncoderFacts.real_turns_le rows lengths (S b0) Hall) as Hrest.
    intros Hlen.
    assert (Tensors.count_true row = Tensors.count_true (take n row)) as Hcount by lia.
    rewrite zip_with_app
      by (by rewrite length_replicate, EncoderFacts.real_turns_length, Hcount).
    rewrite IH by (rewrite length_fmap; lia).
    f_equal. rewrite real_turns_true_positions by done.
    rewrite Hcount, <- (EncoderFacts.real_turns_length row n Hn),
      real_turns_true_positions by done.
    generalize (Masks.true_positions row). clear.
    induction l as [|d l IH]; simpl; [done|]. by rewrite IH.
Qed.

Lemma true_positions_elem_of row d :
  d ∈ Masks.true_positions row <-> row !! d = Some true.
Proof.
  unfold Masks.true_positions. rewrite list_elem_of_fmap. split.
  - intros ([d' b] & -> & Hin). apply list_elem_of_filter in Hin as [Hb Hin].
    simpl in Hb. subst b. apply list_elem_of_lookup in Hin as [i Hi].
    apply lookup_zip_with_Some in Hi as (d'' & b & [= <- <-] & Hseq & Hrow).
    apply lookup_seq in Hseq as [-> _]. done.
  - intros Hd. exists (d, true). split; [done|]. apply list_elem_of_filter.
    split; [done|]. apply list_elem_of_lookup. exists d.
    apply lookup_zip_with_Some. exists d, true. split_and!; [done| |done].
    apply lookup_seq. split; [done|]. by eapply lookup_lt_Some.
Qed.

Lemma true_positions_NoDup row : NoDup (Masks.true_positions row).
Proof.
  unfold Masks.true_positions.
  assert (forall (l : list (nat * bool)), NoDup l.*1 ->
            NoDup (filter (fun p : nat * bool => p.2 = true) l).*1) as Hfilter.
  { induction l as [|[d b] l IH]; simpl; [constructor|]. intros Hnd.
    apply NoDup_cons in Hnd as [Hd Hnd]. destruct b.
    - rewrite filter_cons_True by done. simpl. apply NoDup_cons. split; [|auto].
      intros Hin. apply Hd. apply list_elem_of_fmap in Hin as (p & -> & Hp).
      apply list_elem_of_filter in Hp as [_ Hp]. apply list_elem_of_fmap. eauto.
    - rewrite filter_cons_False by done. auto. }
  apply Hfilter. rewrite fst_zip by (by rewrite length_seq). apply NoDup_seq.
Qed.

Lemma set_positions_from_elem_of b0 rows b d :
  (b, d) ∈ Masks.set_positions_from b0 rows <->
  (b0 <= b)%nat /\ exists row, rows !! (b - b0)%nat = Some row /\ row !! d = Some true.
Proof.
  revert b0. induction rows as [|row rows IH]; intros b0; simpl.
  - split; [intros Hin; inversion Hin|]. by intros (_ & row & Hrow & _).
  - rewrite elem_of_app, IH, list_elem_of_fmap. split.
    + intros [(d' & [= -> ->] & Hd)|(Hb & row' & Hrow' & Hd)].
      * split; [lia|]. exists row. rewrite Nat.sub_diag.
        split; [done|]. by apply true_positions_elem_of.
      * split; [lia|]. exists row'. split; [|done].
        replace (b - b0)%nat with (S (b - S b0)) by lia. done.
    + intros (Hb & row' & Hrow' & Hd). destruct (decide (b = b0)) as [->|Hne].
      * left. exists d. rewrite Nat.sub_diag in Hrow'. injection Hrow' as <-.
        split; [done|]. by apply true_positions_elem_of.
      * right. split; [lia|]. exists row'. split; [|done].
        replace (b - b0)%nat with (S (b - S b0)) in Hrow' by lia. done.
Qed.

Lemma set_positions_from_NoDup b0 rows : NoDup (Masks.set_positions_from b0 rows).
Proof.
  revert b0. induction rows as [|row rows IH]; intros b0; simpl; [constructor|].
  apply NoDup_app. split_and!.
  - apply (NoDup_fmap_2 _), true_positions_NoDup.
  - intros [b d] Hin Hlater. apply list_elem_of_fmap in Hin as (d' & [= -> ->] & _).
    apply set_positions_from_elem_of in Hlater as [Hb _]. lia.
  - apply IH.
Qed.

(** An index that occurs once receives its update, added to zero. *)
Lemma scattered_at_unique indices updates units k b d v :
  NoDup indices -> indices !! k = Some (b, d) -> updates !! k = Some v ->
  Tf.scattered_at indices updates units b d
  = Tensors.vec_add (Tensors.zero_vec units) v.
Proof.
  intros Hnd Hindex Hupdate. unfold Tf.scattered_at.
  assert (filter (fun p : nat * nat * Vec => p.1 = (b, d)) (zip indices updates)
          = [((b, d), v)]) as ->; [|done].
  revert k updates Hindex Hupdate.
  induction indices as [|index indices IH]; intros k updates Hindex Hupdate;
    [by rewrite lookup_nil in Hindex|].
  apply NoDup_cons in Hnd as [Hnot Hnd].
  destruct updates as [|update updates]; [by rewrite lookup_nil in Hupdate|].
  destruct k as [|k]; simpl in *.
  - injection Hindex as ->. injection Hupdate as ->.
    rewrite filter_cons_True by done. f_equal.
    apply elem_of_nil_inv. intros [index update] Hin.
    apply list_elem_of_filter in Hin as [Heq Hin]. simpl in Heq. subst index.
    apply Hnot. by eapply elem_of_zip_l.
  - rewrite filter_cons_False.
    + by eapply IH.
    + simpl. intros ->. apply Hnot. by eapply list_elem_of_lookup_2.
Qed.

(** What the conversion computes, once it returns. *)
Lemma convert_to_original_shape_inv features tf_batch_data attribute data t :
  batch_attribute tf_batch_data attribute = inr data ->
  Tensors.well_shaped_mask (attribute_mask data) ->
  dialogue_indices tf_batch_data = flat_map (seq 0) (dialogue_length tf_batch_data) ->
  _convert_to_original_shape features tf_batch_data attribute = inr t ->
  Tf.scatter_nd (Masks.set_positions (attribute_mask data))
    (map (fun row => default [] (head row)) (data3 features))
    (length (mask_data (attribute_mask data)), (mask_shape (attribute_mask data)).2,
     (shape3 features).2) = inr t.
Proof.
  intros Hdata Hmask Hindices Hconvert.
  unfold _convert_to_original_shape in Hconvert. rewrite Hdata in Hconvert.
  cbn [mbind Result_bind] in Hconvert.
  set (mask := attribute_mask data) in *.
  assert (exists lengths,
            (if str_in attribute (SENTENCE_FEATURES_TO_ENCODE ++ STATE_LEVEL_FEATURES)
             then (dialogue_length tf_batch_data, dialogue_indices tf_batch_data)
             else (replicate (mask_shape mask).1 1%nat, replicate (mask_shape mask).1 0%nat))
            = (lengths, flat_map (seq 0) lengths)) as [lengths Hpair].
  { destruct (str_in _ _); eexists.
    - by rewrite Hindices.
    - by rewrite EncoderFacts.label_dialogue_indices. }
  rewrite Hpair in Hconvert. clear Hpair.
  apply bind_inr in Hconvert as (indices_mask & Hwithin & Hconvert).
  apply bind_inr in Hconvert as (turns & Hturns & Hconvert).
  apply bind_inr in Hconvert as (indices & Hstack & Hconvert).
  apply bind_inr in Hconvert as (rows & Hsqueeze & Hconvert).
  unfold mask_within_lengths in Hwithin. case_bool_decide as Hshape; [|discriminate].
  injection Hwithin as <-.
  unfold Tf.boolean_mask in Hturns. destruct (_ =? _)%nat; [|discriminate].
  injection Hturns as <-.
  unfold Tf.stack in Hstack.
  destruct (Nat.eqb_spec
              (length (List.concat (zip_with (fun b n => replicate n b)
                                      (seq 0 (mask_shape mask).1)
                                      (map Tensors.count_true (mask_data mask)))))
              (length (map fst (filter (fun p : nat * bool => p.2 = true)
                                  (zip (flat_map (seq 0) lengths)
                                       (List.concat (zip_with take lengths (mask_data mask))))))))
    as [Hlen|]; [|discriminate].
  injection Hstack as <-.
  pose proof (EncoderFacts.mask_rows_cover_lengths mask lengths Hmask Hshape) as Hcover.
  assert ((mask_shape mask).1 = length (mask_data mask)) as Hbatch
    by (by destruct Hmask as [-> _]).
  rewrite Hbatch in Hlen, Hconvert.
  rewrite (indices_set_positions _ _ _ Hcover Hlen) in Hconvert.
  unfold Tf.squeeze_axis1 in Hsqueeze. destruct (_ =? 1)%nat; [|discriminate].
  injection Hsqueeze as <-. exact Hconvert.
Qed.

End RoundTripFacts.

(** X11.  [_convert_to_original_shape] puts every real feature back where
    its instance is: the set entries of the mask of the attribute, read row
    by row, are pairwise different positions (batch, turn), there are as
    many of them as rows of real features, and the result holds at the
    [k]-th of them the [k]-th row of the real features, added to the zeros
    the result starts from.  The batch went through
    [_compute_dialogue_indices] and its mask has the shape it announces. *)
Theorem convert_to_original_shape_round_trip
    (features : Tensor3) (tf_batch_data : TED.BatchData) (attribute : string)
    (data : TED.BatchAttribute) (t : Tensor3) :
  TED.batch_attribute tf_batch_data attribute = inr data ->
  Tensors.well_shaped_mask (TED.attribute_mask data) ->
  TED.dialogue_indices tf_batch_data
    = flat_map (seq 0) (TED.dialogue_length tf_batch_data) ->
  TED._convert_to_original_shape features tf_batch_data attribute = inr t ->
  let mask := TED.attribute_mask data in
  let positions := Masks.set_positions mask in
  NoDup positions /\
  (forall b d, (b, d) ∈ positions <->
     exists row, mask_data mask !! b = Some row /\ row !! d = Some true) /\
  length positions = length (data3 features) /\
  (forall k b d v,
     positions !! k = Some (b, d) -> data3 features !! k = Some [v] ->
     Tensors.at3 t b d
     = Some (Tensors.vec_add (Tensors.zero_vec (shape3 features).2) v)).
Proof.
  intros Hdata Hmask Hindices Hconvert mask positions.
  pose proof (RoundTripFacts.convert_to_original_shape_inv _ _ _ _ _ Hdata Hmask Hindices
                Hconvert) as Hscatter.
  fold mask in Hscatter. fold positions in Hscatter.
  assert (NoDup positions) as Hnd by apply RoundTripFacts.set_positions_from_NoDup.
  assert (forall b d, (b, d) ∈ positions <->
            exists row, mask_data mask !! b = Some row /\ row !! d = Some true) as Hpos.
  { intros b d. unfold positions, Masks.set_positions.
    rewrite RoundTripFacts.set_positions_from_elem_of, Nat.sub_0_r.
    split; [by intros [_ ?]|]. intros ?. split; [lia|done]. }
  split_and!; try done.
  - unfold Tf.scatter_nd in Hscatter.
    destruct (negb (length positions =? _)%nat) eqn:Hlen; [discriminate|].
    apply negb_false_iff, Nat.eqb_eq in Hlen. by rewrite length_fmap in Hlen.
  - intros k b d v Hk Hv.
    destruct (EncoderFacts.scatter_nd_spec _ _ _ _ _ _ Hscatter) as (_ & _ & Hat).
    assert ((b, d) ∈ positions) as Hin by (by eapply list_elem_of_lookup_2).
    apply Hpos in Hin as (row & Hrow & Hd).
    rewrite Hat.
    + f_equal. apply (RoundTripFacts.scattered_at_unique _ _ _ k); [done..|].
      apply (list_lookup_fmap_Some_2 (fun row : list Vec => default [] (head row))) in Hv.
      exact Hv.
    + by eapply lookup_lt_Some.
    + destruct Hmask as [_ Hcols]. rewrite Forall_forall in Hcols.
      fold mask in Hcols.
      rewrite <- (Hcols row) by (by eapply list_elem_of_lookup_2).
      by eapply lookup_lt_Some.
Qed.

Lemma convert_to_original_shape_round_trip_witness :
  let features :=
    mkTensor3 (3, 1, 4)%nat [[[1; 1; 1; 1]]; [[2; 2; 2; 2]]; [[3; 3; 3; 3]]]%float in
  let t :=
    mkTensor3 (2, 3, 4)%nat
      [ [[1; 1; 1; 1]; [0; 0; 0; 0]; [2; 2; 2; 2]];
        [[0; 0; 0; 0]; [3; 3; 3; 3]; [0; 0; 0; 0]] ]%float in
  let mask := mkMaskTensor (2, 3)%nat [[true; false; true]; [false; true; false]] in
  let positions := Masks.set_positions mask in
  positions = [(0, 0); (0, 2); (1, 1)]%nat /\
  NoDup positions /\
  (forall b d, (b, d) ∈ positions <->
     exists row, mask_data mask !! b = Some row /\ row !! d = Some true) /\
  length positions = length (data3 features) /\
  (forall k b d v,
     positions !! k = Some (b, d) -> data3 features !! k = Some [v] ->
     Tensors.at3 t b d
     = Some (Tensors.vec_add (Tensors.zero_vec (shape3 features).2) v)).
Proof.
  intros features t mask positions. split; [reflexivity|].
  apply (convert_to_original_shape_round_trip features Examples.batch_with_slots SLOTS
           (TED.mkBatchAttribute mask 3) t).
  - reflexivity.
  - split; [reflexivity|]. repeat constructor.
  - reflexivity.
  - vm_compute. reflexivity.
Defined.

(** ** Encoding a batch *)

Module ProcessBatchFacts.
Import TED TEDBatch.

Lemma dict_set_absent {V} (d : list (string * V)) key v :
  key ∉ d.*1 -> dict_set d key v = d ++ [(key, v)].
Proof.
  induction d as [|[k x] d IH]; simpl; [done|]. intros Hkey.
  apply not_elem_of_cons in Hkey as [Hne Hkey].
  rewrite decide_False by done. by rewrite IH.
Qed.

Lemma dict_has_spec {V} (d : list (string * V)) key :
  dict_has d key = true <-> key ∈ d.*1.
Proof. apply bool_decide_eq_true. Qed.

Lemma dict_get_is_ok {V} (d : list (string * V)) key :
  key ∈ d.*1 -> is_ok (dict_get d key).
Proof.
  induction d as [|[k x] d IH]; simpl; [by intros ?%elem_of_nil|].
  intros Hin. destruct (decide (k = key)); [by eexists|].
  apply IH. by apply elem_of_cons in Hin as [->|].
Qed.

(** The encodings the loop collects: one for every attribute of the batch
    that is a sentence or state-level feature, in the order of the batch. *)
Lemma encode_attributes_keys {L : Layers} self tf_batch_data keys batch_encoded
    text_output text_lengths batch_encoded' text_output' text_lengths' :
  NoDup (batch_encoded.*1 ++ keys) ->
  encode_attributes self tf_batch_data keys batch_encoded text_output text_lengths
    = inr (batch_encoded', text_output', text_lengths') ->
  exists encoded,
    batch_encoded' = batch_encoded ++ encoded /\
    encoded.*1
    = filter (fun key => key ∈ SENTENCE_FEATURES_TO_ENCODE ++ STATE_LEVEL_FEATURES) keys /\
    Forall (fun entry : string * Tensor3 =>
              exists text lengths,
                _encode_features_per_attribute self tf_batch_data entry.1
                = inr (entry.2, text, lengths)) encoded /\
    (is_Some text_output' <-> is_Some text_output \/ TEXT ∈ keys) /\
    (is_Some text_lengths' <-> is_Some text_lengths \/ TEXT ∈ keys).
Proof.
  revert batch_encoded text_output text_lengths.
  induction keys as [|key keys IH]; intros batch_encoded text_output text_lengths Hnd Hrun;
    simpl in Hrun.
  - injection Hrun as <- <- <-. exists []. rewrite app_nil_r.
    split_and!; try done; rewrite elem_of_nil; tauto.
  - assert ((key ∉ batch_encoded.*1) /\ (key ∉ keys) /\ NoDup (batch_encoded.*1 ++ keys))
      as (Hfresh & Hlater & Hnd').
    { apply NoDup_app in Hnd as (Hbe & Hdisj & Hkeys).
      apply NoDup_cons in Hkeys as [? ?]. split_and!; [|done|].
      - intros Hin. apply (Hdisj key Hin). left.
      - apply NoDup_app. split_and!; [done| |done].
        intros k Hk Hk'. apply (Hdisj k Hk). by right. }
    unfold str_in in Hrun. case_bool_decide as Hkey.
    + apply bind_inr in Hrun as ([[features text] lengths] & Hencode & Hrun).
      rewrite dict_set_absent in Hrun by done.
      assert (NoDup ((batch_encoded ++ [(key, features)]).*1 ++ keys)) as Hnd''.
      { rewrite fmap_app, <- app_assoc. simpl. exact Hnd. }
      rewrite filter_cons_True by done.
      destruct (decide (key = TEXT)) as [->|Hne].
      * destruct (IH _ _ _ Hnd'' Hrun) as (encoded & -> & Hkeys & Hall & Htext & Hlen).
        exists ((TEXT, features) :: encoded). rewrite <- app_assoc. simpl.
        split_and!; [done|by f_equal| | |].
        -- constructor; [simpl; eauto|done].
        -- rewrite Htext. split; [intros _; right; left|eauto].
        -- rewrite Hlen. split; [intros _; right; left|eauto].
      * destruct (IH _ _ _ Hnd'' Hrun) as (encoded & -> & Hkeys & Hall & Htext & Hlen).
        exists ((key, features) :: encoded). rewrite <- app_assoc. simpl.
        split_and!; [done|by f_equal| | |].
        -- constructor; [simpl; eauto|done].
        -- rewrite Htext, elem_of_cons. intuition congruence.
        -- rewrite Hlen, elem_of_cons. intuition congruence.
    + rewrite filter_cons_False by done.
      destruct (IH _ _ _ Hnd' Hrun) as (encoded & -> & Hkeys & Hall & Htext & Hlen).
      exists encoded. split_and!; try done.
      * rewrite Htext, elem_of_cons. split; [tauto|]. intros [?|[Heq|?]]; try tauto.
        exfalso. apply Hkey. rewrite <- Heq. by_compute.
      * rewrite Hlen, elem_of_cons. split; [tauto|]. intros [?|[Heq|?]]; try tauto.
        exfalso. apply Hkey. rewrite <- Heq. by_compute.
Qed.

(** The loop returns when every encoder returns. *)
Lemma encode_attributes_ok {L : Layers} self tf_batch_data keys batch_encoded
    text_output text_lengths :
  (forall key, key ∈ keys ->
     is_ok (_encode_features_per_attribute self tf_batch_data key)) ->
  is_ok (encode_attributes self tf_batch_data keys batch_encoded text_output text_lengths).
Proof.
  revert batch_encoded text_output text_lengths.
  induction keys as [|key keys IH]; intros batch_encoded text_output text_lengths Hall;
    simpl; [by eexists|].
  destruct (str_in key _).
  - destruct (Hall key) as [[[features text] lengths] ->]; [left|].
    cbn [mbind Result_bind]. destruct (decide (key = TEXT));
      apply IH; intros k Hk; apply Hall; by right.
  - apply IH. intros k Hk. apply Hall. by right.
Qed.

Lemma dict_pop_missing {V} (d : list (string * V)) key :
  key ∉ d.*1 -> dict_pop d key = inl (KeyError key).
Proof. intros Hkey. unfold dict_pop. by rewrite MetadataKeyFacts.dict_get_missing. Qed.

Lemma dict_pop_keys {V} (d : list (string * V)) key v d' :
  dict_pop d key = inr (v, d') ->
  dict_get d key = inr v /\ d' = filter (fun entry => entry.1 <> key) d.
Proof.
  unfold dict_pop. intros Hpop. apply bind_inr in Hpop as (v' & Hget & Hpop).
  by injection Hpop as <- <-.
Qed.

Lemma elem_of_keys_without {V} (d : list (string * V)) key k :
  k ∈ (filter (fun entry : string * V => entry.1 <> key) d).*1 <-> k ∈ d.*1 /\ k <> key.
Proof.
  rewrite !list_elem_of_fmap. split.
  - intros ([k' v] & -> & Hin). apply list_elem_of_filter in Hin as [Hne Hin].
    split; [by exists (k', v)|done].
  - intros (([k' v] & -> & Hin) & Hne). exists (k', v). split; [done|].
    by apply list_elem_of_filter.
Qed.

(** Either both encodings are popped and added, or the one that is there is
    popped, or popping the second one fails. *)
Lemma encoded_keys_in_batch (keys : list string) key :
  key ∈ filter (fun key => key ∈ SENTENCE_FEATURES_TO_ENCODE ++ STATE_LEVEL_FEATURES) keys
  <-> key ∈ keys /\ key ∈ SENTENCE_FEATURES_TO_ENCODE ++ STATE_LEVEL_FEATURES.
Proof. rewrite list_elem_of_filter. tauto. Qed.

End ProcessBatchFacts.

(** X12.  [_process_batch_data] needs an action and a user attribute in the
    batch.  Whenever it returns, the batch holds the action name or the
    action text, and the intent or the text.  When the attributes of the
    batch can be encoded, a batch without action attribute makes it raise a
    [KeyError] for the action name, and a batch with one action attribute
    and without user attribute a [KeyError] for the intent.  The keys of the
    batch are pairwise different. *)
Theorem process_batch_needs_user_and_action {L : TED.Layers}
    (self : TED.t) (tf_batch_data : TED.BatchData) :
  let keys := (TED.attributes tf_batch_data).*1 in
  let action := ACTION_NAME ∈ keys \/ ACTION_TEXT ∈ keys in
  let user := INTENT ∈ keys \/ TEXT ∈ keys in
  let result := TEDBatch._process_batch_data self tf_batch_data in
  NoDup keys ->
  (is_ok result -> user /\ action) /\
  ((forall key, key ∈ keys ->
      is_ok (TED._encode_features_per_attribute self tf_batch_data key)) ->
   (~ action -> result = inl (KeyError ACTION_NAME)) /\
   (action -> ~ (ACTION_NAME ∈ keys /\ ACTION_TEXT ∈ keys) -> ~ user ->
    result = inl (KeyError INTENT))).
Proof.
  intros keys action user result Hnd.
  assert (forall batch_encoded text lengths,
            TEDBatch.encode_attributes self tf_batch_data keys [] None None
              = inr (batch_encoded, text, lengths) ->
            forall key, key ∈ batch_encoded.*1 <->
              key ∈ keys /\ key ∈ SENTENCE_FEATURES_TO_ENCODE ++ STATE_LEVEL_FEATURES)
    as Hencoded.
  { intros batch_encoded text lengths Hrun key.
    destruct (ProcessBatchFacts.encode_attributes_keys self tf_batch_data keys [] None
                None batch_encoded text lengths Hnd Hrun) as (encoded & -> & Hkeys & _).
    simpl. rewrite Hkeys. apply ProcessBatchFacts.encoded_keys_in_batch. }
  assert (forall key, key ∈ [ACTION_NAME; ACTION_TEXT; INTENT; TEXT] ->
            key ∈ SENTENCE_FEATURES_TO_ENCODE ++ STATE_LEVEL_FEATURES) as Hsentence.
  { intros key Hkey.
    repeat (apply elem_of_cons in Hkey as [->|Hkey]); [| | | |inversion Hkey]; by_compute. }
  split.
  - intros [[[features text] lengths] Hresult]. subst result.
    unfold TEDBatch._process_batch_data in Hresult. fold keys in Hresult.
    apply bind_inr in Hresult as ([[batch_encoded text'] lengths'] & Hrun & Hresult).
    apply bind_inr in Hresult as ([batch_action without_action] & Haction & Hresult).
    apply bind_inr in Hresult as ([batch_user without_user] & Huser & Hresult).
    pose proof (Hencoded _ _ _ Hrun) as Hkeys.
    assert action as Hact.
    { destruct (TEDBatch.dict_has batch_encoded ACTION_TEXT) eqn:Htext.
      - apply ProcessBatchFacts.dict_has_spec, Hkeys in Htext as [? _]. by right.
      - destruct (TEDBatch.dict_has batch_encoded ACTION_NAME) eqn:Hname.
        + apply ProcessBatchFacts.dict_has_spec, Hkeys in Hname as [? _]. by left.
        + simpl in Haction. rewrite ProcessBatchFacts.dict_pop_missing in Haction;
            [discriminate|].
          intros Hin. apply ProcessBatchFacts.dict_has_spec in Hin. congruence. }
    split; [|done].
    assert (forall key, key ∈ without_action.*1 -> key ∈ keys) as Hsub.
    { intros key Hin. apply Hkeys.
      destruct (TEDBatch.dict_has batch_encoded ACTION_TEXT
                && TEDBatch.dict_has batch_encoded ACTION_NAME).
      - apply bind_inr in Haction as ([t d1] & Hp1 & Haction).
        apply bind_inr in Haction as ([n d2] & Hp2 & Haction).
        apply bind_inr in Haction as (sum & _ & Haction). injection Haction as _ <-.
        apply ProcessBatchFacts.dict_pop_keys in Hp1 as [_ ->].
        apply ProcessBatchFacts.dict_pop_keys in Hp2 as [_ ->].
        apply ProcessBatchFacts.elem_of_keys_without in Hin as [Hin _].
        by apply ProcessBatchFacts.elem_of_keys_without in Hin as [Hin _].
      - destruct (TEDBatch.dict_has batch_encoded ACTION_TEXT);
          apply ProcessBatchFacts.dict_pop_keys in Haction as [_ ->];
          by apply ProcessBatchFacts.elem_of_keys_without in Hin as [Hin _]. }
    destruct (TEDBatch.dict_has without_action INTENT) eqn:Hintent.
    + apply ProcessBatchFacts.dict_has_spec, Hsub in Hintent. by left.
    + destruct (TEDBatch.dict_has without_action TEXT) eqn:Htext.
      * apply ProcessBatchFacts.dict_has_spec, Hsub in Htext. by right.
      * simpl in Huser. rewrite ProcessBatchFacts.dict_pop_missing in Huser;
          [discriminate|].
        intros Hin. apply ProcessBatchFacts.dict_has_spec in Hin. congruence.
  - intros Hok.
    destruct (ProcessBatchFacts.encode_attributes_ok self tf_batch_data keys [] None None
                Hok) as [[[batch_encoded text] lengths] Hrun].
    pose proof (Hencoded _ _ _ Hrun) as Hkeys.
    subst result. unfold TEDBatch._process_batch_data. fold keys. rewrite Hrun.
    cbn [mbind Result_bind].
    assert (forall key, key ∈ [ACTION_NAME; ACTION_TEXT; INTENT; TEXT] ->
              TEDBatch.dict_has batch_encoded key = bool_decide (key ∈ keys)) as Hhas.
    { intros key Hkey. unfold TEDBatch.dict_has. apply bool_decide_ext.
      rewrite Hkeys. specialize (Hsentence key Hkey).
      split; [by intros [? _]|by split]. }
    rewrite !Hhas by by_compute.
    split.
    + intros Hnone. unfold action in Hnone.
      rewrite !bool_decide_false by tauto. simpl.
      rewrite ProcessBatchFacts.dict_pop_missing; [done|].
      rewrite Hkeys. tauto.
    + intros Hact Hone Hnone. unfold action in Hact. unfold user in Hnone.
      assert (exists key, key ∈ [ACTION_NAME; ACTION_TEXT] /\ key ∈ keys /\
                (if bool_decide (ACTION_TEXT ∈ keys) && bool_decide (ACTION_NAME ∈ keys)
                 then '(action_text, batch_encoded) ←
                        TEDBatch.dict_pop batch_encoded ACTION_TEXT;
                      '(action_name, batch_encoded) ←
                        TEDBatch.dict_pop batch_encoded ACTION_NAME;
                      batch_action ← TEDBatch.add action_text action_name;
                      ret (batch_action, batch_encoded)
                 else if bool_decide (ACTION_TEXT ∈ keys)
                      then TEDBatch.dict_pop batch_encoded ACTION_TEXT
                      else TEDBatch.dict_pop batch_encoded ACTION_NAME)
                = TEDBatch.dict_pop batch_encoded key) as (key & Hkey & Hin & ->).
      { destruct (decide (ACTION_TEXT ∈ keys)) as [Htext|Htext].
        - exists ACTION_TEXT. rewrite (bool_decide_true _ Htext).
          rewrite (bool_decide_false (ACTION_NAME ∈ keys)) by tauto.
          split_and!; [by_compute|done|done].
        - exists ACTION_NAME. rewrite (bool_decide_false _ Htext).
          split_and!; [by_compute|tauto|done]. }
      destruct (ProcessBatchFacts.dict_get_is_ok batch_encoded key) as [t Ht].
      { apply Hkeys. split; [done|]. apply Hsentence.
        repeat (apply elem_of_cons in Hkey as [->|Hkey]); [| |inversion Hkey]; by_compute. }
      assert (TEDBatch.dict_pop batch_encoded key
              = inr (t, filter (fun entry : string * Tensor3 => entry.1 <> key)
                          batch_encoded)) as ->
        by (unfold TEDBatch.dict_pop; by rewrite Ht).
      cbn [mbind Result_bind ret].
      assert (forall k, k ∈ [INTENT; TEXT] ->
                TEDBatch.dict_has
                  (filter (fun entry : string * Tensor3 => entry.1 <> key) batch_encoded) k
                = false) as Hgone.
      { intros k Hk. apply bool_decide_eq_false.
        rewrite ProcessBatchFacts.elem_of_keys_without, Hkeys.
        intros [[Hin' _] _]. apply Hnone.
        apply elem_of_cons in Hk as [->|Hk]; [by left|].
        apply elem_of_cons in Hk as [->|Hk]; [by right|inversion Hk]. }
      rewrite !Hgone by by_compute. simpl.
      rewrite ProcessBatchFacts.dict_pop_missing; [done|].
      intros Hin'. apply ProcessBatchFacts.dict_has_spec in Hin'.
      rewrite Hgone in Hin' by by_compute. discriminate.
Qed.

Lemma process_batch_needs_user_and_action_witness :
  TEDBatch._process_batch_data (L := Examples.layers) (Examples.model 5 3 4)
    Examples.batch_with_slots = inl (KeyError ACTION_NAME).
Proof.
  pose proof (process_batch_needs_user_and_action (L := Examples.layers)
                (Examples.model 5 3 4) Examples.batch_with_slots) as Hspec.
  cbv zeta in Hspec.
  destruct Hspec as [_ Hspec]; [by_compute|].
  apply Hspec.
  - intros key Hkey.
    apply elem_of_cons in Hkey as [->|Hkey];
      [|apply elem_of_cons in Hkey as [->|Hkey]; [|inversion Hkey]];
      eexists; vm_compute; reflexivity.
  - intros [Hin|Hin]; revert Hin; by_compute.
Defined.
